(** * auction-data-scraper: the extraction, filtering and digest pipeline

    A shallow embedding of the pure parts of [scraper.py],
    [comprehensive_debug.py] and [email_sender.py], with the properties the
    specification states about them.

    Text.  A Python [str] is modelled as a Rocq [string]; a character is read
    as the code point U+0000..U+00FF with the same number.  On that range
    [str.lower], [str.isspace] (hence [str.strip] and the regular expression
    class [\s]) are the functions below. *)

From Stdlib Require Import ZArith Ascii String List Lia Permutation Sorted.
From stdpp Require Import gmap strings list fin_maps.

Local Open Scope string_scope.

(** ** Python text primitives *)

Module Py.

(** [str.isspace] on one character: TAB..CR, FS..US, SPACE, NEL, NBSP. *)
Definition isspace (c : ascii) : bool :=
  let n := N_of_ascii c in
  ((9 <=? n) && (n <=? 13) || (28 <=? n) && (n <=? 32) || (n =? 133) || (n =? 160))%N.

(** [str.lower] on one character: A..Z and the Latin-1 capitals
    U+00C0..U+00DE (without the multiplication sign U+00D7). *)
Definition lower_char (c : ascii) : ascii :=
  let n := N_of_ascii c in
  if ((65 <=? n) && (n <=? 90) ||
      (192 <=? n) && (n <=? 222) && negb (n =? 215))%N
  then ascii_of_N (n + 32) else c.

Fixpoint lower (s : string) : string :=
  match s with
  | EmptyString => EmptyString
  | String c s' => String (lower_char c) (lower s')
  end.

Fixpoint lstrip (s : string) : string :=
  match s with
  | EmptyString => EmptyString
  | String c s' => if isspace c then lstrip s' else s
  end.

Fixpoint rstrip (s : string) : string :=
  match s with
  | EmptyString => EmptyString
  | String c s' =>
      match rstrip s' with
      | EmptyString => if isspace c then EmptyString else String c EmptyString
      | r => String c r
      end
  end.

(** [s.strip()] *)
Definition strip (s : string) : string := rstrip (lstrip s).

(** [s.startswith(p)] *)
Fixpoint startswith (s p : string) {struct p} : bool :=
  match p, s with
  | EmptyString, _ => true
  | String a p', String b s' => Ascii.eqb a b && startswith s' p'
  | String _ _, EmptyString => false
  end.

(** [sub in s] on strings *)
Fixpoint contains (s sub : string) : bool :=
  startswith s sub ||
  match s with
  | EmptyString => false
  | String _ s' => contains s' sub
  end.

(** Truth value of a [str]: the empty string is false. *)
Definition nonempty (s : string) : bool :=
  match s with EmptyString => false | String _ _ => true end.

(** Truth value of a value that is a [str] or [None]. *)
Definition truthy (o : option string) : bool :=
  match o with Some s => nonempty s | None => false end.

(** [a or b] on such values: [a] when it is true, otherwise [b]. *)
Definition or_else (a b : option string) : option string :=
  if truthy a then a else b.

End Py.

(** ** The auction record (the dict built by [extract_auction_from_row])

    Every key is present in the dicts the extractor builds, so the defaults
    of [dict.get] in the consumers never apply.  A field that may hold
    [None] is an [option]. *)

Record Auction := mkAuction {
  title : string;
  url : option string;
  current_bid : string;
  end_time : string;
  location : string;
  condition : string;
  image_url : option string;
  image_path : option string;
  search_term : string
}.

(** ** [BidFTAScraper.remove_duplicates] *)

Record DedupState := mkDedup {
  seen_urls : gset string;
  seen_titles : gset string;
  unique_auctions : list Auction
}.

Definition dedup_init : DedupState := mkDedup ∅ ∅ [].

(** The text of a value that is a [str] or [None] (used only where the value
    is known to be true). *)
Definition text_of (o : option string) : string := default EmptyString o.

(** One iteration of the [for auction in auctions] loop.  The two trailing
    [elif] branches of the source only log. *)
Definition dedup_step (st : DedupState) (auction : Auction) : DedupState :=
  let url := url auction in
  let title := Py.strip (Py.lower (title auction)) in
  if Py.truthy url && negb (bool_decide (text_of url ∈ seen_urls st)) then
    mkDedup ({[text_of url]} ∪ seen_urls st) (seen_titles st)
            (unique_auctions st ++ [auction])
  else if negb (Py.truthy url) && Py.nonempty title
          && negb (bool_decide (title ∈ seen_titles st)) then
    mkDedup (seen_urls st) ({[title]} ∪ seen_titles st)
            (unique_auctions st ++ [auction])
  else st.

Definition remove_duplicates (auctions : list Auction) : list Auction :=
  unique_auctions (foldl dedup_step dedup_init auctions).

(** ** Configuration ([config.py], read-only at run time) *)

Record Config := mkConfig {
  SEARCH_TERMS : list string;
  CINCINNATI_LOCATIONS : list string;
  FILTERS_condition : list string;    (* FILTERS['condition'] *)
  delay_between_searches : Z          (* SCRAPING_CONFIG['delay_between_searches'] *)
}.

(** ** [BidFTAScraper.meets_criteria] *)

Definition meets_criteria (cfg : Config) (auction_data : Auction) : bool :=
  if negb (Py.nonempty (title auction_data))
     || negb (Py.nonempty (location auction_data)) then false
  else
    let location := Py.lower (location auction_data) in
    let location_match :=
      existsb (fun cin_location => Py.contains location (Py.lower cin_location))
              (CINCINNATI_LOCATIONS cfg) in
    if negb location_match then false
    else
      let condition := Py.lower (condition auction_data) in
      let condition_match :=
        existsb (fun filter_condition =>
                   Py.contains condition (Py.lower filter_condition))
                (FILTERS_condition cfg) in
      if negb condition_match then false else true.

(** ** [EmailSender.sort_auctions_by_end_time] and
       [EmailSender.group_auctions_by_search_term] *)

Definition parse_end_time (auction : Auction) : nat :=
  let end_time := Py.lower (end_time auction) in
  if Py.contains end_time "today" then 0
  else if Py.contains end_time "tomorrow" then 1
  else if Py.contains end_time "sunday" then 2
  else if Py.contains end_time "monday" then 3
  else if Py.contains end_time "tuesday" then 4
  else if Py.contains end_time "wednesday" then 5
  else if Py.contains end_time "thursday" then 6
  else if Py.contains end_time "friday" then 7
  else if Py.contains end_time "saturday" then 8
  else 9.

(** [sorted(xs, key=key)] is a stable sort.  The result of a stable sort does
    not depend on the algorithm; it is computed here by insertion. *)
Section Sorted.
Context {A : Type} (key : A -> nat).

Fixpoint insert_by_key (x : A) (l : list A) : list A :=
  match l with
  | [] => [x]
  | y :: l' => if (key x <=? key y)%nat then x :: l
               else y :: insert_by_key x l'
  end.

Fixpoint sorted_by_key (l : list A) : list A :=
  match l with
  | [] => []
  | x :: l' => insert_by_key x (sorted_by_key l')
  end.
End Sorted.

Definition sort_auctions_by_end_time (auctions : list Auction) : list Auction :=
  sorted_by_key parse_end_time auctions.

(** The dict [grouped] is a finite map from search term to group; the order
    of its keys, which no statement below depends on, is not modelled.  One
    iteration of the grouping loop: create the group when the key is new,
    then append. *)
Definition group_step (grouped : gmap string (list Auction)) (auction : Auction)
  : gmap string (list Auction) :=
  let search_term := search_term auction in
  let grouped :=
    match grouped !! search_term with
    | None => <[search_term := []]> grouped
    | Some _ => grouped
    end in
  <[search_term := (default [] (grouped !! search_term) ++ [auction])%list]> grouped.

Definition group_auctions_by_search_term (auctions : list Auction)
  : gmap string (list Auction) :=
  sort_auctions_by_end_time <$> foldl group_step ∅ auctions.

(** ** Dates: the part of [datetime] that [get_week_date_range] uses

    A naive [datetime] is its proleptic Gregorian ordinal (day 1 is
    0001-01-01, a Monday) and the time of day in microseconds.  Adding a
    [timedelta] of whole days keeps the time of day and raises
    [OverflowError] outside [MINORDINAL..MAXORDINAL]; the error is [None]. *)

Record datetime := mkDatetime {
  toordinal : Z;
  time_of_day : Z
}.

Definition MINORDINAL : Z := 1.
Definition MAXORDINAL : Z := 3652059.   (* date(9999, 12, 31).toordinal() *)

(** [d.weekday()]: Monday is 0, Sunday is 6. *)
Definition weekday (d : datetime) : Z := (toordinal d + 6) mod 7.

(** [d + timedelta(days=k)] *)
Definition add_days (d : datetime) (k : Z) : option datetime :=
  let o := (toordinal d + k)%Z in
  if ((MINORDINAL <=? o) && (o <=? MAXORDINAL))%Z
  then Some (mkDatetime o (time_of_day d)) else None.

Definition DAYS_IN_MONTH (month : Z) : Z :=
  nth (Z.to_nat month) [-1; 31; 28; 31; 30; 31; 30; 31; 31; 30; 31; 30; 31]%Z 0%Z.

Definition DAYS_BEFORE_MONTH (month : Z) : Z :=
  nth (Z.to_nat month)
      [-1; 0; 31; 59; 90; 120; 151; 181; 212; 243; 273; 304; 334]%Z 0%Z.

(** [_ord2ymd]: ordinal to (year, month, day). *)
Definition ord2ymd (ordinal : Z) : Z * Z * Z :=
  let n := (ordinal - 1)%Z in
  let n400 := (n / 146097)%Z in let n := (n mod 146097)%Z in
  let n100 := (n / 36524)%Z in let n := (n mod 36524)%Z in
  let n4 := (n / 1461)%Z in let n := (n mod 1461)%Z in
  let n1 := (n / 365)%Z in let n := (n mod 365)%Z in
  let year := (n400 * 400 + 1 + n100 * 100 + n4 * 4 + n1)%Z in
  if ((n1 =? 4) || (n100 =? 4))%Z then ((year - 1)%Z, 12%Z, 31%Z)
  else
    let leapyear := ((n1 =? 3) && (negb (n4 =? 24) || (n100 =? 3)))%Z in
    let month := Z.shiftr (n + 50) 5 in
    let preceding :=
      (DAYS_BEFORE_MONTH month
       + (if (2 <? month)%Z && leapyear then 1 else 0))%Z in
    if (n <? preceding)%Z then
      let month := (month - 1)%Z in
      let preceding :=
        (preceding - (DAYS_IN_MONTH month
                      + (if (month =? 2)%Z && leapyear then 1 else 0)))%Z in
      (year, month, (n - preceding + 1)%Z)
    else (year, month, (n - preceding + 1)%Z).

Definition digit (n : Z) : string :=
  String (ascii_of_N (48 + Z.to_N (n mod 10))) EmptyString.

(** The zero-padded two-digit fields of [strftime], [%m] and [%d]. *)
Definition fmt2 (n : Z) : string := digit (n / 10) ++ digit n.

(** [%Y] as the C library of Linux renders it, which is what [strftime]
    returns there: the decimal digits of the year without padding, so that
    the year 7 is rendered as the one digit 7. *)
Definition fmtY (y : Z) : string :=
  if (y <? 10)%Z then digit y
  else if (y <? 100)%Z then digit (y / 10) ++ digit y
  else if (y <? 1000)%Z then digit (y / 100) ++ digit (y / 10) ++ digit y
  else digit (y / 1000) ++ digit (y / 100) ++ digit (y / 10) ++ digit y.

(** [d.strftime('%Y-%m-%dT04:00:00.000Z')]: the time of day of [d] is not
    rendered, the hour is the literal 04:00. *)
Definition strftime_T04 (d : datetime) : string :=
  let '(y, m, dd) := ord2ymd (toordinal d) in
  fmtY y ++ "-" ++ fmt2 m ++ "-" ++ fmt2 dd ++ "T04:00:00.000Z".

(** [date(year, month, day).toordinal()], with the helpers of [datetime]
    that it uses; [None] is the [ValueError] of the constructor. *)
Definition is_leap (year : Z) : bool :=
  ((year mod 4 =? 0) && (negb (year mod 100 =? 0) || (year mod 400 =? 0)))%Z.

Definition days_before_year (year : Z) : Z :=
  let y := (year - 1)%Z in (y * 365 + y / 4 - y / 100 + y / 400)%Z.

Definition days_in_month (year month : Z) : Z :=
  if (month =? 2)%Z && is_leap year then 29%Z else DAYS_IN_MONTH month.

Definition days_before_month (year month : Z) : Z :=
  (DAYS_BEFORE_MONTH month + (if (2 <? month)%Z && is_leap year then 1 else 0))%Z.

Definition ymd2ord (year month day : Z) : option Z :=
  if ((1 <=? year) && (year <=? 9999) && (1 <=? month) && (month <=? 12)
      && (1 <=? day) && (day <=? days_in_month year month))%Z
  then Some (days_before_year year + days_before_month year month + day)%Z
  else None.

(** ** [get_week_date_range], both variants

    [now] is the value of [datetime.now()].  [week_bounds] computes the two
    datetimes, [get_week_date_range] renders them. *)

Definition days_since_sunday (now : datetime) : Z := (weekday now + 1) mod 7.

(** [scraper.py]: [sunday] and [next_sunday = sunday + timedelta(days=7)]. *)
Definition week_bounds (now : datetime) : option (datetime * datetime) :=
  sunday ← add_days now (- days_since_sunday now);
  next_sunday ← add_days sunday 7;
  Some (sunday, next_sunday).

Definition get_week_date_range (now : datetime) : option (string * string) :=
  '(sunday, next_sunday) ← week_bounds now;
  Some (strftime_T04 sunday, strftime_T04 next_sunday).

(** [comprehensive_debug.py]: [saturday = sunday + timedelta(days=6)], and
    with [ignore_dates] the window is thirty days either side of [now]. *)
Definition week_bounds_debug (now : datetime) (ignore_dates : bool)
  : option (datetime * datetime) :=
  if ignore_dates then
    start ← add_days now (-30);
    end_ ← add_days now 30;
    Some (start, end_)
  else
    sunday ← add_days now (- days_since_sunday now);
    saturday ← add_days sunday 6;
    Some (sunday, saturday).

Definition get_week_date_range_debug (now : datetime) (ignore_dates : bool)
  : option (string * string) :=
  '(sunday, saturday) ← week_bounds_debug now ignore_dates;
  Some (strftime_T04 sunday, strftime_T04 saturday).

(** A timestamp of the request, as an instant: the rendered day at 04:00, in
    seconds since 0001-01-01T00:00. *)
Definition instant_T04 (d : datetime) : Z := (toordinal d - 1) * 86400 + 4 * 3600.

(** ** [json.dumps(obj, separators=(',', ':'))] and [base64.b64encode]

    The values of the search parameters are strings, lists of strings and a
    boolean; a dict is serialised in insertion order. *)

Inductive JValue :=
| JStr (s : string)
| JList (l : list string)
| JBool (b : bool).

(** The one-character string holding the double quote U+0022. *)
Definition dquote : string := String (ascii_of_N 34) EmptyString.

Definition hex_digit (n : N) : string :=
  String (ascii_of_N (if (n <? 10)%N then 48 + n else 87 + n)) EmptyString.

(** [ensure_ascii] escaping of one character: the short escapes, and
    [\u00xx] for everything else outside SPACE..TILDE. *)
Definition json_escape_char (c : ascii) : string :=
  let n := N_of_ascii c in
  if (n =? 34)%N then "\" ++ dquote
  else if (n =? 92)%N then "\\"
  else if (n =? 10)%N then "\n"
  else if (n =? 13)%N then "\r"
  else if (n =? 9)%N then "\t"
  else if (n =? 8)%N then "\b"
  else if (n =? 12)%N then "\f"
  else if ((32 <=? n) && (n <=? 126))%N then String c EmptyString
  else "\u00" ++ hex_digit (n / 16) ++ hex_digit (n mod 16).

Fixpoint json_escape (s : string) : string :=
  match s with
  | EmptyString => EmptyString
  | String c s' => json_escape_char c ++ json_escape s'
  end.

Definition dumps_str (s : string) : string := dquote ++ json_escape s ++ dquote.

Fixpoint join (sep : string) (parts : list string) : string :=
  match parts with
  | [] => EmptyString
  | [x] => x
  | x :: rest => x ++ sep ++ join sep rest
  end.

Definition dumps_value (v : JValue) : string :=
  match v with
  | JStr s => dumps_str s
  | JList l => "[" ++ join "," (map dumps_str l) ++ "]"
  | JBool b => if b then "true" else "false"
  end.

Definition dumps (obj : list (string * JValue)) : string :=
  "{" ++ join "," (map (fun kv => dumps_str (fst kv) ++ ":" ++ dumps_value (snd kv)) obj)
      ++ "}".

Definition b64_char (n : N) : ascii :=
  ascii_of_N (if (n <? 26)%N then 65 + n
              else if (n <? 52)%N then 97 + (n - 26)
              else if (n <? 62)%N then 48 + (n - 52)
              else if (n =? 62)%N then 43 else 47).

Fixpoint b64encode_bytes (bytes : list N) : list ascii :=
  match bytes with
  | [] => []
  | [a] =>
      let n := (a * 65536)%N in
      [b64_char (n / 262144); b64_char (n / 4096 mod 64); "="%char; "="%char]
  | [a; b] =>
      let n := (a * 65536 + b * 256)%N in
      [b64_char (n / 262144); b64_char (n / 4096 mod 64);
       b64_char (n / 64 mod 64); "="%char]
  | a :: b :: c :: rest =>
      let n := (a * 65536 + b * 256 + c)%N in
      b64_char (n / 262144) :: b64_char (n / 4096 mod 64)
      :: b64_char (n / 64 mod 64) :: b64_char (n mod 64)
      :: b64encode_bytes rest
  end.

(** [base64.b64encode(s.encode()).decode()] for a string of ASCII
    characters, which is what [dumps] produces (lemma [dumps_ascii]): the
    bytes of the UTF-8 encoding are the character codes. *)
Definition b64encode (s : string) : string :=
  string_of_list_ascii
    (b64encode_bytes (map N_of_ascii (list_ascii_of_string s))).

(** ** [build_search_url], both variants *)

Definition search_params (cfg : Config) (search_term newerThan olderThan : string)
  : list (string * JValue) :=
  [ ("searchTerm", JStr search_term);
    ("locations", JList (CINCINNATI_LOCATIONS cfg));
    ("conditions", JList (FILTERS_condition cfg));
    ("sort", JStr "DATE_ASC");
    ("newerThan", JStr newerThan);
    ("olderThan", JStr olderThan);
    ("ended", JBool false) ].

Definition base_url : string := "https://www.bidft.auction".

(** The part of [build_search_url] after the date window is known. *)
Definition encode_search_url (cfg : Config) (search_term : string)
    (window : string * string) : string :=
  let json_str := dumps (search_params cfg search_term (fst window) (snd window)) in
  let encoded_params := b64encode json_str in
  base_url ++ "/archive?searchSettings=" ++ encoded_params.

Definition build_search_url (cfg : Config) (now : datetime) (search_term : string)
  : option string :=
  window ← get_week_date_range now;
  Some (encode_search_url cfg search_term window).


(** ** The rendered row, as the extractor observes it

    An element exposes its tag, its rendered text and its attributes
    ([get_attribute] is [None] for an absent attribute).  A cell exposes its
    text and its descendant elements in document order; a row exposes its
    [td] cells and its descendant elements.  Nothing is assumed about how the
    elements of a row relate to those of its cells, so every statement below
    holds in particular for the rows of a real document. *)

Record Element := mkElement {
  tag_name : string;
  text : string;
  attributes : gmap string string
}.

Record Cell := mkCell {
  cell_text : string;
  cell_elements : list Element
}.

Record Row := mkRow {
  row_cells : list Cell;       (* find_elements(By.TAG_NAME, 'td') *)
  row_elements : list Element
}.

Definition get_attribute (e : Element) (name : string) : option string :=
  attributes e !! name.

(** [find_elements(By.TAG_NAME, tag)] *)
Definition find_elements_by_tag (els : list Element) (tag : string) : list Element :=
  List.filter (fun e => String.eqb (tag_name e) tag) els.

(** [find_element(By.TAG_NAME, tag)]; [None] is [NoSuchElementException]. *)
Definition find_element_by_tag (els : list Element) (tag : string) : option Element :=
  head (find_elements_by_tag els tag).

(** The XPath predicate of strategy 2:
    [@onclick or @data-href or @data-url or contains(@class, 'link')
     or contains(@class, 'clickable')]. *)
Definition is_clickable (e : Element) : bool :=
  let class := text_of (get_attribute e "class") in
  bool_decide (is_Some (get_attribute e "onclick"))
  || bool_decide (is_Some (get_attribute e "data-href"))
  || bool_decide (is_Some (get_attribute e "data-url"))
  || Py.contains class "link"
  || Py.contains class "clickable".

Definition find_clickable (els : list Element) : list Element :=
  List.filter is_clickable els.

(** [a or b] on strings. *)
Definition str_or (a b : string) : string := if Py.nonempty a then a else b.

(** The [for link in all_links] loop of strategy 3, which stops at the first
    link whose href is non-empty and carries an item marker. *)
Definition is_item_href (href : option string) : bool :=
  Py.truthy href
  && (Py.contains (text_of href) "itemDetails"
      || Py.contains (text_of href) "auction").

Fixpoint scan_links (links : list Element) (cell1 : Cell)
    (title : string) (auction_url : option string) : string * option string :=
  match links with
  | [] => (title, auction_url)
  | link :: rest =>
      let href := get_attribute link "href" in
      if is_item_href href
      then
        (if Py.nonempty title then title
         else str_or (Py.strip (text link)) (Py.strip (cell_text cell1)),
         href)
      else scan_links rest cell1 title auction_url
  end.

(** Strategy 3, entered with the current [title] and [auction_url]. *)
Definition strategy3 (row : Row) (cell1 : Cell)
    (title : string) (auction_url : option string) : string * option string :=
  let all_links := find_elements_by_tag (row_elements row) "a" in
  match all_links with
  | [] => (title, auction_url)
  | first :: _ =>
      let '(title, auction_url) := scan_links all_links cell1 title auction_url in
      if negb (Py.truthy auction_url)
      then (title, get_attribute first "href")
      else (title, auction_url)
  end.

(** The attribute chain of strategy 2. *)
Definition clickable_url (elem : Element) : option string :=
  Py.or_else (get_attribute elem "onclick")
    (Py.or_else (get_attribute elem "data-href")
       (Py.or_else (get_attribute elem "data-url")
          (get_attribute elem "href"))).

(** Strategy 4. *)
Definition strategy4 (cell1 : Cell) (title : string) : string :=
  if negb (Py.nonempty title) then Py.strip (cell_text cell1) else title.

(** Title and URL candidate in [scraper.py]: strategy 3 sits in the handler
    of strategy 2 and runs when strategy 2 found no element. *)
Definition title_and_url (row : Row) (cell1 : Cell) : string * option string :=
  match find_element_by_tag (cell_elements cell1) "a" with
  | Some link_elem => (Py.strip (text link_elem), get_attribute link_elem "href")
  | None =>
      let '(title, auction_url) :=
        match find_clickable (cell_elements cell1) with
        | elem :: _ => (Py.strip (cell_text cell1), clickable_url elem)
        | [] => strategy3 row cell1 EmptyString (Some EmptyString)
        end in
      (strategy4 cell1 title, auction_url)
  end.

(** Title and URL candidate in [comprehensive_debug.py]: strategy 3 runs
    when [auction_url] is still false after strategy 2. *)
Definition title_and_url_debug (row : Row) (cell1 : Cell) : string * option string :=
  match find_element_by_tag (cell_elements cell1) "a" with
  | Some link_elem => (Py.strip (text link_elem), get_attribute link_elem "href")
  | None =>
      let '(title, auction_url) :=
        match find_clickable (cell_elements cell1) with
        | elem :: _ => (Py.strip (cell_text cell1), clickable_url elem)
        | [] => (EmptyString, Some EmptyString)
        end in
      let '(title, auction_url) :=
        if negb (Py.truthy auction_url)
        then strategy3 row cell1 title auction_url
        else (title, auction_url) in
      (strategy4 cell1 title, auction_url)
  end.

(** ** URL clean-up

    [re.search] with the pattern of the source, [https?://] followed by one
    or more characters that are neither white space nor a single or double
    quote: the leftmost position where [http://] or [https://] is followed
    by at least one such character; the match runs as far as they go. *)

Definition url_char (c : ascii) : bool :=
  negb (Py.isspace c) && negb (Ascii.eqb c "'") && negb (Ascii.eqb c (ascii_of_N 34)).

Fixpoint take_url_chars (s : string) : string :=
  match s with
  | EmptyString => EmptyString
  | String c s' => if url_char c then String c (take_url_chars s') else EmptyString
  end.

(** The rest of [s] after the prefix [p], when [s] starts with [p]. *)
Fixpoint drop_prefix (s p : string) {struct p} : option string :=
  match p, s with
  | EmptyString, _ => Some s
  | String a p', String b s' => if Ascii.eqb a b then drop_prefix s' p' else None
  | String _ _, EmptyString => None
  end.

Definition match_url_at (s : string) : option string :=
  let scheme_then_run (scheme : string) :=
    rest ← drop_prefix s scheme;
    let run := take_url_chars rest in
    if Py.nonempty run then Some (scheme ++ run) else None in
  match scheme_then_run "https://" with
  | Some m => Some m
  | None => scheme_then_run "http://"
  end.

Fixpoint re_search_url (s : string) : option string :=
  match match_url_at s with
  | Some m => Some m
  | None =>
      match s with
      | EmptyString => None
      | String _ s' => re_search_url s'
      end
  end.

(** The block under [# Clean and make URL absolute]. *)
Definition clean_url (auction_url : option string) : option string :=
  if Py.truthy auction_url then
    let u := text_of auction_url in
    let u :=
      if Py.contains u "javascript:" || Py.contains u "onclick" then
        match re_search_url u with
        | Some url_match => url_match
        | None => u
        end
      else u in
    if Py.nonempty u && negb (Py.startswith u "http") then
      if Py.startswith u "/" then Some ("https://www.bidft.auction" ++ u)
      else if Py.startswith u "www.bidfta.com" then Some ("https://" ++ u)
      else Some ("https://www.bidft.auction/" ++ u)
    else Some u
  else auction_url.

(** ** Collaborators of the extractor: [urllib.parse.urljoin] and the
    network and file part of [download_image].

    [urljoin base url] is [None] when [urllib] raises [ValueError], as it
    does for a reference with a malformed bracketed host such as [//[x]. *)

Record Env := mkEnv {
  urljoin : string -> string -> option string;
  fetch_image : string -> option string
}.

(** [BidFTAScraper.download_image]; any failure is [None]. *)
Definition download_image (env : Env) (image_url : option string) : option string :=
  if negb (Py.truthy image_url) || Py.startswith (text_of image_url) "data:"
  then None
  else fetch_image env (text_of image_url).

(** The image URL of column 0.  The handler of this block catches
    [NoSuchElementException] only: the outer [None] is the [ValueError] of
    [urljoin], which leaves the block. *)
Definition extract_image_url (env : Env) (cell0 : Cell) : option (option string) :=
  match find_element_by_tag (cell_elements cell0) "img" with
  | Some img_elem =>
      let image_url := get_attribute img_elem "src" in
      if Py.truthy image_url && negb (Py.startswith (text_of image_url) "http")
      then joined ← urljoin env base_url (text_of image_url); Some (Some joined)
      else Some image_url
  | None => Some (Some EmptyString)
  end.

(** ** [BidFTAScraper.extract_auction_from_row]

    The body runs under [try: ... except Exception: return None]: a bind
    that fails is an exception that reaches this handler.  The row is a
    snapshot of the document, so that reading a text or an attribute does
    not fail; the one call of the body that can raise is [urljoin]. *)

Definition extract_auction_from_row (env : Env) (row_element : Row)
    (search_term : string) : option Auction :=
  let cells := row_cells row_element in
  if (length cells <? 7)%nat then None
  else
    cell0 ← cells !! 0%nat;
    cell1 ← cells !! 1%nat;
    cell3 ← cells !! 3%nat;
    cell4 ← cells !! 4%nat;
    cell5 ← cells !! 5%nat;
    cell6 ← cells !! 6%nat;
    let '(title, auction_url) := title_and_url row_element cell1 in
    let auction_url := clean_url auction_url in
    image_url ← extract_image_url env cell0;
    let condition := Py.strip (cell_text cell3) in
    let location := Py.strip (cell_text cell4) in
    let end_time := Py.strip (cell_text cell5) in
    let current_bid := Py.strip (cell_text cell6) in
    let image_path :=
      if Py.truthy image_url then download_image env image_url else None in
    Some (mkAuction title auction_url current_bid end_time location condition
                    image_url image_path search_term).

(** ** [ComprehensiveDebugger.extract_auction_from_row_comprehensive]

    The debug record has no [image_path] and carries the row number; the
    body runs under the same catch-all handler. *)

Definition extract_auction_from_row_comprehensive (env : Env) (row_element : Row)
    (search_term : string) (row_number : nat) : option (Auction * nat) :=
  let cells := row_cells row_element in
  if (length cells <? 7)%nat then None
  else
    cell0 ← cells !! 0%nat;
    cell1 ← cells !! 1%nat;
    cell3 ← cells !! 3%nat;
    cell4 ← cells !! 4%nat;
    cell5 ← cells !! 5%nat;
    cell6 ← cells !! 6%nat;
    let '(title, auction_url) := title_and_url_debug row_element cell1 in
    let auction_url := clean_url auction_url in
    let condition := Py.strip (cell_text cell3) in
    let location := Py.strip (cell_text cell4) in
    let end_time := Py.strip (cell_text cell5) in
    let current_bid := Py.strip (cell_text cell6) in
    image_url ← extract_image_url env cell0;
    Some (mkAuction title auction_url current_bid end_time location condition
                    image_url None search_term, row_number).

(** ** Vocabulary of the statements *)

(** [sub in s] holds exactly when [s] is [pre + sub + post]. *)
Definition is_substring (sub s : string) : Prop :=
  exists pre post, s = pre +:+ sub +:+ post.

(** Empty or white space only. *)
Fixpoint is_blank (s : string) : bool :=
  match s with
  | EmptyString => true
  | String c s' => Py.isspace c && is_blank s'
  end.

(** The deduplication key of a record: the verbatim url when the url is
    non-empty, otherwise the lower-cased, trimmed title. *)
Inductive DedupKey :=
| ByUrl (u : string)
| ByTitle (t : string).

#[global] Instance DedupKey_eq_dec : EqDecision DedupKey.
Proof. solve_decision. Defined.

Definition dedup_key (a : Auction) : DedupKey :=
  if Py.truthy (url a) then ByUrl (text_of (url a))
  else ByTitle (Py.strip (Py.lower (title a))).

(** A record has a usable key when its url is non-empty or its title is not
    blank. *)
Definition has_key (a : Auction) : bool :=
  Py.truthy (url a) || negb (is_blank (title a)).

(** Deduplication as the specification words it: a record is kept exactly
    when its key has not occurred earlier in the sequence. *)
Fixpoint keep_unseen (earlier : list DedupKey) (auctions : list Auction)
  : list Auction :=
  match auctions with
  | [] => []
  | a :: rest =>
      if bool_decide (dedup_key a ∈ earlier)
      then keep_unseen (earlier ++ [dedup_key a])%list rest
      else a :: keep_unseen (earlier ++ [dedup_key a])%list rest
  end.

Definition dedupe_as_specified (auctions : list Auction) : list Auction :=
  keep_unseen [] auctions.

(** Case-insensitive substring match against an allow-list: some entry,
    lower-cased, is a substring of the lower-cased field. *)
Definition allowed_matches (allowed : list string) (field : string) : Prop :=
  exists x, x ∈ allowed /\ is_substring (Py.lower x) (Py.lower field).

(** The records of one search term, in their input order. *)
Definition with_term (term : string) (auctions : list Auction) : list Auction :=
  List.filter (fun a => String.eqb (search_term a) term) auctions.

(** The records whose end-time priority is [k], in their order. *)
Definition with_priority (k : nat) (auctions : list Auction) : list Auction :=
  List.filter (fun a => Nat.eqb (parse_end_time a) k) auctions.

(** The day markers in the order of the priority scale; a text without any
    marker has priority 9. *)
Definition day_markers : list string :=
  ["today"; "tomorrow"; "sunday"; "monday"; "tuesday"; "wednesday";
   "thursday"; "friday"; "saturday"].

(** Position of the first marker that occurs in [e], or the number of
    markers when none occurs. *)
Fixpoint first_hit (e : string) (markers : list string) : nat :=
  match markers with
  | [] => 0
  | m :: rest => if Py.contains e m then 0 else S (first_hit e rest)
  end.

(** [k] is the priority of the text [e]: no marker before position [k]
    occurs in [e], and the marker at position [k], if there is one, does. *)
Definition is_priority_of (e : string) (k : nat) : Prop :=
  k <= length day_markers /\
  (forall j m, j < k -> day_markers !! j = Some m -> ~ is_substring m e) /\
  (forall m, day_markers !! k = Some m -> is_substring m e).

(** Order of two records by their sort key. *)
Definition key_le {A : Type} (key : A -> nat) (a b : A) : Prop := key a <= key b.

(** One member of a compact JSON object: the quoted key, a colon, the value. *)
Definition json_member (key value : string) : string :=
  dquote +:+ key +:+ dquote +:+ ":" +:+ value.

(** A compact JSON array of strings. *)
Definition json_array (items : list string) : string :=
  "[" +:+ join "," (map dumps_str items) +:+ "]".

(** Every character of [s] passes the test [p]. *)
Fixpoint string_forall (p : ascii -> bool) (s : string) : bool :=
  match s with
  | EmptyString => true
  | String c s' => p c && string_forall p s'
  end.



(** *** Reading a timestamp

    What a text of the form [Y-MM-DDThh:mm:ss.mmmZ] says: the ordinal of its
    calendar date and the time of day in milliseconds.  The year is a
    decimal number of any width, the other fields have their fixed
    widths. *)

Definition is_digit (c : ascii) : bool :=
  ((48 <=? N_of_ascii c) && (N_of_ascii c <=? 57))%N.

Definition digit_value (c : ascii) : option Z :=
  if is_digit c then Some (Z.of_N (N_of_ascii c) - 48)%Z else None.

Fixpoint read_digits (acc : Z) (s : string) : option Z :=
  match s with
  | EmptyString => Some acc
  | String c rest => d ← digit_value c; read_digits (acc * 10 + d) rest
  end.

(** The number that the decimal digits of [s] write. *)
Definition read_decimal (s : string) : option Z :=
  if Py.nonempty s then read_digits 0 s else None.

(** A decimal field of exactly [width] digits. *)
Definition read_field (width : nat) (s : string) : option Z :=
  if Nat.eqb (String.length s) width then read_decimal s else None.

(** The text before the first [sep] and the text after it. *)
Fixpoint split_at (sep : ascii) (s : string) : option (string * string) :=
  match s with
  | EmptyString => None
  | String c rest =>
      if Ascii.eqb c sep then Some (EmptyString, rest)
      else '(a, b) ← split_at sep rest; Some (String c a, b)
  end.

Definition read_timestamp (s : string) : option (Z * Z) :=
  '(year, s) ← split_at "-" s;
  '(month, s) ← split_at "-" s;
  '(day, s) ← split_at "T" s;
  '(hour, s) ← split_at ":" s;
  '(minute, s) ← split_at ":" s;
  '(second, s) ← split_at "." s;
  '(millis, s) ← split_at "Z" s;
  if Py.nonempty s then None
  else
    year ← read_decimal year;
    month ← read_field 2 month;
    day ← read_field 2 day;
    hour ← read_field 2 hour;
    minute ← read_field 2 minute;
    second ← read_field 2 second;
    millis ← read_field 3 millis;
    ordinal ← ymd2ord year month day;
    if ((hour <? 24) && (minute <? 60) && (second <? 60))%Z
    then Some (ordinal, (((hour * 60 + minute) * 60 + second) * 1000 + millis)%Z)
    else None.

(** The instant that the text denotes, in milliseconds since
    0001-01-01T00:00:00.000Z. *)
Definition timestamp_ms (s : string) : option Z :=
  '(ordinal, ms) ← read_timestamp s;
  Some ((ordinal - 1) * 86400000 + ms)%Z.

(** *** Checks over a range of numbers, run by evaluation *)

(** [p] holds of the [n] integers from [z] on. *)
Fixpoint all_from (n : nat) (z : Z) (p : Z -> bool) : bool :=
  match n with
  | O => true
  | S k => if p z then all_from k (z + 1)%Z p else false
  end.

(** Day [r] of the 400-year cycle: the ordinal of the calendar date of the
    ordinal [r + 1] is [r + 1], and the date lies in the years 1..400, before
    the year 400 up to the day that corresponds to 9999-12-31. *)
Definition day_ok (r : Z) : bool :=
  let '(y, m, d) := ord2ymd (r + 1) in
  ((1 <=? y) && (y <=? 400) && ((145731 <=? r) || (y <=? 399))
   && match ymd2ord y m d with Some o => (o =? r + 1) | None => false end)%Z.

(** The rendered year reads back as the year. *)
Definition year_ok (y : Z) : bool :=
  string_forall is_digit (fmtY y) &&
  match read_decimal (fmtY y) with Some v => (v =? y)%Z | None => false end.

(** The rendered two-digit field reads back as its number. *)
Definition field2_ok (n : Z) : bool :=
  string_forall is_digit (fmt2 n) &&
  match read_field 2 (fmt2 n) with Some v => (v =? n)%Z | None => false end.

(** Title and URL candidate as the specification words the chain, read in
    the way that is closest to the code.  Strategy 1 is the link of the
    description cell; it yields nothing when there is none, and then
    strategy 2 takes the first non-empty of onclick, data-href, data-url and
    href of the first clickable element.  Strategy 3 runs whenever
    strategies 1 and 2 established no URL candidate, and strategy 4 whenever
    strategies 1 to 3 established no title. *)
Definition title_and_url_as_specified (row : Row) (cell1 : Cell)
  : string * option string :=
  let '(title, auction_url) :=
    match find_element_by_tag (cell_elements cell1) "a" with
    | Some link_elem => (Py.strip (text link_elem), get_attribute link_elem "href")
    | None =>
        match find_clickable (cell_elements cell1) with
        | elem :: _ => (Py.strip (cell_text cell1), clickable_url elem)
        | [] => (EmptyString, Some EmptyString)
        end
    end in
  let '(title, auction_url) :=
    if negb (Py.truthy auction_url)
    then strategy3 row cell1 title auction_url
    else (title, auction_url) in
  (strategy4 cell1 title, auction_url).

(** The description cell of a row (column 1). *)
Definition description_cell (row : Row) : Cell :=
  default (mkCell EmptyString []) (row_cells row !! 1%nat).

(** The URL test of the specification: an absolute HTTP(S) URL. *)
Definition is_absolute (u : string) : bool :=
  Py.startswith u "http://" || Py.startswith u "https://".

(** ** Sample data *)

Definition sample_config : Config :=
  mkConfig
    ["Cat"; "Trash"; "Rug"]
    ["Cincinnati - West Seymour Ave"; "Cincinnati - West Seymour Ave.";
     "Springdale - Commons Drive"; "Cincinnati - School Road";
     "Cincinnati - Colerain Ave"; "Cincinnati - Colerain Ave.";
     "Cincinnati - Waycross Rd CWY"]
    ["Appears New"; "Brand New"]
    2.

Definition sample_env : Env :=
  mkEnv (fun base u => Some (base +:+ u)) (fun _ => None).

(** Collaborators whose [urljoin] raises on a reference that opens a
    bracketed host, as [urllib] does on [//[x]. *)
Definition strict_env : Env :=
  mkEnv (fun base u => if Py.startswith u "//[" then None else Some (base +:+ u))
        (fun _ => None).

Definition anchor (href label : string) : Element :=
  mkElement "a" label {[ "href" := href ]}.

Definition text_cell (t : string) : Cell := mkCell t [].

(** A seven-cell listing row with the given photo and description cells. *)
Definition listing_row (cell0 cell1 : Cell) : Row :=
  mkRow [cell0; cell1; text_cell EmptyString; text_cell "Brand New";
         text_cell "Cincinnati - School Road"; text_cell "Sunday 5PM";
         text_cell "$12.00"]
        (cell_elements cell0 ++ cell_elements cell1)%list.

(** The description holds a direct link. *)
Definition direct_link_row : Row :=
  listing_row (text_cell EmptyString)
              (mkCell "Cat Tower" [anchor "/item/55" "Cat Tower"]).

(** The description holds no link but an element of class item-link whose
    only URL-bearing attribute is href. *)
Definition href_only_row : Row :=
  listing_row (text_cell EmptyString)
    (mkCell "Cat Tower"
       [mkElement "span" "Cat Tower"
          {[ "class" := "item-link"; "href" := "/item/55" ]}]).

(** The description holds a clickable element without any URL attribute; the
    photo cell holds the item link. *)
Definition bare_clickable_row : Row :=
  listing_row
    (mkCell EmptyString
       [anchor "https://www.bidft.auction/itemDetails?id=55" EmptyString])
    (mkCell "Cat Tower"
       [mkElement "span" "Cat Tower" {[ "class" := "link" ]}]).


(** The description holds a clickable element whose data-href is a relative
    path that begins with the letters http. *)
Definition relative_http_row : Row :=
  listing_row (text_cell EmptyString)
    (mkCell "Cat Tower"
       [mkElement "span" "Cat Tower"
          {[ "data-href" := "http-archive/item/55" ]}]).

(** The description holds text only, and the row has no link. *)
Definition text_only_row : Row :=
  listing_row (text_cell EmptyString) (text_cell "  Cat Tower ").

(** A listing whose photo has a source that [urljoin] rejects. *)
Definition bad_photo_row : Row :=
  listing_row
    (mkCell EmptyString [mkElement "img" EmptyString {[ "src" := "//[x" ]}])
    (mkCell "Cat Tower" [anchor "/item/55" "Cat Tower"]).

(** A header row of three cells. *)
Definition header_row : Row :=
  mkRow [text_cell "PHOTO"; text_cell "DESCRIPTION"; text_cell "PRICE"] [].

Definition sample_record (t : string) (u : option string) (ends term : string)
  : Auction :=
  mkAuction t u "$12.00" ends "Cincinnati - School Road" "Brand New"
            None None term.

Definition blank_record : Auction :=
  sample_record EmptyString (Some EmptyString) "Sunday 5PM" "Cat".

Definition whitespace_record : Auction :=
  sample_record "  " None "Sunday 5PM" "Cat".

Definition cat_tower : Auction :=
  sample_record "Cat Tower" (Some "https://www.bidft.auction/item/55")
                "Sunday 5PM" "Cat".

Definition cat_tower_shouted : Auction :=
  mkAuction "Cat Tower" (Some "https://www.bidft.auction/item/55") "$12.00"
            "Sunday 5PM" "CINCINNATI - SCHOOL ROAD" "BRAND NEW" None None "Cat".

Definition rug_without_url : Auction :=
  sample_record "Persian Rug" None "Today 9PM" "Rug".

Definition trash_can : Auction :=
  sample_record "Trash Can" (Some "https://www.bidft.auction/item/77")
                "Friday 1PM" "Trash".

Definition cat_bed : Auction :=
  sample_record "Cat Bed" (Some "https://www.bidft.auction/item/56")
                "Ends TODAY 8PM" "Cat".

Definition cat_toy : Auction :=
  sample_record "cat  toy" None "11/28 3PM" "Cat".

(** Tuesday 2026-11-03 and Thursday 2026-11-05, at different times of day. *)
Definition tuesday_noon : datetime := mkDatetime 739923 43200000000.
Definition thursday_morning : datetime := mkDatetime 739925 30600000000.


(** * Further code: the rest of the digest, the debug tool and the
      orchestration *)

(** ** [EmailSender.get_location_priority] *)

(** The two priority lists of [config.py]. *)
Record Priorities := mkPriorities {
  PRIORITY_2_LOCATIONS : list string;
  PRIORITY_1_LOCATIONS : list string
}.

(** A [for] loop that returns at the first entry whose lower-cased text
    occurs in [location_lower]. *)
Fixpoint any_location_in (location_lower : string) (locations : list string) : bool :=
  match locations with
  | [] => false
  | prio_location :: rest =>
      if Py.contains location_lower (Py.lower prio_location) then true
      else any_location_in location_lower rest
  end.

Definition get_location_priority (prio : Priorities) (location : string) : nat :=
  let location_lower := Py.lower location in
  if any_location_in location_lower (PRIORITY_2_LOCATIONS prio) then 2
  else if any_location_in location_lower (PRIORITY_1_LOCATIONS prio) then 1
  else 0.

(** ** [ComprehensiveDebugger.meets_criteria_debug] *)

(** The [for ... break] loops of the debug filter: the state is the pair of
    the match flag and the matched entry. *)
Fixpoint match_loop (field : string) (allowed : list string) : bool * string :=
  match allowed with
  | [] => (false, EmptyString)
  | entry :: rest =>
      if Py.contains field (Py.lower entry) then (true, entry)
      else match_loop field rest
  end.

Definition meets_criteria_debug (cfg : Config) (auction_data : Auction) : bool :=
  if negb (Py.nonempty (title auction_data)) then false
  else if negb (Py.nonempty (location auction_data)) then false
  else
    let location := Py.lower (location auction_data) in
    let '(location_match, matched_location) :=
      match_loop location (CINCINNATI_LOCATIONS cfg) in
    if negb location_match then false
    else
      let condition := Py.lower (condition auction_data) in
      let '(condition_match, matched_condition) :=
        match_loop condition (FILTERS_condition cfg) in
      if negb condition_match then false else true.

(** The priority lists of [config.example.py]. *)
Definition sample_priorities : Priorities :=
  mkPriorities ["Cincinnati - West Seymour Ave"]
               ["Springdale - Commons Drive"; "Cincinnati - School Road"].

(** ** The browser session

    A loaded page answers a CSS selector with the rows it matches, in
    document order; [None] is an exception of [find_elements]. *)
Definition Page : Type := string -> option (list Row).

(** The selector cascade of [search_auctions]. *)
Definition table_selectors : list string :=
  ["table tbody tr"; "tbody tr"; "table tr";
   "[role=" +:+ dquote +:+ "table" +:+ dquote +:+ "] [role="
     +:+ dquote +:+ "row" +:+ dquote +:+ "]";
   ".table-row"; "tr"].


(** The [for selector in table_selectors] loop: the first selector that
    matches more than one row wins and its first row, the header, is
    skipped; a selector that raises is passed over. *)
Fixpoint select_rows (page : Page) (selectors : list string) : list Row :=
  match selectors with
  | [] => []
  | selector :: rest =>
      match page selector with
      | Some rows =>
          if (1 <? length rows)%nat then drop 1 rows
          else select_rows page rest
      | None => select_rows page rest
      end
  end.

(** The [for row in auction_rows] loop of [search_auctions]. *)
Fixpoint extract_valid (cfg : Config) (env : Env) (search_term : string)
    (auction_rows : list Row) : list Auction :=
  match auction_rows with
  | [] => []
  | row :: rest =>
      match extract_auction_from_row env row search_term with
      | Some auction_data =>
          if meets_criteria cfg auction_data
          then auction_data :: extract_valid cfg env search_term rest
          else extract_valid cfg env search_term rest
      | None => extract_valid cfg env search_term rest
      end
  end.

(** [BidFTAScraper.search_auctions]: [now] is the clock reading of
    [build_search_url], [load] the answer of [driver.get] to a URL ([None]
    when it raises).  Every exception ends the search with the records
    collected so far, which then is none. *)
Definition search_auctions (cfg : Config) (env : Env) (now : datetime)
    (load : string -> option Page) (search_term : string) : list Auction :=
  match build_search_url cfg now search_term with
  | None => []
  | Some search_url =>
      match load search_url with
      | None => []
      | Some page =>
          let auction_rows := select_rows page table_selectors in
          extract_valid cfg env search_term auction_rows
      end
  end.

(** One run of the scraper: whether [setup_driver] and [close_driver]
    return or raise, whether the system accepts a pause of a given
    non-negative length, and what the clock and the browser answer during
    the search number [i]. *)
Record Session := mkSession {
  driver_starts : bool;
  driver_quits : bool;
  sleeps : Z -> bool;
  clock : nat -> datetime;
  load_page : nat -> string -> option Page
}.

(** [time.sleep(secs)] for a number of whole seconds: a negative length
    raises [ValueError], and a length that the system does not accept (one
    beyond the range of its timers) raises [OverflowError] or [OSError]. *)
Definition time_sleep (session : Session) (secs : Z) : option unit :=
  if (secs <? 0)%Z then None
  else if sleeps session secs then Some tt else None.

(** The records of the searches for [terms], merged in their order, search
    number [i] first. *)
Fixpoint search_all (cfg : Config) (env : Env) (session : Session) (i : nat)
    (terms : list string) : list Auction :=
  match terms with
  | [] => []
  | search_term :: rest =>
      (search_auctions cfg env (clock session i) (load_page session i) search_term
       ++ search_all cfg env session (S i) rest)%list
  end.

(** The [for search_term in SEARCH_TERMS] loop with its pause, from search
    number [i]; [None] is the exception of [time.sleep], which ends the
    loop. *)
Fixpoint search_loop (cfg : Config) (env : Env) (session : Session) (i : nat)
    (terms : list string) : option (list Auction) :=
  match terms with
  | [] => Some []
  | search_term :: rest =>
      let auctions :=
        search_auctions cfg env (clock session i) (load_page session i) search_term in
      _ ← time_sleep session (delay_between_searches cfg);
      more ← search_loop cfg env session (S i) rest;
      Some (auctions ++ more)%list
  end.

(** [BidFTAScraper.scrape_all_searches]; [None] is an exception that leaves
    the function: that of [setup_driver] before the [try], that of the loop,
    which passes through the [finally] clause, or that of [close_driver] in
    the [finally] clause. *)
Definition scrape_all_searches (cfg : Config) (env : Env) (session : Session)
  : option (list Auction) :=
  if driver_starts session then
    let all_auctions := search_loop cfg env session 0 (SEARCH_TERMS cfg) in
    if driver_quits session then
      all_auctions ← all_auctions;
      Some (remove_duplicates all_auctions)
    else None
  else None.

(** ** [ComprehensiveDebugger.debug_search_term] *)

(** [l[:stop]] for an integer [stop]: a negative [stop] counts from the
    end. *)
Definition slice_to {A : Type} (l : list A) (stop : Z) : list A :=
  if (0 <=? stop)%Z then take (Z.to_nat stop) l
  else take (Z.to_nat (Z.of_nat (length l) + stop)) l.




(** A result page whose table holds a header and three listings; every other
    selector matches nothing. *)
Definition sample_page : Page :=
  fun selector =>
    if String.eqb selector "table tbody tr"
    then Some [header_row; direct_link_row; text_only_row; href_only_row]
    else Some [].

Definition sample_session : Session :=
  mkSession true true (fun _ => true) (fun _ => tuesday_noon)
            (fun _ _ => Some sample_page).

(** ** The grouped dict with its key order

    A Python dict keeps its keys in insertion order, and assigning to a key
    that is present keeps the key's place.  [grouped_items] is the sequence
    of [items()] of the dict [group_auctions_by_search_term] returns. *)

(** [grouped[key]], when the key is present. *)
Fixpoint dict_get (items : list (string * list Auction)) (key : string)
  : option (list Auction) :=
  match items with
  | [] => None
  | (k, group) :: rest => if String.eqb k key then Some group else dict_get rest key
  end.

(** [if key not in grouped: grouped[key] = []] followed by
    [grouped[key].append(auction)]. *)
Fixpoint dict_append (items : list (string * list Auction)) (key : string)
    (auction : Auction) : list (string * list Auction) :=
  match items with
  | [] => [(key, [auction])]
  | (k, group) :: rest =>
      if String.eqb k key then (k, (group ++ [auction])%list) :: rest
      else (k, group) :: dict_append rest key auction
  end.

Definition grouped_items (auctions : list Auction) : list (string * list Auction) :=
  map (fun kv => (fst kv, sort_auctions_by_end_time (snd kv)))
      (foldl (fun items auction => dict_append items (search_term auction) auction)
             [] auctions).

(** The keys of the grouped dict, in their order. *)
Definition grouped_keys (auctions : list Auction) : list string :=
  map fst (grouped_items auctions).

(** ** Blocks of [EmailSender.generate_html_email] *)

(** The title shown for a record: longer than 60 characters, it is cut to
    57 and an ellipsis of three dots. *)
Definition display_title (title : string) : string :=
  if (60 <? String.length title)%nat then substring 0 57 title +:+ "..."
  else title.


(** A listing row with a photo, and collaborators that save every image. *)
Definition photo_row : Row :=
  listing_row
    (mkCell EmptyString
       [mkElement "img" EmptyString {[ "src" := "/img/55.jpg" ]}])
    (mkCell "Cat Tower" [anchor "/item/55" "Cat Tower"]).

Definition saving_env : Env :=
  mkEnv (fun base u => Some (base +:+ u))
        (fun _ => Some "scraper_output/images/55.jpg").

(** ** Reading back what the query builder wrote

    Readers for base64 text and for compact JSON text, written from the
    formats and not from the encoders: they say what the text of a request
    denotes. *)

(** The value of a base64 character; 64 for the padding sign and for every
    character outside the alphabet. *)
Definition b64_index (c : ascii) : N :=
  let n := N_of_ascii c in
  if ((65 <=? n) && (n <=? 90))%N then (n - 65)%N
  else if ((97 <=? n) && (n <=? 122))%N then (n - 71)%N
  else if ((48 <=? n) && (n <=? 57))%N then (n + 4)%N
  else if (n =? 43)%N then 62%N
  else if (n =? 47)%N then 63%N
  else 64%N.

(** [base64.b64decode] on the characters of a text. *)
Fixpoint b64decode_chars (cs : list ascii) : option (list N) :=
  match cs with
  | [] => Some []
  | a :: b :: c :: d :: rest =>
      let ia := b64_index a in
      let ib := b64_index b in
      if ((ia <? 64) && (ib <? 64))%N then
        if Ascii.eqb d "=" then
          match rest with
          | [] =>
              if Ascii.eqb c "=" then
                let n := (ia * 64 + ib)%N in
                if (n mod 16 =? 0)%N then Some [(n / 16)%N] else None
              else
                let ic := b64_index c in
                let n := ((ia * 64 + ib) * 64 + ic)%N in
                if ((ic <? 64) && (n mod 4 =? 0))%N
                then Some [(n / 1024)%N; (n / 4 mod 256)%N] else None
          | _ :: _ => None
          end
        else
          let ic := b64_index c in
          let id := b64_index d in
          if ((ic <? 64) && (id <? 64))%N then
            bytes ← b64decode_chars rest;
            let n := (((ia * 64 + ib) * 64 + ic) * 64 + id)%N in
            Some ((n / 65536)%N :: (n / 256 mod 256)%N :: (n mod 256)%N :: bytes)
          else None
      else None
  | _ => None
  end.

(** [base64.b64decode(s).decode()] for text that decodes to ASCII. *)
Definition b64decode (s : string) : option string :=
  bytes ← b64decode_chars (list_ascii_of_string s);
  Some (string_of_list_ascii (map ascii_of_N bytes)).

(** *** Reading compact JSON text *)

Inductive ReadState :=
| InText
| AfterBackslash
| InHex (remaining : nat) (value : N).

Definition hex_digit_value (c : ascii) : option N :=
  let n := N_of_ascii c in
  if ((48 <=? n) && (n <=? 57))%N then Some (n - 48)%N
  else if ((97 <=? n) && (n <=? 102))%N then Some (n - 87)%N
  else if ((65 <=? n) && (n <=? 70))%N then Some (n - 55)%N
  else None.

(** The character that a two-character escape stands for. *)
Definition unescape (c : ascii) : option ascii :=
  if Ascii.eqb c (ascii_of_N 34) then Some c
  else if Ascii.eqb c "\" then Some c
  else if Ascii.eqb c "/" then Some c
  else if Ascii.eqb c "b" then Some (ascii_of_N 8)
  else if Ascii.eqb c "f" then Some (ascii_of_N 12)
  else if Ascii.eqb c "n" then Some (ascii_of_N 10)
  else if Ascii.eqb c "r" then Some (ascii_of_N 13)
  else if Ascii.eqb c "t" then Some (ascii_of_N 9)
  else None.

Definition prepend (c : ascii) (r : option (string * string))
  : option (string * string) :=
  '(x, rest) ← r; Some (String c x, rest).

(** The characters of a string literal after its opening quote, up to the
    closing quote, and the text after it. *)
Fixpoint read_chars (st : ReadState) (s : string) : option (string * string) :=
  match s with
  | EmptyString => None
  | String c rest =>
      match st with
      | InText =>
          if Ascii.eqb c (ascii_of_N 34) then Some (EmptyString, rest)
          else if Ascii.eqb c "\" then read_chars AfterBackslash rest
          else if (N_of_ascii c <? 32)%N then None
          else prepend c (read_chars InText rest)
      | AfterBackslash =>
          if Ascii.eqb c "u" then read_chars (InHex 4 0) rest
          else d ← unescape c; prepend d (read_chars InText rest)
      | InHex remaining value =>
          h ← hex_digit_value c;
          let value := (value * 16 + h)%N in
          match remaining with
          | 1 =>
              if (value <? 256)%N
              then prepend (ascii_of_N value) (read_chars InText rest)
              else None
          | S k => read_chars (InHex k value) rest
          | O => None
          end
      end
  end.

Definition read_json_string (s : string) : option (string * string) :=
  match s with
  | String c rest =>
      if Ascii.eqb c (ascii_of_N 34) then read_chars InText rest else None
  | EmptyString => None
  end.

(** The items of an array of strings after its opening bracket. *)
Fixpoint read_strings (fuel : nat) (s : string) : option (list string * string) :=
  match fuel with
  | O => None
  | S fuel =>
      '(x, rest) ← read_json_string s;
      match rest with
      | String c rest =>
          if Ascii.eqb c "]" then Some ([x], rest)
          else if Ascii.eqb c "," then
            '(xs, rest) ← read_strings fuel rest; Some (x :: xs, rest)
          else None
      | EmptyString => None
      end
  end.

Definition read_json_value (s : string) : option (JValue * string) :=
  match s with
  | String c rest =>
      if Ascii.eqb c (ascii_of_N 34) then
        '(x, rest) ← read_chars InText rest; Some (JStr x, rest)
      else if Ascii.eqb c "[" then
        match drop_prefix rest "]" with
        | Some rest => Some (JList [], rest)
        | None =>
            '(l, rest) ← read_strings (String.length rest) rest;
            Some (JList l, rest)
        end
      else
        match drop_prefix s "true", drop_prefix s "false" with
        | Some rest, _ => Some (JBool true, rest)
        | None, Some rest => Some (JBool false, rest)
        | None, None => None
        end
  | EmptyString => None
  end.

(** The members of an object after its opening brace. *)
Fixpoint read_members (fuel : nat) (s : string)
  : option (list (string * JValue) * string) :=
  match fuel with
  | O => None
  | S fuel =>
      '(key, rest) ← read_json_string s;
      rest ← drop_prefix rest ":";
      '(value, rest) ← read_json_value rest;
      match rest with
      | String c rest =>
          if Ascii.eqb c "}" then Some ([(key, value)], rest)
          else if Ascii.eqb c "," then
            '(members, rest) ← read_members fuel rest;
            Some ((key, value) :: members, rest)
          else None
      | EmptyString => None
      end
  end.

(** [json.loads] on the compact text of an object whose values are strings,
    arrays of strings and booleans: the members in the order of the text.
    Text with white space between its tokens is not compact and is not
    read. *)
Definition loads (s : string) : option (list (string * JValue)) :=
  rest ← drop_prefix s "{";
  match drop_prefix rest "}" with
  | Some rest => if Py.nonempty rest then None else Some []
  | None =>
      '(members, rest) ← read_members (String.length rest) rest;
      if Py.nonempty rest then None else Some members
  end.



(** ** The request builder on arbitrary Python strings

    A Python [str] is a sequence of code points U+0000..U+10FFFF, lone
    surrogates included.  The definitions below are those of the query
    builder above with the search term and the configured lists as such
    sequences; on strings of the range U+0000..U+00FF they agree with them
    (lemma [build_search_url_wide_agrees]). *)

Definition ustr : Type := list N.

(** The code points of a string of the range U+0000..U+00FF. *)
Definition codepoints (s : string) : ustr :=
  map N_of_ascii (list_ascii_of_string s).

(** The four lower-case hexadecimal digits of a 16-bit number. *)
Definition hex4 (n : N) : string :=
  hex_digit (n / 4096 mod 16) ++ hex_digit (n / 256 mod 16)
  ++ hex_digit (n / 16 mod 16) ++ hex_digit (n mod 16).

(** [ensure_ascii] escaping of one code point below U+10000. *)
Definition json_escape_unit (n : N) : string :=
  if (n =? 34)%N then "\" ++ dquote
  else if (n =? 92)%N then "\\"
  else if (n =? 10)%N then "\n"
  else if (n =? 13)%N then "\r"
  else if (n =? 9)%N then "\t"
  else if (n =? 8)%N then "\b"
  else if (n =? 12)%N then "\f"
  else if ((32 <=? n) && (n <=? 126))%N then String (ascii_of_N n) EmptyString
  else "\u" ++ hex4 n.

(** The surrogate pair of a code point from U+10000 on:
    [0xd800 | ((n >> 10) & 0x3ff)] and [0xdc00 | (n & 0x3ff)] for
    [n = c - 0x10000]. *)
Definition high_surrogate (c : N) : N := (55296 + (c - 65536) / 1024 mod 1024)%N.
Definition low_surrogate (c : N) : N := (56320 + (c - 65536) mod 1024)%N.

(** [ensure_ascii] escaping of one code point. *)
Definition json_escape_codepoint (c : N) : string :=
  if (c <? 65536)%N then json_escape_unit c
  else "\u" ++ hex4 (high_surrogate c) ++ "\u" ++ hex4 (low_surrogate c).

Fixpoint json_escape_ustr (s : ustr) : string :=
  match s with
  | [] => EmptyString
  | c :: s' => json_escape_codepoint c ++ json_escape_ustr s'
  end.

Definition dumps_ustr (s : ustr) : string := dquote ++ json_escape_ustr s ++ dquote.

Inductive UValue :=
| UStr (s : ustr)
| UList (l : list ustr)
| UBool (b : bool).

Definition dumps_uvalue (v : UValue) : string :=
  match v with
  | UStr s => dumps_ustr s
  | UList l => "[" ++ join "," (map dumps_ustr l) ++ "]"
  | UBool b => if b then "true" else "false"
  end.

Definition dumps_wide (obj : list (ustr * UValue)) : string :=
  "{" ++ join "," (map (fun kv => dumps_ustr (fst kv) ++ ":" ++ dumps_uvalue (snd kv)) obj)
      ++ "}".

Definition search_params_wide (locations conditions : list ustr)
    (search_term : ustr) (newerThan olderThan : string) : list (ustr * UValue) :=
  [ (codepoints "searchTerm", UStr search_term);
    (codepoints "locations", UList locations);
    (codepoints "conditions", UList conditions);
    (codepoints "sort", UStr (codepoints "DATE_ASC"));
    (codepoints "newerThan", UStr (codepoints newerThan));
    (codepoints "olderThan", UStr (codepoints olderThan));
    (codepoints "ended", UBool false) ].

Definition encode_search_url_wide (locations conditions : list ustr)
    (search_term : ustr) (window : string * string) : string :=
  let json_str :=
    dumps_wide (search_params_wide locations conditions search_term
                  (fst window) (snd window)) in
  let encoded_params := b64encode json_str in
  base_url ++ "/archive?searchSettings=" ++ encoded_params.

Definition build_search_url_wide (locations conditions : list ustr)
    (now : datetime) (search_term : ustr) : option string :=
  window ← get_week_date_range now;
  Some (encode_search_url_wide locations conditions search_term window).

(** A code point that is a Unicode scalar value: below U+110000 and not a
    surrogate. *)
Definition is_scalar (c : N) : bool :=
  ((c <? 55296) || (57344 <=? c) && (c <? 1114112))%N.

(** A string of Unicode scalar values, as every string that was decoded
    from UTF-8 is. *)
Definition scalar_string (s : ustr) : bool := forallb is_scalar s.

Definition well_formed (s : ustr) : Prop := Forall (fun c => is_scalar c = true) s.

(** The UTF-16 code units of a string; a lone surrogate is its own unit. *)
Definition utf16 (s : ustr) : list N :=
  flat_map (fun c => if (c <? 65536)%N then [c]
                     else [high_surrogate c; low_surrogate c]) s.

(** The code unit that the escape at the head of a text stands for, and the
    text after it; [None] at a quote. *)
Definition read_unit (s : string) : option (N * string) :=
  match s with
  | EmptyString => None
  | String c rest =>
      if Ascii.eqb c (ascii_of_N 34) then None
      else if Ascii.eqb c "\" then
        match rest with
        | String e rest =>
            if Ascii.eqb e "u" then
              match rest with
              | String h3 (String h2 (String h1 (String h0 rest))) =>
                  d3 ← hex_digit_value h3;
                  d2 ← hex_digit_value h2;
                  d1 ← hex_digit_value h1;
                  d0 ← hex_digit_value h0;
                  Some ((((d3 * 16 + d2) * 16 + d1) * 16 + d0)%N, rest)
              | _ => None
              end
            else d ← unescape e; Some (N_of_ascii d, rest)
        | EmptyString => None
        end
      else Some (N_of_ascii c, rest)
  end.

(** The escaped text of a sequence of code units. *)
Fixpoint escape_units (us : list N) : string :=
  match us with
  | [] => EmptyString
  | u :: us' => json_escape_unit u +:+ escape_units us'
  end.

(** * Properties *)

Local Open Scope list_scope.

(** ** Text lemmas *)

Section TextLemmas.

Lemma startswith_app s p :
  Py.startswith s p = true <-> exists rest, s = p +:+ rest.
Proof.
  revert s; induction p as [|a p IH]; intros s.
  - split; [intros _; by exists s | by destruct s].
  - destruct s as [|b s]; cbn [Py.startswith].
    + split; [done | intros [rest H]; discriminate].
    + destruct (Ascii.eqb_spec a b) as [->|Hne]; cbn [andb].
      * rewrite IH. split; intros [rest H]; exists rest.
        -- simpl. by rewrite H.
        -- simpl in H. by injection H.
      * split; [done|]. intros [rest H]. simpl in H. injection H as -> _. done.
Qed.

Lemma contains_substring s sub :
  Py.contains s sub = true <-> is_substring sub s.
Proof.
  unfold is_substring. induction s as [|c s IH].
  - cbn [Py.contains]. rewrite orb_false_r, startswith_app. split.
    + intros [rest H]. by exists EmptyString, rest.
    + intros [[|? ?] [post H]]; [by exists post | discriminate].
  - cbn [Py.contains]. rewrite orb_true_iff, IH, startswith_app. split.
    + intros [[rest H] | (pre & post & H)].
      * by exists EmptyString, rest.
      * exists (String c pre), post. simpl. by rewrite H.
    + intros ([|c' pre] & post & H).
      * left. by exists post.
      * right. simpl in H. injection H as -> H. by exists pre, post.
Qed.

Lemma nonempty_true s : Py.nonempty s = true <-> s <> EmptyString.
Proof. by destruct s. Qed.

Lemma nonempty_false s : Py.nonempty s = false <-> s = EmptyString.
Proof. by destruct s. Qed.

Lemma nonempty_lower s : Py.nonempty (Py.lower s) = Py.nonempty s.
Proof. by destruct s. Qed.

Lemma isspace_lower_char c : Py.isspace (Py.lower_char c) = Py.isspace c.
Proof. by destruct c as [[] [] [] [] [] [] [] []]. Qed.

Lemma is_blank_lower s : is_blank (Py.lower s) = is_blank s.
Proof.
  induction s as [|c s IH]; [done|]. simpl.
  by rewrite isspace_lower_char, IH.
Qed.

Lemma lstrip_empty s : Py.lstrip s = EmptyString <-> is_blank s = true.
Proof.
  induction s as [|c s IH]; [done|]. simpl.
  destruct (Py.isspace c); simpl; [done|]. split; discriminate.
Qed.

Lemma rstrip_empty s : Py.rstrip s = EmptyString <-> is_blank s = true.
Proof.
  induction s as [|c s IH]; [done|]. simpl.
  destruct (Py.rstrip s) eqn:E.
  - destruct (Py.isspace c); simpl.
    + by rewrite <- IH.
    + split; discriminate.
  - split; [discriminate|]. rewrite andb_true_iff. intros [_ H].
    apply IH in H. discriminate.
Qed.

Lemma is_blank_lstrip s : is_blank (Py.lstrip s) = is_blank s.
Proof.
  induction s as [|c s IH]; [done|]. simpl.
  destruct (Py.isspace c) eqn:E; simpl; [done|]. by rewrite E.
Qed.

Lemma strip_empty s : Py.strip s = EmptyString <-> is_blank s = true.
Proof. unfold Py.strip. by rewrite rstrip_empty, is_blank_lstrip. Qed.

Lemma is_blank_rstrip s : is_blank (Py.rstrip s) = is_blank s.
Proof.
  induction s as [|c s IH]; [done|]. cbn [Py.rstrip is_blank].
  destruct (Py.rstrip s) as [|c' r] eqn:E.
  - apply rstrip_empty in E. rewrite E, andb_true_r.
    by destruct (Py.isspace c) eqn:Hc; cbn [is_blank]; rewrite ?Hc.
  - change (is_blank (String c (String c' r)))
      with (Py.isspace c && is_blank (String c' r)).
    by rewrite IH.
Qed.

(** A trimmed text is empty or not blank. *)
Lemma strip_not_blank s :
  Py.strip s <> EmptyString -> is_blank (Py.strip s) = false.
Proof.
  intros Hne. unfold Py.strip in *.
  rewrite is_blank_rstrip, is_blank_lstrip.
  destruct (is_blank s) eqn:E; [|done].
  exfalso. apply Hne. apply rstrip_empty. by rewrite is_blank_lstrip.
Qed.

Lemma nonempty_strip_lower s :
  Py.nonempty (Py.strip (Py.lower s)) = negb (is_blank s).
Proof.
  destruct (is_blank s) eqn:E; simpl.
  - apply nonempty_false, strip_empty. by rewrite is_blank_lower.
  - apply nonempty_true. rewrite strip_empty, is_blank_lower, E. done.
Qed.

End TextLemmas.


(** ** Deduplication *)

Section Dedup.

(** What the two sets hold after the loop has run over [l]. *)
Lemma dedup_seen (l : list Auction) :
  let st := foldl dedup_step dedup_init l in
  (forall u, u ∈ seen_urls st <-> ByUrl u ∈ dedup_key <$> l) /\
  (forall t, t ∈ seen_titles st <->
             t <> EmptyString /\ ByTitle t ∈ dedup_key <$> l).
Proof.
  induction l as [|a l IH] using rev_ind; simpl.
  - split; intros x; rewrite elem_of_empty, elem_of_nil; tauto.
  - rewrite foldl_app. simpl. destruct IH as [IHu IHt].
    set (st := foldl dedup_step dedup_init l) in *.
    rewrite fmap_app. simpl.
    unfold dedup_step, dedup_key.
    destruct (Py.truthy (url a)) eqn:Hu; simpl.
    + case_bool_decide as Hin; simpl.
      * split; intros x; rewrite elem_of_app, list_elem_of_singleton.
        -- rewrite IHu. split; [tauto|]. intros [H|H]; [done|].
           injection H as ->. by apply IHu.
        -- rewrite IHt. split; [tauto|]. intros [H [H'|H']]; done.
      * split; intros x; rewrite elem_of_app, list_elem_of_singleton.
        -- rewrite elem_of_union, elem_of_singleton, IHu.
           split; [intros [->|H]; tauto|]. intros [H|H]; [tauto|].
           injection H as ->. tauto.
        -- rewrite IHt. split; [tauto|]. intros [H [H'|H']]; done.
    + destruct (Py.nonempty (Py.strip (Py.lower (title a)))) eqn:Ht; simpl.
      * case_bool_decide as Hin; simpl.
        -- split; intros x; rewrite elem_of_app, list_elem_of_singleton.
           ++ rewrite IHu. split; [tauto|]. intros [H|H]; done.
           ++ rewrite IHt. split; [tauto|]. intros [H [H'|H']]; [done|].
              injection H' as ->. by apply IHt.
        -- split; intros x; rewrite elem_of_app, list_elem_of_singleton.
           ++ rewrite IHu. split; [tauto|]. intros [H|H]; done.
           ++ rewrite elem_of_union, elem_of_singleton, IHt.
              apply nonempty_true in Ht. split.
              ** intros [->|H]; tauto.
              ** intros [H [H'|H']]; [tauto|]. injection H' as ->. tauto.
      * split; intros x; rewrite elem_of_app, list_elem_of_singleton.
        -- rewrite IHu. split; [tauto|]. intros [H|H]; done.
        -- rewrite IHt. apply nonempty_false in Ht.
           split; [tauto|]. intros [H [H'|H']]; [done|].
           injection H' as ->. done.
Qed.

Lemma remove_duplicates_nil : remove_duplicates [] = [].
Proof. reflexivity. Qed.

(** The loop, one record at a time. *)
Lemma remove_duplicates_snoc (l : list Auction) (a : Auction) :
  remove_duplicates (l ++ [a]) =
  remove_duplicates l ++
    (if has_key a && bool_decide (dedup_key a ∉ dedup_key <$> l)
     then [a] else []).
Proof.
  unfold remove_duplicates. rewrite foldl_app. simpl.
  destruct (dedup_seen l) as [Hu Ht].
  set (st := foldl dedup_step dedup_init l) in *.
  unfold dedup_step, dedup_key, has_key.
  rewrite nonempty_strip_lower.
  destruct (Py.truthy (url a)) eqn:Hurl; simpl.
  - case_bool_decide as Hin; case_bool_decide as Hk; simpl;
      try (by rewrite app_nil_r); try done.
    + apply Hu in Hin. done.
    + rewrite Hu in Hin. done.
  - destruct (is_blank (title a)) eqn:Hb; simpl; [by rewrite app_nil_r|].
    assert (Hne : Py.strip (Py.lower (title a)) <> EmptyString).
    { rewrite strip_empty, is_blank_lower, Hb. done. }
    case_bool_decide as Hin; case_bool_decide as Hk; simpl;
      try (by rewrite app_nil_r); try done.
    + apply Ht in Hin as [_ Hin]. done.
    + rewrite Ht in Hin. tauto.
Qed.

Lemma remove_duplicates_subseteq (l : list Auction) :
  remove_duplicates l ⊆ l.
Proof.
  induction l as [|a l IH] using rev_ind; [done|].
  rewrite remove_duplicates_snoc. intros x.
  rewrite !elem_of_app. intros [Hx|Hx]; [left; by apply IH|].
  destruct (_ && _); [by right | by apply elem_of_nil in Hx].
Qed.

(** A record without a usable key leaves the loop state as it is. *)
Lemma dedup_step_no_key st a : has_key a = false -> dedup_step st a = st.
Proof.
  unfold has_key, dedup_step. rewrite orb_false_iff, negb_false_iff.
  intros [-> Hb]. rewrite nonempty_strip_lower, Hb. done.
Qed.

Lemma remove_duplicates_has_key (l : list Auction) :
  Forall (fun a => has_key a = true) (remove_duplicates l).
Proof.
  induction l as [|a l IH] using rev_ind; [constructor|].
  rewrite remove_duplicates_snoc. apply Forall_app. split; [done|].
  destruct (has_key a) eqn:Hk; simpl; [|constructor].
  case_bool_decide; repeat constructor. done.
Qed.

Lemma keep_unseen_snoc (earlier : list DedupKey) (l : list Auction) (a : Auction) :
  keep_unseen earlier (l ++ [a]) =
  keep_unseen earlier l ++
    (if bool_decide (dedup_key a ∈ earlier ++ (dedup_key <$> l)) then [] else [a]).
Proof.
  revert earlier. induction l as [|b l IH]; intros earlier; simpl.
  - rewrite app_nil_r. by case_bool_decide.
  - rewrite IH, <- app_assoc. simpl.
    by destruct (bool_decide (dedup_key b ∈ earlier)).
Qed.

(** The loop keeps what the specified deduplication keeps, except the
    records without a usable key. *)
Lemma remove_duplicates_filter (l : list Auction) :
  remove_duplicates l = List.filter has_key (dedupe_as_specified l).
Proof.
  unfold dedupe_as_specified.
  induction l as [|a l IH] using rev_ind; [done|].
  rewrite remove_duplicates_snoc, keep_unseen_snoc, List.filter_app, IH.
  f_equal. simpl.
  destruct (has_key a) eqn:Hk; simpl.
  - case_bool_decide; case_bool_decide; simpl; rewrite ?Hk; done.
  - case_bool_decide; simpl; rewrite ?Hk; done.
Qed.

End Dedup.

(** C3, as stated, fails: a record with an empty url and an empty title has a
    key that has not occurred earlier (it is the first record), yet the loop
    drops it. *)
Lemma remove_duplicates_not_as_specified :
  dedupe_as_specified [blank_record] = [blank_record] /\
  remove_duplicates [blank_record] = [] /\
  remove_duplicates [blank_record] <> dedupe_as_specified [blank_record].
Proof. repeat split; try reflexivity. discriminate. Qed.

(** C3 (amended): [remove_duplicates] preserves order with the first
    occurrence winning.  Scanning the sequence from the left, a record is
    appended to the result exactly when it has a usable key (a non-empty url,
    or else a title that is not blank) and that key, the verbatim url or else
    the lower-cased trimmed title, has not occurred earlier in the sequence;
    every other record is dropped.  The result is what the specified
    deduplication keeps, without the records that have no usable key. *)
Theorem remove_duplicates_first_occurrence :
  remove_duplicates [] = [] /\
  (forall (l : list Auction) (a : Auction),
    remove_duplicates (l ++ [a]) =
    remove_duplicates l ++
      (if has_key a && bool_decide (dedup_key a ∉ dedup_key <$> l)
       then [a] else [])) /\
  (forall l : list Auction,
    remove_duplicates l = List.filter has_key (dedupe_as_specified l)).
Proof.
  split; [reflexivity|].
  split; [apply remove_duplicates_snoc | apply remove_duplicates_filter].
Qed.

Lemma remove_duplicates_first_occurrence_witness :
  remove_duplicates ([cat_tower; rug_without_url] ++ [cat_tower]) =
  remove_duplicates [cat_tower; rug_without_url] ++ [].
Proof.
  apply (proj1 (proj2 remove_duplicates_first_occurrence)
           [cat_tower; rug_without_url] cat_tower).
Defined.

(** C9: [remove_duplicates] is idempotent: running it over its own output
    keeps every record. *)
Theorem remove_duplicates_idempotent (x : list Auction) :
  remove_duplicates (remove_duplicates x) = remove_duplicates x.
Proof.
  induction x as [|a l IH] using rev_ind; [done|].
  rewrite remove_duplicates_snoc.
  destruct (has_key a) eqn:Hk; simpl; [|by rewrite app_nil_r].
  case_bool_decide as Hin; [|by rewrite app_nil_r].
  rewrite remove_duplicates_snoc, IH, Hk. simpl.
  rewrite bool_decide_true; [done|].
  intros Hin'. apply Hin.
  apply list_elem_of_fmap in Hin' as (b & -> & Hb).
  apply list_elem_of_fmap. exists b. split; [done|].
  by apply remove_duplicates_subseteq.
Qed.

(** C10: a record whose url is empty and whose title is empty or white space
    only is dropped wherever it stands, also at its first occurrence, and the
    output never contains such a record. *)
Theorem remove_duplicates_drops_blank :
  (forall (l1 l2 : list Auction) (a : Auction),
      Py.truthy (url a) = false -> is_blank (title a) = true ->
      remove_duplicates (l1 ++ a :: l2) = remove_duplicates (l1 ++ l2)) /\
  (forall l : list Auction,
      Forall (fun a => ~ (Py.truthy (url a) = false /\ is_blank (title a) = true))
             (remove_duplicates l)).
Proof.
  split.
  - intros l1 l2 a Hu Hb. unfold remove_duplicates.
    rewrite !foldl_app. simpl. rewrite dedup_step_no_key; [done|].
    unfold has_key. by rewrite Hu, Hb.
  - intros l. eapply Forall_impl; [apply remove_duplicates_has_key|].
    intros a Hk [Hu Hb]. unfold has_key in Hk. by rewrite Hu, Hb in Hk.
Qed.

Lemma remove_duplicates_drops_blank_witness :
  remove_duplicates ([cat_tower] ++ whitespace_record :: [rug_without_url]) =
  remove_duplicates ([cat_tower] ++ [rug_without_url]).
Proof.
  apply (proj1 remove_duplicates_drops_blank); reflexivity.
Defined.


(** ** Criteria filter *)

Section Criteria.

(** Some entry of the allow-list, lower-cased, occurs in the lower-cased
    field. *)
Lemma allow_list_match (allowed : list string) (field : string) :
  existsb (fun x => Py.contains (Py.lower field) (Py.lower x)) allowed = true
  <-> allowed_matches allowed field.
Proof.
  unfold allowed_matches. rewrite existsb_exists.
  split; intros (x & H); exists x.
  - destruct H as [Hin H]. split; [by apply list_elem_of_In | by apply contains_substring].
  - destruct H as [Hin H]. split; [by apply list_elem_of_In | by apply contains_substring].
Qed.

Lemma meets_criteria_true cfg a :
  meets_criteria cfg a = true <->
  title a <> EmptyString /\ location a <> EmptyString /\
  allowed_matches (CINCINNATI_LOCATIONS cfg) (location a) /\
  allowed_matches (FILTERS_condition cfg) (condition a).
Proof.
  unfold meets_criteria.
  rewrite <- !allow_list_match, <- !nonempty_true.
  destruct (Py.nonempty (title a)), (Py.nonempty (location a)); simpl;
    try (split; [discriminate | intros (? & ? & _); discriminate]).
  destruct (existsb _ (CINCINNATI_LOCATIONS cfg)); simpl;
    [|split; [discriminate | intros (_ & _ & ? & _); discriminate]].
  destruct (existsb _ (FILTERS_condition cfg)); simpl;
    [done | split; [discriminate | intros (_ & _ & _ & ?); discriminate]].
Qed.

Lemma allowed_matches_perm l1 l2 field :
  l1 ≡ₚ l2 -> allowed_matches l1 field <-> allowed_matches l2 field.
Proof.
  intros Hp. unfold allowed_matches.
  split; intros (x & Hx & H); exists x; split; try done.
  - by rewrite <- Hp.
  - by rewrite Hp.
Qed.

Lemma allowed_matches_lower l1 l2 f1 f2 :
  Py.lower <$> l1 = Py.lower <$> l2 -> Py.lower f1 = Py.lower f2 ->
  allowed_matches l1 f1 -> allowed_matches l2 f2.
Proof.
  intros Hl Hf (x & Hx & H). unfold allowed_matches.
  assert (Py.lower x ∈ Py.lower <$> l2) as Hin.
  { rewrite <- Hl. apply list_elem_of_fmap. eauto. }
  apply list_elem_of_fmap in Hin as (y & Hy & Hin).
  exists y. split; [done|]. by rewrite <- Hy, <- Hf.
Qed.

Lemma bool_eq_iff (b1 b2 : bool) : (b1 = true <-> b2 = true) -> b1 = b2.
Proof. destruct b1, b2; intuition congruence. Qed.

End Criteria.

(** C4: [meets_criteria] is true exactly when title and location are
    non-empty, some allowed location (lower-cased) is a substring of the
    lower-cased location and some allowed condition (lower-cased) is a
    substring of the lower-cased condition; the result does not depend on
    the order of either allow-list, nor on letter case. *)
Theorem meets_criteria_spec (cfg : Config) (a : Auction) :
  (meets_criteria cfg a = true <->
     title a <> EmptyString /\ location a <> EmptyString /\
     allowed_matches (CINCINNATI_LOCATIONS cfg) (location a) /\
     allowed_matches (FILTERS_condition cfg) (condition a)) /\
  (forall cfg' : Config,
     CINCINNATI_LOCATIONS cfg' ≡ₚ CINCINNATI_LOCATIONS cfg ->
     FILTERS_condition cfg' ≡ₚ FILTERS_condition cfg ->
     meets_criteria cfg' a = meets_criteria cfg a) /\
  (forall (cfg' : Config) (a' : Auction),
     Py.lower <$> CINCINNATI_LOCATIONS cfg' = Py.lower <$> CINCINNATI_LOCATIONS cfg ->
     Py.lower <$> FILTERS_condition cfg' = Py.lower <$> FILTERS_condition cfg ->
     title a' = title a ->
     Py.lower (location a') = Py.lower (location a) ->
     Py.lower (condition a') = Py.lower (condition a) ->
     meets_criteria cfg' a' = meets_criteria cfg a).
Proof.
  split; [apply meets_criteria_true|]. split.
  - intros cfg' Hl Hc. apply bool_eq_iff. rewrite !meets_criteria_true.
    by rewrite (allowed_matches_perm _ _ _ Hl), (allowed_matches_perm _ _ _ Hc).
  - intros cfg' a' Hl Hc Ht Hloc Hcond. apply bool_eq_iff.
    rewrite !meets_criteria_true, Ht.
    assert (location a' <> EmptyString <-> location a <> EmptyString) as ->.
    { rewrite <- !nonempty_true, <- (nonempty_lower (location a')), Hloc.
      by rewrite nonempty_lower. }
    split; intros (H1 & H2 & H3 & H4); repeat split; try done.
    + by apply (allowed_matches_lower _ _ _ _ Hl Hloc).
    + by apply (allowed_matches_lower _ _ _ _ Hc Hcond).
    + by apply (allowed_matches_lower _ _ _ _ (eq_sym Hl) (eq_sym Hloc)).
    + by apply (allowed_matches_lower _ _ _ _ (eq_sym Hc) (eq_sym Hcond)).
Qed.

Lemma meets_criteria_spec_witness :
  meets_criteria sample_config cat_tower_shouted
  = meets_criteria sample_config cat_tower.
Proof.
  apply (proj2 (proj2 (meets_criteria_spec sample_config cat_tower)));
    reflexivity.
Defined.


(** ** Digest grouping and ordering *)

Section Digest.

Lemma first_hit_spec (e : string) (markers : list string) (k : nat) :
  first_hit e markers = k <->
  k <= length markers /\
  (forall j m, j < k -> markers !! j = Some m -> ~ is_substring m e) /\
  (forall m, markers !! k = Some m -> is_substring m e).
Proof.
  revert k. induction markers as [|m0 rest IH]; intros k; simpl.
  - split.
    + intros <-. repeat split; [lia | intros; lia | done].
    + intros (Hk & _). lia.
  - destruct (Py.contains e m0) eqn:Hc.
    + apply contains_substring in Hc. split.
      * intros <-. repeat split; [lia | intros; lia |].
        intros m [= <-]. done.
      * intros (_ & Hbefore & _). destruct k as [|k]; [done|].
        exfalso. apply (Hbefore 0 m0); [lia | done | done].
    + assert (Hn : ~ is_substring m0 e).
      { rewrite <- contains_substring, Hc. done. }
      destruct k as [|k].
      * split; [discriminate|]. intros (_ & _ & Hat).
        exfalso. apply Hn, Hat. done.
      * split.
        -- intros [= H]. apply IH in H as (H1 & H2 & H3).
           repeat split; [lia | | done].
           intros [|j] m Hj; simpl; [by intros [= <-]|].
           apply H2. lia.
        -- intros (H1 & H2 & H3). f_equal. apply IH.
           repeat split; [lia | | done].
           intros j m Hj. apply (H2 (S j)). lia.
Qed.

Lemma parse_end_time_first_hit (a : Auction) :
  parse_end_time a = first_hit (Py.lower (end_time a)) day_markers.
Proof.
  unfold parse_end_time, day_markers. simpl.
  repeat (destruct (Py.contains _ _); [reflexivity|]). reflexivity.
Qed.

Context {A : Type} (key : A -> nat).

Lemma insert_by_key_perm (x : A) (l : list A) :
  insert_by_key key x l ≡ₚ x :: l.
Proof.
  induction l as [|y l IH]; simpl; [done|].
  destruct (key x <=? key y)%nat; [done|].
  rewrite IH. apply Permutation_swap.
Qed.

Lemma sorted_by_key_perm (l : list A) : sorted_by_key key l ≡ₚ l.
Proof.
  induction l as [|x l IH]; simpl; [done|].
  by rewrite insert_by_key_perm, IH.
Qed.

Lemma insert_by_key_sorted (x : A) (l : list A) :
  StronglySorted (key_le key) l -> StronglySorted (key_le key) (insert_by_key key x l).
Proof.
  induction 1 as [|y l Hs IH Hall]; simpl.
  - repeat constructor.
  - destruct (Nat.leb_spec (key x) (key y)) as [Hle|Hlt].
    + constructor; [by constructor|]. constructor; [done|].
      eapply Forall_impl; [exact Hall|]. unfold key_le. intros; simpl in *. lia.
    + constructor; [done|].
      rewrite insert_by_key_perm. constructor; [|done].
      unfold key_le. lia.
Qed.

Lemma sorted_by_key_sorted (l : list A) :
  StronglySorted (key_le key) (sorted_by_key key l).
Proof.
  induction l as [|x l IH]; simpl; [constructor|].
  by apply insert_by_key_sorted.
Qed.

(** Stability: records of equal key keep their order. *)
Lemma insert_by_key_stable (k : nat) (x : A) (l : list A) :
  List.filter (fun a => Nat.eqb (key a) k) (insert_by_key key x l) =
  List.filter (fun a => Nat.eqb (key a) k) (x :: l).
Proof.
  induction l as [|y l IH]; [done|]. cbn [insert_by_key].
  destruct (Nat.leb_spec (key x) (key y)) as [Hle|Hlt]; [done|].
  cbn [List.filter] in *. rewrite IH.
  destruct (Nat.eqb_spec (key x) k), (Nat.eqb_spec (key y) k); try done. lia.
Qed.

Lemma sorted_by_key_stable (k : nat) (l : list A) :
  List.filter (fun a => Nat.eqb (key a) k) (sorted_by_key key l) =
  List.filter (fun a => Nat.eqb (key a) k) l.
Proof.
  induction l as [|x l IH]; [done|]. cbn [sorted_by_key].
  rewrite insert_by_key_stable. cbn [List.filter]. by rewrite IH.
Qed.

(** A stable sort has one result: two lists sorted by key that hold the same
    records of each key, in the same order, are equal.  So [sorted_by_key]
    is the result of [sorted] whatever algorithm computes it. *)
Lemma stable_sorted_unique (l1 l2 : list A) :
  StronglySorted (key_le key) l1 -> StronglySorted (key_le key) l2 ->
  (forall k, List.filter (fun a => Nat.eqb (key a) k) l1
             = List.filter (fun a => Nat.eqb (key a) k) l2) ->
  l1 = l2.
Proof.
  intros H1. revert l2.
  induction H1 as [|x l1 Hs1 IH Hx]; intros l2 H2 Hf.
  - destruct l2 as [|y l2]; [done|].
    specialize (Hf (key y)). cbn [List.filter] in Hf.
    rewrite Nat.eqb_refl in Hf. discriminate.
  - destruct H2 as [|y l2 Hs2 Hy].
    { specialize (Hf (key x)). cbn [List.filter] in Hf.
      rewrite Nat.eqb_refl in Hf. discriminate. }
    assert (Hxy : key x <= key y).
    { pose proof (Hf (key y)) as E. cbn [List.filter] in E.
      rewrite (Nat.eqb_refl (key y)) in E.
      assert (In y (x :: l1)) as [<-|Hin].
      { assert (In y (List.filter (fun a => Nat.eqb (key a) (key y)) (x :: l1))) as Hin.
        { cbn [List.filter]. rewrite E. by left. }
        by apply filter_In in Hin as [Hin _]. }
      - done.
      - rewrite Forall_forall in Hx. apply Hx. by apply list_elem_of_In. }
    assert (Hyx : key y <= key x).
    { pose proof (Hf (key x)) as E. cbn [List.filter] in E.
      rewrite (Nat.eqb_refl (key x)) in E.
      assert (In x (y :: l2)) as [<-|Hin].
      { assert (In x (List.filter (fun a => Nat.eqb (key a) (key x)) (y :: l2))) as Hin.
        { cbn [List.filter]. rewrite <- E. by left. }
        by apply filter_In in Hin as [Hin _]. }
      - done.
      - rewrite Forall_forall in Hy. apply Hy. by apply list_elem_of_In. }
    assert (Hk : key x = key y) by lia.
    pose proof (Hf (key x)) as E. cbn [List.filter] in E.
    rewrite Nat.eqb_refl, <- Hk, Nat.eqb_refl in E.
    injection E as <- E. f_equal. apply IH; [done|].
    intros k. specialize (Hf k). cbn [List.filter] in Hf.
    destruct (Nat.eqb_spec (key x) k) as [Heq|Hne]; [by injection Hf | done].
Qed.

End Digest.

Section Grouping.

Lemma with_term_snoc term l a :
  with_term term (l ++ [a]) =
  with_term term l ++ (if String.eqb (search_term a) term then [a] else []).
Proof. unfold with_term. by rewrite List.filter_app. Qed.

(** The dict after the grouping loop. *)
Lemma group_loop_lookup (l : list Auction) (term : string) :
  foldl group_step ∅ l !! term =
  match with_term term l with [] => None | g => Some g end.
Proof.
  induction l as [|a l IH] using rev_ind; [done|].
  rewrite foldl_app, with_term_snoc. simpl.
  set (grouped := foldl group_step ∅ l) in *.
  unfold group_step.
  destruct (String.eqb_spec (search_term a) term) as [->|Hne].
  - rewrite lookup_insert_eq. destruct (grouped !! term) as [g|] eqn:Hg.
    + rewrite Hg. simpl. destruct (with_term term l); [done|].
      injection IH as ->. done.
    + rewrite lookup_insert_eq. simpl.
      destruct (with_term term l); [done | discriminate].
  - rewrite app_nil_r, lookup_insert_ne by done.
    destruct (grouped !! search_term a); [done|].
    by rewrite lookup_insert_ne.
Qed.

Lemma group_lookup (l : list Auction) (term : string) :
  group_auctions_by_search_term l !! term =
  match with_term term l with
  | [] => None
  | g => Some (sort_auctions_by_end_time g)
  end.
Proof.
  unfold group_auctions_by_search_term.
  rewrite lookup_fmap, group_loop_lookup.
  by destruct (with_term term l).
Qed.

End Grouping.

(** C7: [group_auctions_by_search_term] maps each search term that occurs to
    the records of that term, sorted in nondecreasing order of the end-time
    priority (records of equal priority keep their order); the priority of a
    record is the position of the first of the markers today, tomorrow,
    sunday, ..., saturday that occurs in the lower-cased end time, and 9 when
    none occurs. *)
Theorem group_auctions_sorted (auctions : list Auction) (term : string) :
  let members := with_term term auctions in
  let group := sort_auctions_by_end_time members in
  group_auctions_by_search_term auctions !! term =
    (match members with [] => None | _ => Some group end) /\
  group ≡ₚ members /\
  StronglySorted (key_le parse_end_time) group /\
  (forall k, with_priority k group = with_priority k members) /\
  (forall (a : Auction) (k : nat),
      parse_end_time a = k <-> is_priority_of (Py.lower (end_time a)) k).
Proof.
  intros members group. split.
  { rewrite group_lookup. subst group members.
    by destruct (with_term term auctions). }
  split; [apply sorted_by_key_perm|].
  split; [apply sorted_by_key_sorted|].
  split; [intros k; apply sorted_by_key_stable|].
  intros a k. rewrite parse_end_time_first_hit. apply first_hit_spec.
Qed.

Lemma group_auctions_sorted_witness :
  parse_end_time rug_without_url = 0 /\
  is_priority_of (Py.lower (end_time rug_without_url)) 0.
Proof.
  split; [reflexivity|].
  apply (proj2 (proj2 (proj2 (proj2
           (group_auctions_sorted [rug_without_url] "Rug")))) rug_without_url 0).
  reflexivity.
Defined.


(** ** Date window *)

Section DateWindow.

Lemma days_since_sunday_mod (now : datetime) :
  days_since_sunday now = (toordinal now mod 7)%Z.
Proof.
  unfold days_since_sunday, weekday.
  rewrite Zplus_mod_idemp_l.
  replace (toordinal now + 6 + 1)%Z with (toordinal now + 1 * 7)%Z by lia.
  apply Z_mod_plus_full.
Qed.

Lemma add_days_in_range (d : datetime) (k : Z) :
  (MINORDINAL <= toordinal d + k <= MAXORDINAL)%Z ->
  add_days d k = Some (mkDatetime (toordinal d + k) (time_of_day d)).
Proof.
  intros [H1 H2]. unfold add_days.
  apply Z.leb_le in H1, H2. by rewrite H1, H2.
Qed.

Lemma all_from_spec n z p :
  all_from n z p = true -> forall x, (z <= x < z + Z.of_nat n)%Z -> p x = true.
Proof.
  revert z. induction n as [|k IH]; intros z H x Hx; [lia|].
  cbn [all_from] in H. destruct (p z) eqn:E; [|done].
  destruct (decide (x = z)) as [->|]; [done|]. apply (IH (z + 1)%Z); [done|lia].
Qed.

Lemma cycle_ok : all_from (Z.to_nat 146097) 0 day_ok = true.
Proof. vm_compute. reflexivity. Qed.

Lemma ord2ymd_cycle (o : Z) :
  ord2ymd o =
  let '(y, m, d) := ord2ymd ((o - 1) mod 146097 + 1) in
  (y + 400 * ((o - 1) / 146097), m, d)%Z.
Proof.
  unfold ord2ymd.
  replace ((o - 1) mod 146097 + 1 - 1)%Z with ((o - 1) mod 146097)%Z by lia.
  rewrite Z.mod_mod by lia.
  rewrite (Z.div_small ((o - 1) mod 146097) 146097)
    by (apply Z.mod_pos_bound; lia).
  cbv zeta.
  repeat match goal with
         | |- context [if ?b then _ else _] => destruct b
         end; f_equal; try f_equal; lia.
Qed.

Lemma is_leap_cycle (y q : Z) : is_leap (y + 400 * q) = is_leap y.
Proof.
  unfold is_leap.
  replace ((y + 400 * q) mod 4)%Z with (y mod 4)%Z
    by (replace (y + 400 * q)%Z with (y + (100 * q) * 4)%Z by lia;
        by rewrite Z_mod_plus_full).
  replace ((y + 400 * q) mod 100)%Z with (y mod 100)%Z
    by (replace (y + 400 * q)%Z with (y + (4 * q) * 100)%Z by lia;
        by rewrite Z_mod_plus_full).
  replace ((y + 400 * q) mod 400)%Z with (y mod 400)%Z
    by (replace (y + 400 * q)%Z with (y + q * 400)%Z by lia;
        by rewrite Z_mod_plus_full).
  done.
Qed.

Lemma days_before_year_cycle (y q : Z) :
  days_before_year (y + 400 * q) = (days_before_year y + 146097 * q)%Z.
Proof.
  unfold days_before_year. cbv zeta.
  replace ((y + 400 * q - 1) / 4)%Z with ((y - 1) / 4 + 100 * q)%Z
    by (replace (y + 400 * q - 1)%Z with (y - 1 + (100 * q) * 4)%Z by lia;
        by rewrite Z.div_add by lia).
  replace ((y + 400 * q - 1) / 100)%Z with ((y - 1) / 100 + 4 * q)%Z
    by (replace (y + 400 * q - 1)%Z with (y - 1 + (4 * q) * 100)%Z by lia;
        by rewrite Z.div_add by lia).
  replace ((y + 400 * q - 1) / 400)%Z with ((y - 1) / 400 + q)%Z
    by (replace (y + 400 * q - 1)%Z with (y - 1 + q * 400)%Z by lia;
        by rewrite Z.div_add by lia).
  lia.
Qed.

Lemma ymd2ord_cycle (y m d q o : Z) :
  (0 <= q)%Z -> (y + 400 * q <= 9999)%Z ->
  ymd2ord y m d = Some o ->
  ymd2ord (y + 400 * q) m d = Some (o + 146097 * q)%Z.
Proof.
  intros Hq Hy. unfold ymd2ord, days_in_month, days_before_month.
  rewrite is_leap_cycle, days_before_year_cycle.
  destruct (Z.leb_spec 1 y); [|done].
  destruct (Z.leb_spec 1 (y + 400 * q)); [|lia].
  destruct (Z.leb_spec (y + 400 * q) 9999); [|lia].
  destruct (Z.leb_spec y 9999); [|lia]. cbn [andb].
  destruct (_ && _ && _ && _); [|done]. intros [= <-]. f_equal. lia.
Qed.

(** The ordinal of the calendar date of an ordinal is that ordinal. *)
Lemma ymd2ord_ord2ymd (o : Z) :
  (MINORDINAL <= o <= MAXORDINAL)%Z ->
  let '(y, m, d) := ord2ymd o in ymd2ord y m d = Some o.
Proof.
  unfold MINORDINAL, MAXORDINAL. intros Ho.
  rewrite ord2ymd_cycle.
  pose proof (Z.mod_pos_bound (o - 1) 146097 ltac:(lia)) as Hr.
  pose proof (Z.div_mod (o - 1) 146097 ltac:(lia)) as Hdm.
  set (r := ((o - 1) mod 146097)%Z) in *. set (q := ((o - 1) / 146097)%Z) in *.
  assert (Hq : (0 <= q <= 24)%Z) by lia.
  pose proof (all_from_spec _ _ _ cycle_ok r ltac:(lia)) as Hok.
  unfold day_ok in Hok. destruct (ord2ymd (r + 1)) as [[y m] d].
  destruct (ymd2ord y m d) as [o'|] eqn:E; [|by rewrite andb_false_r in Hok].
  apply andb_true_iff in Hok as [Hok Ho'%Z.eqb_eq].
  apply andb_true_iff in Hok as [Hok Hlast].
  apply andb_true_iff in Hok as [Hy1%Z.leb_le Hy2%Z.leb_le].
  rewrite (ymd2ord_cycle y m d q o'); [f_equal; lia|lia| |done].
  apply orb_true_iff in Hlast as [H%Z.leb_le|H%Z.leb_le]; lia.
Qed.

Lemma years_ok : all_from (Z.to_nat 9999) 1 year_ok = true.
Proof. vm_compute. reflexivity. Qed.

Lemma fields2_ok : all_from (Z.to_nat 100) 0 field2_ok = true.
Proof. vm_compute. reflexivity. Qed.

Lemma split_at_app (sep : ascii) (a rest : string) :
  string_forall (fun c => negb (Ascii.eqb c sep)) a = true ->
  split_at sep (a +:+ String sep rest) = Some (a, rest).
Proof.
  induction a as [|c a IH]; cbn [string_forall].
  - intros _. change (EmptyString +:+ String sep rest) with (String sep rest).
    cbn [split_at]. by rewrite Ascii.eqb_refl.
  - intros [Hc Ha]%andb_true_iff.
    change (String c a +:+ String sep rest) with (String c (a +:+ String sep rest)).
    cbn [split_at]. apply negb_true_iff in Hc. rewrite Hc, (IH Ha). done.
Qed.

Lemma string_forall_impl (p q : ascii -> bool) s :
  (forall c, p c = true -> q c = true) ->
  string_forall p s = true -> string_forall q s = true.
Proof.
  intros Hpq. induction s as [|c s IH]; [done|]. cbn [string_forall].
  intros [Hc Hs]%andb_true_iff. by rewrite (Hpq c Hc), (IH Hs).
Qed.

Lemma digits_no_sep (sep : ascii) (s : string) :
  is_digit sep = false ->
  string_forall is_digit s = true ->
  string_forall (fun c => negb (Ascii.eqb c sep)) s = true.
Proof.
  intros Hsep. apply string_forall_impl. intros c Hc.
  destruct (Ascii.eqb_spec c sep) as [->|]; [congruence|done].
Qed.

Lemma ymd2ord_range y m d o :
  ymd2ord y m d = Some o ->
  (1 <= y <= 9999 /\ 1 <= m <= 12 /\ 1 <= d <= 31)%Z.
Proof.
  unfold ymd2ord, days_in_month.
  destruct (Z.leb_spec 1 y); [|done]. destruct (Z.leb_spec y 9999); [|done].
  destruct (Z.leb_spec 1 m); [|done]. destruct (Z.leb_spec m 12); [|done].
  destruct (Z.leb_spec 1 d); [|done]. cbn [andb].
  destruct (Z.leb_spec d (if (m =? 2)%Z && is_leap y then 29%Z else DAYS_IN_MONTH m))
    as [Hd|]; [|done].
  intros _. repeat split; try done.
  assert (DAYS_IN_MONTH m <= 31)%Z.
  { assert (m = 1 \/ m = 2 \/ m = 3 \/ m = 4 \/ m = 5 \/ m = 6 \/ m = 7 \/ m = 8
            \/ m = 9 \/ m = 10 \/ m = 11 \/ m = 12)%Z as Hm by lia.
    destruct Hm as [->|[->|[->|[->|[->|[->|[->|[->|[->|[->|[->| ->]]]]]]]]]]];
      vm_compute; discriminate. }
  destruct (_ && _); lia.
Qed.

(** What a rendered timestamp says: the day that was rendered, at 04:00. *)
Lemma read_strftime_T04 (d : datetime) :
  (MINORDINAL <= toordinal d <= MAXORDINAL)%Z ->
  read_timestamp (strftime_T04 d) = Some (toordinal d, 14400000%Z).
Proof.
  intros Hd. unfold strftime_T04.
  pose proof (ymd2ord_ord2ymd (toordinal d) Hd) as Hord.
  destruct (ord2ymd (toordinal d)) as [[y m] dd].
  destruct (ymd2ord_range _ _ _ _ Hord) as (Hy & Hm & Hdd).
  pose proof (all_from_spec _ _ _ years_ok y ltac:(lia)) as Hyok.
  pose proof (all_from_spec _ _ _ fields2_ok m ltac:(lia)) as Hmok.
  pose proof (all_from_spec _ _ _ fields2_ok dd ltac:(lia)) as Hdok.
  unfold year_ok in Hyok. unfold field2_ok in Hmok, Hdok.
  apply andb_true_iff in Hyok as [Hyd Hyv].
  apply andb_true_iff in Hmok as [Hmd Hmv].
  apply andb_true_iff in Hdok as [Hdd' Hdv].
  destruct (read_decimal (fmtY y)) as [yv|] eqn:Ey; [|done].
  destruct (read_field 2 (fmt2 m)) as [mv|] eqn:Em; [|done].
  destruct (read_field 2 (fmt2 dd)) as [dv|] eqn:Edd; [|done].
  apply Z.eqb_eq in Hyv, Hmv, Hdv. subst yv mv dv.
  unfold read_timestamp.
  change (fmtY y ++ "-" ++ fmt2 m ++ "-" ++ fmt2 dd ++ "T04:00:00.000Z")%string
    with (fmtY y +:+ String "-" (fmt2 m +:+ String "-"
            (fmt2 dd +:+ String "T" "04:00:00.000Z"))).
  rewrite (split_at_app "-" (fmtY y)) by (by apply digits_no_sep).
  cbn [mbind option_bind].
  rewrite (split_at_app "-" (fmt2 m)) by (by apply digits_no_sep).
  cbn [mbind option_bind].
  rewrite (split_at_app "T" (fmt2 dd)) by (by apply digits_no_sep).
  cbn [mbind option_bind].
  change (split_at ":" "04:00:00.000Z") with (Some ("04", "00:00.000Z")).
  cbn [mbind option_bind].
  change (split_at ":" "00:00.000Z") with (Some ("00", "00.000Z")).
  cbn [mbind option_bind].
  change (split_at "." "00.000Z") with (Some ("00", "000Z")).
  cbn [mbind option_bind].
  change (split_at "Z" "000Z") with (Some ("000", EmptyString)).
  cbn [mbind option_bind Py.nonempty].
  rewrite Ey, Em, Edd. cbn [mbind option_bind].
  change (read_field 2 "04") with (Some 4%Z).
  change (read_field 2 "00") with (Some 0%Z).
  change (read_field 3 "000") with (Some 0%Z).
  cbn [mbind option_bind]. rewrite Hord. cbn [mbind option_bind]. done.
Qed.

End DateWindow.

(** C5: for a [now] whose week lies in the range of [datetime], the default
    window starts on the most recent Sunday at or before [now] and ends 7
    days later ([scraper.py]) or 6 days later ([comprehensive_debug.py]).
    The two texts that are returned say so: read as timestamps, they denote
    the calendar date of that Sunday, and of the day 7 or 6 days later, at
    04:00:00.000, and the instant of the first is not after the instant of
    the second. *)
Theorem week_window (now : datetime) :
  (MINORDINAL + 6 <= toordinal now <= MAXORDINAL - 7)%Z ->
  let sunday := mkDatetime (toordinal now - days_since_sunday now) (time_of_day now) in
  let next_sunday := mkDatetime (toordinal sunday + 7) (time_of_day now) in
  let saturday := mkDatetime (toordinal sunday + 6) (time_of_day now) in
  week_bounds now = Some (sunday, next_sunday) /\
  week_bounds_debug now false = Some (sunday, saturday) /\
  weekday sunday = 6%Z /\
  (toordinal sunday <= toordinal now < toordinal sunday + 7)%Z /\
  exists newer older older_debug,
    get_week_date_range now = Some (newer, older) /\
    get_week_date_range_debug now false = Some (newer, older_debug) /\
    read_timestamp newer = Some (toordinal sunday, 14400000%Z) /\
    read_timestamp older = Some ((toordinal sunday + 7)%Z, 14400000%Z) /\
    read_timestamp older_debug = Some ((toordinal sunday + 6)%Z, 14400000%Z) /\
    exists t_newer t_older t_older_debug,
      timestamp_ms newer = Some t_newer /\
      timestamp_ms older = Some t_older /\
      timestamp_ms older_debug = Some t_older_debug /\
      t_older = (t_newer + 7 * 86400000)%Z /\
      t_older_debug = (t_newer + 6 * 86400000)%Z /\
      (t_newer <= t_older)%Z /\ (t_newer <= t_older_debug)%Z.
Proof.
  intros Hrange sunday next_sunday saturday.
  pose proof (days_since_sunday_mod now) as Hd.
  pose proof (Z.mod_pos_bound (toordinal now) 7 ltac:(lia)) as Hm.
  pose proof (Z.div_mod (toordinal now) 7 ltac:(lia)) as Hdiv.
  unfold MINORDINAL, MAXORDINAL in Hrange.
  assert (Hs : add_days now (- days_since_sunday now) = Some sunday).
  { rewrite add_days_in_range; [done|]. unfold MINORDINAL, MAXORDINAL. lia. }
  assert (Hn : add_days sunday 7 = Some next_sunday).
  { rewrite add_days_in_range; [done|]. unfold MINORDINAL, MAXORDINAL. simpl. lia. }
  assert (Hsat : add_days sunday 6 = Some saturday).
  { rewrite add_days_in_range; [done|]. unfold MINORDINAL, MAXORDINAL. simpl. lia. }
  assert (Hwb : week_bounds now = Some (sunday, next_sunday)).
  { unfold week_bounds. rewrite Hs. simpl. by rewrite Hn. }
  assert (Hwd : week_bounds_debug now false = Some (sunday, saturday)).
  { unfold week_bounds_debug. rewrite Hs. simpl. by rewrite Hsat. }
  split; [done|]. split; [done|].
  split.
  { unfold weekday. simpl. rewrite Hd.
    replace (toordinal now - toordinal now mod 7 + 6)%Z
      with (6 + (toordinal now / 7) * 7)%Z by lia.
    by rewrite Z_mod_plus_full. }
  split; [simpl; lia|].
  exists (strftime_T04 sunday), (strftime_T04 next_sunday), (strftime_T04 saturday).
  split; [unfold get_week_date_range; by rewrite Hwb|].
  split; [unfold get_week_date_range_debug; by rewrite Hwd|].
  assert (R1 : read_timestamp (strftime_T04 sunday)
               = Some (toordinal sunday, 14400000%Z)).
  { apply read_strftime_T04. unfold MINORDINAL, MAXORDINAL. simpl. lia. }
  assert (R2 : read_timestamp (strftime_T04 next_sunday)
               = Some ((toordinal sunday + 7)%Z, 14400000%Z)).
  { apply (read_strftime_T04 next_sunday). unfold MINORDINAL, MAXORDINAL. simpl. lia. }
  assert (R3 : read_timestamp (strftime_T04 saturday)
               = Some ((toordinal sunday + 6)%Z, 14400000%Z)).
  { apply (read_strftime_T04 saturday). unfold MINORDINAL, MAXORDINAL. simpl. lia. }
  split; [done|]. split; [done|]. split; [done|].
  unfold timestamp_ms. rewrite R1, R2, R3. cbn [mbind option_bind].
  eexists _, _, _. split; [done|]. split; [done|]. split; [done|]. lia.
Qed.

Lemma week_window_witness :
  (MINORDINAL + 6 <= toordinal tuesday_noon <= MAXORDINAL - 7)%Z /\
  get_week_date_range tuesday_noon
    = Some ("2026-11-01T04:00:00.000Z", "2026-11-08T04:00:00.000Z") /\
  read_timestamp "2026-11-01T04:00:00.000Z" = Some (739921%Z, 14400000%Z) /\
  read_timestamp "2026-11-08T04:00:00.000Z" = Some (739928%Z, 14400000%Z).
Proof.
  assert (H : (MINORDINAL + 6 <= toordinal tuesday_noon <= MAXORDINAL - 7)%Z).
  { unfold MINORDINAL, MAXORDINAL, tuesday_noon. simpl. lia. }
  split; [exact H|]. split; [reflexivity|].
  destruct (week_window tuesday_noon H)
    as (_ & _ & _ & _ & newer & older & dbg & Hg & _ & Hn & Ho & _).
  change (get_week_date_range tuesday_noon)
    with (Some ("2026-11-01T04:00:00.000Z", "2026-11-08T04:00:00.000Z")) in Hg.
  injection Hg as <- <-. split; [exact Hn | exact Ho].
Defined.


(** ** Query builder *)

Section QueryBuilder.

Lemma string_app_assoc (a b c : string) : (a +:+ b) +:+ c = a +:+ (b +:+ c).
Proof.
  induction a as [|x a IH]; [reflexivity|].
  exact (f_equal (String x) IH).
Qed.










Lemma dumps_search_params cfg term newer older :
  dumps (search_params cfg term newer older) =
  "{" +:+ json_member "searchTerm" (dumps_str term)
  +:+ "," +:+ json_member "locations" (json_array (CINCINNATI_LOCATIONS cfg))
  +:+ "," +:+ json_member "conditions" (json_array (FILTERS_condition cfg))
  +:+ "," +:+ json_member "sort" (dumps_str "DATE_ASC")
  +:+ "," +:+ json_member "newerThan" (dumps_str newer)
  +:+ "," +:+ json_member "olderThan" (dumps_str older)
  +:+ "," +:+ json_member "ended" "false"
  +:+ "}".
Proof.
  unfold dumps, search_params, json_member, json_array, dumps_value, dumps_str.
  cbn [map join fst snd].
  rewrite !string_app_assoc. reflexivity.
Qed.

Lemma encode_search_url_text cfg term newer older :
  encode_search_url cfg term (newer, older) =
  "https://www.bidft.auction/archive?searchSettings=" +:+
  b64encode
    ("{" +:+ json_member "searchTerm" (dumps_str term)
     +:+ "," +:+ json_member "locations" (json_array (CINCINNATI_LOCATIONS cfg))
     +:+ "," +:+ json_member "conditions" (json_array (FILTERS_condition cfg))
     +:+ "," +:+ json_member "sort" (dumps_str "DATE_ASC")
     +:+ "," +:+ json_member "newerThan" (dumps_str newer)
     +:+ "," +:+ json_member "olderThan" (dumps_str older)
     +:+ "," +:+ json_member "ended" "false"
     +:+ "}").
Proof.
  unfold encode_search_url. cbn [fst snd].
  rewrite dumps_search_params. reflexivity.
Qed.




Lemma join_cons {A : Type} (f : A -> string) (x : A) (l : list A) (R : string) :
  join "," (map f (x :: l)) +:+ R =
  f x +:+ match l with
          | [] => R
          | _ :: _ => String "," (join "," (map f l) +:+ R)
          end.
Proof.
  destruct l as [|y l]; [done|].
  change (join "," (map f (x :: y :: l)))
    with (f x +:+ "," +:+ join "," (map f (y :: l))).
  by rewrite !string_app_assoc.
Qed.


Lemma string_length_app (a b : string) :
  String.length (a +:+ b) = String.length a + String.length b.
Proof.
  induction a as [|c a IH]; [done|].
  change (String c a +:+ b) with (String c (a +:+ b)). cbn [String.length].
  by rewrite IH.
Qed.









Lemma b64_index_char (n : N) : (n < 64)%N -> b64_index (b64_char n) = n.
Proof.
  intros Hn. rewrite <- (N2Nat.id n). assert (N.to_nat n < 64) as Hk by lia.
  revert Hk. generalize (N.to_nat n) as k. intros k Hk.
  do 64 (destruct k as [|k]; [reflexivity|]). lia.
Qed.

Lemma b64_char_not_pad (n : N) : Ascii.eqb (b64_char n) "=" = false.
Proof.
  apply Ascii.eqb_neq.
  destruct (N.lt_ge_cases n 64) as [Hlt|Hge].
  - intros H. apply (f_equal b64_index) in H.
    rewrite b64_index_char in H by done. subst n. vm_compute in Hlt. done.
  - unfold b64_char.
    destruct (N.ltb_spec n 26); [lia|].
    destruct (N.ltb_spec n 52); [lia|].
    destruct (N.ltb_spec n 62); [lia|].
    destruct (N.eqb_spec n 62); [lia|]. done.
Qed.

Lemma b64_digits (n : N) :
  (n < 16777216)%N ->
  (n / 262144 < 64 /\ n / 4096 mod 64 < 64 /\ n / 64 mod 64 < 64 /\ n mod 64 < 64)%N.
Proof. intros Hn. zify. Z.to_euclidean_division_equations. lia. Qed.

(** Decoding what was encoded gives the bytes back. *)
Lemma b64decode_encode_bytes (l : list N) :
  Forall (fun x => (x < 256)%N) l ->
  b64decode_chars (b64encode_bytes l) = Some l.
Proof.
  assert (H : forall k l, length l <= k -> Forall (fun x => (x < 256)%N) l ->
            b64decode_chars (b64encode_bytes l) = Some l).
  { induction k as [|k IH]; intros l' Hlen Hl.
    { destruct l'; [done|cbn in Hlen; lia]. }
    destruct l' as [|a [|b [|c r]]]; [done| | |];
      repeat match goal with
             | H : Forall _ (_ :: _) |- _ => apply Forall_cons in H as [? H]
             end;
      cbn [b64encode_bytes]; cbv zeta.
    - set (n := (a * 65536)%N).
      destruct (b64_digits n ltac:(lia))
        as (D1%N.ltb_lt & D2%N.ltb_lt & D3%N.ltb_lt & D4%N.ltb_lt).
      cbn [b64decode_chars]. rewrite !b64_index_char by (by apply N.ltb_lt).
      rewrite D1, D2. cbn [andb].
      change (Ascii.eqb "=" "=") with true. cbv iota.
      assert (((n / 262144 * 64 + n / 4096 mod 64) mod 16 =? 0)%N = true) as ->.
      { apply N.eqb_eq. subst n. zify. Z.to_euclidean_division_equations. lia. }
      do 2 f_equal. subst n. zify. Z.to_euclidean_division_equations. lia.
    - set (n := (a * 65536 + b * 256)%N).
      destruct (b64_digits n ltac:(lia))
        as (D1%N.ltb_lt & D2%N.ltb_lt & D3%N.ltb_lt & D4%N.ltb_lt).
      cbn [b64decode_chars]. rewrite !b64_index_char by (by apply N.ltb_lt).
      rewrite D1, D2, D3. cbn [andb].
      change (Ascii.eqb "=" "=") with true. rewrite b64_char_not_pad. cbv iota.
      assert ((((n / 262144 * 64 + n / 4096 mod 64) * 64 + n / 64 mod 64) mod 4 =? 0)%N
              = true) as ->.
      { apply N.eqb_eq. subst n. zify. Z.to_euclidean_division_equations. lia. }
      f_equal. f_equal; [|f_equal];
        subst n; zify; Z.to_euclidean_division_equations; lia.
    - set (n := (a * 65536 + b * 256 + c)%N).
      destruct (b64_digits n ltac:(lia))
        as (D1%N.ltb_lt & D2%N.ltb_lt & D3%N.ltb_lt & D4%N.ltb_lt).
      cbn [b64decode_chars]. rewrite !b64_index_char by (by apply N.ltb_lt).
      rewrite D1, D2, D3, D4. cbn [andb].
      rewrite b64_char_not_pad.
      rewrite (IH r) by (try done; cbn [length] in Hlen; lia).
      cbn [mbind option_bind]. f_equal. f_equal; [|f_equal; [|f_equal]];
        subst n; zify; Z.to_euclidean_division_equations; lia. }
  intros Hl. by apply (H (length l)).
Qed.

Lemma b64decode_encode (s : string) : b64decode (b64encode s) = Some s.
Proof.
  unfold b64decode, b64encode. rewrite list_ascii_of_string_of_list_ascii.
  rewrite b64decode_encode_bytes.
  - cbn [mbind option_bind]. f_equal. rewrite map_map.
    rewrite (map_ext _ id) by (intros c; apply ascii_N_embedding).
    by rewrite map_id, string_of_list_ascii_of_string.
  - apply Forall_forall. intros x Hx. apply list_elem_of_In in Hx.
    apply in_map_iff in Hx as (c & <- & _). apply N_ascii_bounded.
Qed.





End QueryBuilder.




(** ** Record extraction *)

Section Extraction.

Lemma seven_cells (cells : list Cell) :
  7 <= length cells ->
  exists c0 c1 c2 c3 c4 c5 c6 rest, cells = c0 :: c1 :: c2 :: c3 :: c4 :: c5 :: c6 :: rest.
Proof.
  intros H.
  do 7 (destruct cells as [|? cells]; [simpl in H; lia|]).
  by repeat eexists.
Qed.

Lemma extract_short env row term :
  length (row_cells row) < 7 -> extract_auction_from_row env row term = None.
Proof.
  intros Hlt. unfold extract_auction_from_row.
  by destruct (Nat.ltb_spec (length (row_cells row)) 7) as [_|Hge]; [|lia].
Qed.

Lemma extract_comprehensive_short env row term n :
  length (row_cells row) < 7 ->
  extract_auction_from_row_comprehensive env row term n = None.
Proof.
  intros Hlt. unfold extract_auction_from_row_comprehensive.
  by destruct (Nat.ltb_spec (length (row_cells row)) 7) as [_|Hge]; [|lia].
Qed.

(** In a row of at least seven cells the one failure of the extractors is
    that of [urljoin] on the source of the photo. *)
Lemma extract_none_iff env row term :
  extract_auction_from_row env row term = None <->
  length (row_cells row) < 7 \/
  exists cell0, row_cells row !! 0 = Some cell0 /\
                extract_image_url env cell0 = None.
Proof.
  unfold extract_auction_from_row.
  destruct (Nat.ltb_spec (length (row_cells row)) 7) as [Hlt|Hge];
    [split; [intros _; by left | done]|].
  destruct (seven_cells _ Hge) as (c0 & c1 & c2 & c3 & c4 & c5 & c6 & rest & ->).
  cbn. destruct (title_and_url row c1).
  destruct (extract_image_url env c0) as [img|] eqn:E; cbn.
  - split; [done|]. intros [Hlt | (cell0 & [= <-] & H)]; [cbn in Hlt; lia|].
    congruence.
  - split; [|done]. intros _. right. by exists c0.
Qed.

Lemma extract_comprehensive_none_iff env row term n :
  extract_auction_from_row_comprehensive env row term n = None <->
  length (row_cells row) < 7 \/
  exists cell0, row_cells row !! 0 = Some cell0 /\
                extract_image_url env cell0 = None.
Proof.
  unfold extract_auction_from_row_comprehensive.
  destruct (Nat.ltb_spec (length (row_cells row)) 7) as [Hlt|Hge];
    [split; [intros _; by left | done]|].
  destruct (seven_cells _ Hge) as (c0 & c1 & c2 & c3 & c4 & c5 & c6 & rest & ->).
  cbn. destruct (title_and_url_debug row c1).
  destruct (extract_image_url env c0) as [img|] eqn:E; cbn.
  - split; [done|]. intros [Hlt | (cell0 & [= <-] & H)]; [cbn in Hlt; lia|].
    congruence.
  - split; [|done]. intros _. right. by exists c0.
Qed.

End Extraction.

(** C8: a row with fewer than 7 cells yields no record, whatever its
    content, the search term and the collaborators, in both extractors: the
    test on the number of cells comes before every access to a field, and
    every record that is returned was read from a row of at least 7
    cells. *)
Theorem short_row_yields_none (env : Env) (row : Row) (term : string) (n : nat) :
  (length (row_cells row) < 7 ->
     extract_auction_from_row env row term = None /\
     extract_auction_from_row_comprehensive env row term n = None) /\
  (forall a, extract_auction_from_row env row term = Some a ->
     7 <= length (row_cells row)) /\
  (forall d, extract_auction_from_row_comprehensive env row term n = Some d ->
     7 <= length (row_cells row)).
Proof.
  split; [|split].
  - intros H. split; [by apply extract_short | by apply extract_comprehensive_short].
  - intros a Ha. destruct (Nat.lt_ge_cases (length (row_cells row)) 7) as [Hlt|]; [|done].
    by rewrite extract_short in Ha.
  - intros d Hd. destruct (Nat.lt_ge_cases (length (row_cells row)) 7) as [Hlt|]; [|done].
    by rewrite extract_comprehensive_short in Hd.
Qed.

Lemma short_row_yields_none_witness :
  length (row_cells header_row) < 7 /\
  extract_auction_from_row sample_env header_row "Cat" = None /\
  extract_auction_from_row_comprehensive sample_env header_row "Cat" 1 = None.
Proof.
  split; [simpl; lia|].
  apply (proj1 (short_row_yields_none sample_env header_row "Cat" 1)).
  simpl; lia.
Defined.


Section FallbackChain.

Lemma is_item_href_truthy href : is_item_href href = true -> Py.truthy href = true.
Proof. unfold is_item_href. by intros [? _]%andb_true_iff. Qed.

Lemma scan_links_find links cell1 t u0 :
  scan_links links cell1 t u0 =
  match List.find (fun link => is_item_href (get_attribute link "href")) links with
  | Some link =>
      (if Py.nonempty t then t
       else str_or (Py.strip (text link)) (Py.strip (cell_text cell1)),
       get_attribute link "href")
  | None => (t, u0)
  end.
Proof.
  induction links as [|link rest IH]; [done|]. cbn [scan_links List.find].
  by destruct (is_item_href (get_attribute link "href")).
Qed.

(** Strategy 3, entered without a URL candidate: the first link of the row
    whose href carries an item marker, else the first link of the row. *)
Lemma strategy3_find row cell1 t u0 :
  Py.truthy u0 = false ->
  strategy3 row cell1 t u0 =
  let all_links := find_elements_by_tag (row_elements row) "a" in
  match List.find (fun link => is_item_href (get_attribute link "href")) all_links with
  | Some link =>
      (if Py.nonempty t then t
       else str_or (Py.strip (text link)) (Py.strip (cell_text cell1)),
       get_attribute link "href")
  | None => (t, match all_links with
                | first :: _ => get_attribute first "href"
                | [] => u0
                end)
  end.
Proof.
  intros Hu. unfold strategy3. cbv zeta.
  destruct (find_elements_by_tag (row_elements row) "a") as [|first rest] eqn:E;
    [done|].
  rewrite scan_links_find.
  destruct (List.find _ (first :: rest)) as [link|] eqn:Hf.
  - apply find_some in Hf as [_ Hf]. apply is_item_href_truthy in Hf.
    by rewrite Hf.
  - by rewrite Hu.
Qed.


Lemma strategy4_cell_text cell1 :
  strategy4 cell1 (Py.strip (cell_text cell1)) = Py.strip (cell_text cell1).
Proof. unfold strategy4. by destruct (Py.strip (cell_text cell1)). Qed.


End FallbackChain.



(** An element of class item-link whose only URL-bearing attribute is href:
    strategy 2 takes the href, in the code and in the chain as specified. *)
Lemma href_is_fourth_candidate :
  title_and_url href_only_row (description_cell href_only_row)
    = ("Cat Tower", Some "/item/55") /\
  title_and_url_debug href_only_row (description_cell href_only_row)
    = ("Cat Tower", Some "/item/55") /\
  title_and_url_as_specified href_only_row (description_cell href_only_row)
    = ("Cat Tower", Some "/item/55").
Proof. repeat split; reflexivity. Qed.

(** The two extractors part when strategy 2 finds an element that yields no
    URL candidate: [scraper.py] does not enter strategy 3,
    [comprehensive_debug.py] does. *)
Lemma strategy3_entry_differs :
  title_and_url bare_clickable_row (description_cell bare_clickable_row)
    = ("Cat Tower", None) /\
  title_and_url_debug bare_clickable_row (description_cell bare_clickable_row)
    = ("Cat Tower", Some "https://www.bidft.auction/itemDetails?id=55").
Proof. split; reflexivity. Qed.




(** ** URL clean-up *)

Section CleanUrl.

Lemma is_absolute_http u : is_absolute u = true -> Py.startswith u "http" = true.
Proof.
  unfold is_absolute. intros H. apply orb_true_iff in H.
  destruct H as [H|H]; apply startswith_app in H as [rest ->]; reflexivity.
Qed.

Lemma match_url_at_absolute s m : match_url_at s = Some m -> is_absolute m = true.
Proof.
  unfold match_url_at.
  destruct (drop_prefix s "https://") as [r1|];
    destruct (drop_prefix s "http://") as [r2|]; simpl;
    try destruct (take_url_chars r1); try destruct (take_url_chars r2);
    simpl; try done; intros [= <-]; reflexivity.
Qed.

(** A match of the pattern is an absolute URL. *)
Lemma re_search_url_absolute s m : re_search_url s = Some m -> is_absolute m = true.
Proof.
  induction s as [|c s IH]; cbn [re_search_url];
    destruct (match_url_at _) eqn:E; try done;
    intros [= <-]; by apply match_url_at_absolute in E.
Qed.

Lemma make_absolute_ok s :
  Py.nonempty s = true ->
  Py.startswith s "http" = false \/ is_absolute s = true ->
  exists v,
    (if Py.nonempty s && negb (Py.startswith s "http") then
       if Py.startswith s "/" then Some ("https://www.bidft.auction" +:+ s)
       else if Py.startswith s "www.bidfta.com" then Some ("https://" +:+ s)
       else Some ("https://www.bidft.auction/" +:+ s)
     else Some s) = Some v /\ is_absolute v = true.
Proof.
  intros Hs Hcase. rewrite Hs.
  destruct (Py.startswith s "http") eqn:Hh; cbn [andb negb].
  - destruct Hcase as [?|Habs]; [done|]. eauto.
  - destruct (Py.startswith s "/"); [eexists; split; reflexivity|].
    destruct (Py.startswith s "www.bidfta.com");
      eexists; split; reflexivity.
Qed.

(** The clean-up yields an absolute URL for every non-empty candidate
    that does not begin with the letters http, and for every candidate
    that is absolute already. *)
Lemma clean_url_absolute (u : option string) :
  Py.truthy u = true ->
  Py.startswith (text_of u) "http" = false \/ is_absolute (text_of u) = true ->
  exists v, clean_url u = Some v /\ is_absolute v = true.
Proof.
  intros Hu Hcase. unfold clean_url. rewrite Hu.
  destruct u as [s|]; [|done]. change (text_of (Some s)) with s in *.
  cbn [Py.truthy] in Hu.
  destruct (Py.contains s "javascript:" || Py.contains s "onclick");
    [|by apply make_absolute_ok].
  destruct (re_search_url s) as [m|] eqn:E; [|by apply make_absolute_ok].
  apply re_search_url_absolute in E.
  rewrite (is_absolute_http _ E), andb_false_r. eauto.
Qed.

(** The url of an extracted record is the cleaned URL candidate. *)
Lemma extract_url env row term a :
  extract_auction_from_row env row term = Some a ->
  url a = clean_url (snd (title_and_url row (description_cell row))).
Proof.
  unfold extract_auction_from_row, description_cell.
  destruct (Nat.ltb_spec (length (row_cells row)) 7) as [Hlt|Hge]; [done|].
  destruct (seven_cells _ Hge) as (c0 & c1 & c2 & c3 & c4 & c5 & c6 & rest & ->).
  cbn. destruct (title_and_url row c1).
  destruct (extract_image_url env c0) as [img|]; [|done]. cbn. by intros [= <-].
Qed.

End CleanUrl.

(** C2 at the failing input: the URL candidate is a relative path that
    begins with the letters http; the clean-up takes it for absolute and the
    record leaves the extractor with a url that starts with neither
    [http://] nor [https://]. *)
Theorem relative_http_url_kept (env : Env) :
  exists a,
    extract_auction_from_row env relative_http_row "Cat" = Some a /\
    url a = Some "http-archive/item/55" /\
    Py.truthy (url a) = true /\
    Py.startswith (text_of (url a)) "http://" = false /\
    Py.startswith (text_of (url a)) "https://" = false.
Proof. eexists. split; [reflexivity|]. repeat split. Qed.

(** ** The pipeline between extractor and deduplication *)

Section Pipeline.

(** Every title the extractor produces is a trimmed text. *)
Lemma title_is_trimmed row cell1 :
  exists x, fst (title_and_url row cell1) = Py.strip x.
Proof.
  unfold title_and_url.
  destruct (find_element_by_tag (cell_elements cell1) "a") as [link|];
    [by eexists|].
  destruct (find_clickable (cell_elements cell1)) as [|elem rest].
  - rewrite strategy3_find by done. cbv zeta.
    destruct (List.find _ _) as [link|]; cbn [Py.nonempty fst strategy4].
    + unfold str_or, strategy4.
      destruct (Py.strip (text link)) eqn:E1; cbn [Py.nonempty negb].
      * destruct (Py.strip (cell_text cell1)) eqn:E2; cbn [Py.nonempty negb];
          [by eexists | rewrite <- E2; by eexists].
      * rewrite <- E1. by eexists.
    + by eexists.
  - cbn [fst]. rewrite strategy4_cell_text. by eexists.
Qed.

Lemma extract_title env row term a :
  extract_auction_from_row env row term = Some a ->
  title a = fst (title_and_url row (description_cell row)).
Proof.
  unfold extract_auction_from_row, description_cell.
  destruct (Nat.ltb_spec (length (row_cells row)) 7) as [Hlt|Hge]; [done|].
  destruct (seven_cells _ Hge) as (c0 & c1 & c2 & c3 & c4 & c5 & c6 & rest & ->).
  cbn. destruct (title_and_url row c1).
  destruct (extract_image_url env c0) as [img|]; [|done]. cbn. by intros [= <-].
Qed.

(** A record that passes the criteria filter has a non-empty trimmed title,
    hence a usable key: the records without one never reach
    [remove_duplicates] in [scrape_all_searches]. *)
Lemma extracted_record_has_key cfg env row term a :
  extract_auction_from_row env row term = Some a ->
  meets_criteria cfg a = true ->
  has_key a = true.
Proof.
  intros Hex Hm. apply meets_criteria_true in Hm as (Ht & _).
  apply extract_title in Hex.
  destruct (title_is_trimmed row (description_cell row)) as [x Hx].
  rewrite Hx in Hex. rewrite Hex in Ht.
  unfold has_key. rewrite Hex, (strip_not_blank _ Ht). apply orb_true_r.
Qed.

Lemma keep_unseen_keyed (earlier : list DedupKey) (l : list Auction) :
  Forall (fun a => has_key a = true) l ->
  List.filter has_key (keep_unseen earlier l) = keep_unseen earlier l.
Proof.
  intros Hl. revert earlier.
  induction Hl as [|a l Ha Hl IH]; intros earlier; [done|]. simpl.
  case_bool_decide; [apply IH|]. simpl. by rewrite Ha, IH.
Qed.

(** On records that all have a usable key the loop is the deduplication as
    specified. *)
Lemma remove_duplicates_on_keyed (l : list Auction) :
  Forall (fun a => has_key a = true) l ->
  remove_duplicates l = dedupe_as_specified l.
Proof.
  intros Hl. rewrite remove_duplicates_filter. by apply keep_unseen_keyed.
Qed.

(** Whatever the candidate, a non-empty cleaned url begins with the letters
    http. *)
Lemma clean_url_http_prefix (u : option string) :
  Py.truthy (clean_url u) = true ->
  Py.startswith (text_of (clean_url u)) "http" = true.
Proof.
  unfold clean_url. destruct (Py.truthy u) eqn:Hu; [|by rewrite Hu].
  destruct u as [s|]; [|done]. change (text_of (Some s)) with s.
  set (s1 := if Py.contains s "javascript:" || Py.contains s "onclick"
             then match re_search_url s with Some m => m | None => s end
             else s).
  destruct (Py.nonempty s1 && negb (Py.startswith s1 "http")) eqn:E.
  - intros _. destruct (Py.startswith s1 "/"); [reflexivity|].
    destruct (Py.startswith s1 "www.bidfta.com"); reflexivity.
  - change (text_of (Some s1)) with s1. cbn [Py.truthy]. intros Hn.
    rewrite Hn in E. by destruct (Py.startswith s1 "http").
Qed.

End Pipeline.

(** ** Checks on concrete inputs *)

(** The scenario of the specification: a direct link in the description. *)
Example direct_link_scenario :
  extract_auction_from_row sample_env direct_link_row "Cat"
  = Some (mkAuction "Cat Tower" (Some "https://www.bidft.auction/item/55")
                    "$12.00" "Sunday 5PM" "Cincinnati - School Road" "Brand New"
                    (Some EmptyString) None "Cat") /\
  (forall a, extract_auction_from_row sample_env direct_link_row "Cat" = Some a ->
             meets_criteria sample_config a = true).
Proof. split; [reflexivity|]. by intros a [= <-]. Qed.

(** A row without any link keeps its description as title; the url stays
    the empty string, and the record passes the filter and survives the
    deduplication. *)
Example text_only_scenario :
  exists a,
    extract_auction_from_row sample_env text_only_row "Cat" = Some a /\
    title a = "Cat Tower" /\ url a = Some EmptyString /\
    meets_criteria sample_config a = true /\
    remove_duplicates [a] = [a].
Proof. eexists. split; [reflexivity|]. repeat split. Qed.

Example dedupe_first_seen_order :
  remove_duplicates [cat_tower; trash_can; cat_tower; cat_toy; cat_toy]
  = [cat_tower; trash_can; cat_toy].
Proof. reflexivity. Qed.

Example grouping_scenario :
  let grouped :=
    group_auctions_by_search_term [cat_tower; trash_can; cat_toy; cat_bed] in
  grouped !! "Cat" = Some [cat_bed; cat_tower; cat_toy] /\
  grouped !! "Trash" = Some [trash_can] /\
  grouped !! "Rug" = None.
Proof. repeat split; vm_compute; reflexivity. Qed.

Example priorities :
  map parse_end_time [cat_bed; cat_tower; trash_can; cat_toy] = [0; 2; 7; 9].
Proof. reflexivity. Qed.

Example criteria_ignore_case :
  meets_criteria sample_config cat_tower_shouted = true.
Proof. reflexivity. Qed.

Example clean_url_cases :
  map clean_url
      [Some "/item/5"; Some "item/5"; Some "www.bidfta.com/i/5";
       Some "javascript:open('https://www.bidft.auction/item/5')";
       Some "javascript:void(0)"; Some EmptyString; None]
  = [Some "https://www.bidft.auction/item/5";
     Some "https://www.bidft.auction/item/5";
     Some "https://www.bidfta.com/i/5";
     Some "https://www.bidft.auction/item/5";
     Some "https://www.bidft.auction/javascript:void(0)";
     Some EmptyString; None].
Proof. reflexivity. Qed.

Example week_of_tuesday :
  get_week_date_range tuesday_noon
  = Some ("2026-11-01T04:00:00.000Z", "2026-11-08T04:00:00.000Z") /\
  get_week_date_range_debug tuesday_noon true
  = Some ("2026-10-04T04:00:00.000Z", "2026-12-03T04:00:00.000Z").
Proof. split; reflexivity. Qed.

(** In the first days of year 1 the Sunday of the week is not a date: the
    subtraction raises. *)
Example week_out_of_range :
  get_week_date_range (mkDatetime 3 0) = None.
Proof. reflexivity. Qed.

(** The years before 1000 are rendered without padding, and the text still
    reads as the date. *)
Example week_of_year_one :
  get_week_date_range (mkDatetime 8 0)
  = Some ("1-01-07T04:00:00.000Z", "1-01-14T04:00:00.000Z") /\
  read_timestamp "1-01-07T04:00:00.000Z" = Some (7%Z, 14400000%Z).
Proof. split; reflexivity. Qed.

(** A photo whose source [urljoin] rejects: the exception reaches the
    catch-all handler and the row of seven cells yields no record, in both
    extractors. *)
Example bad_image_source_skipped :
  extract_auction_from_row strict_env bad_photo_row "Cat" = None /\
  extract_auction_from_row_comprehensive strict_env bad_photo_row "Cat" 1 = None /\
  length (row_cells bad_photo_row) = 7.
Proof. repeat split. Qed.

(** Reading back a request: the text of the base64 value and its members. *)
Example request_read_back :
  b64decode "eyJzZWFyY2hUZXJtIjoiQ2F0IiwiZW5kZWQiOmZhbHNlfQ=="
  = Some ("{" +:+ dquote +:+ "searchTerm" +:+ dquote +:+ ":" +:+ dquote +:+ "Cat"
          +:+ dquote +:+ "," +:+ dquote +:+ "ended" +:+ dquote +:+ ":false}") /\
  (forall json_str,
     b64decode "eyJzZWFyY2hUZXJtIjoiQ2F0IiwiZW5kZWQiOmZhbHNlfQ==" = Some json_str ->
     loads json_str = Some [("searchTerm", JStr "Cat"); ("ended", JBool false)]).
Proof. split; [reflexivity|]. by intros json_str [= <-]. Qed.

Example b64encode_cases :
  map b64encode [EmptyString; "f"; "fo"; "foo"; "foob"; "fooba"; "foobar"]
  = [EmptyString; "Zg=="; "Zm8="; "Zm9v"; "Zm9vYg=="; "Zm9vYmE="; "Zm9vYmFy"].
Proof. reflexivity. Qed.

Example search_url_of_tuesday :
  build_search_url (mkConfig [] ["Cincinnati - School Road"] ["Brand New"] 2)
                   tuesday_noon "Cat"
  = Some ("https://www.bidft.auction/archive?searchSettings=" +:+
          "eyJzZWFyY2hUZXJtIjoiQ2F0IiwibG9jYXRpb25zIjpbIkNpbmNpbm5hdGkgLSBTY2hv" +:+
          "b2wgUm9hZCJdLCJjb25kaXRpb25zIjpbIkJyYW5kIE5ldyJdLCJzb3J0IjoiREFURV9B" +:+
          "U0MiLCJuZXdlclRoYW4iOiIyMDI2LTExLTAxVDA0OjAwOjAwLjAwMFoiLCJvbGRlclRo" +:+
          "YW4iOiIyMDI2LTExLTA4VDA0OjAwOjAwLjAwMFoiLCJlbmRlZCI6ZmFsc2V9").
Proof. reflexivity. Qed.

(** * Properties of the further code *)

(** ** Location priority and the debug filter *)

Section PriorityAndDebugFilter.

Lemma any_location_in_matches (field : string) (locations : list string) :
  any_location_in (Py.lower field) locations = true
  <-> allowed_matches locations field.
Proof.
  rewrite <- allow_list_match.
  induction locations as [|p rest IH]; [done|].
  cbn [any_location_in existsb].
  destruct (Py.contains (Py.lower field) (Py.lower p)); [done|].
  by rewrite IH.
Qed.

Lemma match_loop_flag (field : string) (allowed : list string) :
  fst (match_loop (Py.lower field) allowed)
  = existsb (fun x => Py.contains (Py.lower field) (Py.lower x)) allowed.
Proof.
  induction allowed as [|e rest IH]; [done|]. cbn [match_loop existsb].
  by destruct (Py.contains (Py.lower field) (Py.lower e)).
Qed.

Lemma meets_criteria_debug_eq (cfg : Config) (a : Auction) :
  meets_criteria_debug cfg a = meets_criteria cfg a.
Proof.
  unfold meets_criteria_debug, meets_criteria.
  destruct (Py.nonempty (title a)); [|done].
  destruct (Py.nonempty (location a)); [|done]. cbn [negb orb].
  pose proof (match_loop_flag (location a) (CINCINNATI_LOCATIONS cfg)) as Hl.
  pose proof (match_loop_flag (condition a) (FILTERS_condition cfg)) as Hc.
  destruct (match_loop (Py.lower (location a)) _) as [lm ml].
  destruct (match_loop (Py.lower (condition a)) _) as [cm mc].
  cbn [fst] in Hl, Hc. by rewrite <- Hl, <- Hc.
Qed.

End PriorityAndDebugFilter.

(** X1: the location priority is 2 exactly when some entry of the first
    priority list matches the location (case-insensitive substring), 1
    exactly when none of the first list but some entry of the second list
    matches, and 0 exactly when no entry of either list matches. *)
Theorem get_location_priority_spec (prio : Priorities) (location : string) :
  (get_location_priority prio location = 2
     <-> allowed_matches (PRIORITY_2_LOCATIONS prio) location) /\
  (get_location_priority prio location = 1
     <-> ~ allowed_matches (PRIORITY_2_LOCATIONS prio) location /\
         allowed_matches (PRIORITY_1_LOCATIONS prio) location) /\
  (get_location_priority prio location = 0
     <-> ~ allowed_matches (PRIORITY_2_LOCATIONS prio) location /\
         ~ allowed_matches (PRIORITY_1_LOCATIONS prio) location).
Proof.
  unfold get_location_priority.
  rewrite <- !any_location_in_matches.
  destruct (any_location_in _ (PRIORITY_2_LOCATIONS prio));
    destruct (any_location_in _ (PRIORITY_1_LOCATIONS prio));
    repeat split; try done; try (intros [? ?]; done); intros; discriminate.
Qed.

Lemma get_location_priority_spec_witness :
  get_location_priority sample_priorities "CINCINNATI - WEST SEYMOUR AVE." = 2 /\
  allowed_matches (PRIORITY_2_LOCATIONS sample_priorities)
                  "CINCINNATI - WEST SEYMOUR AVE.".
Proof.
  split; [reflexivity|].
  apply (proj1 (proj1 (get_location_priority_spec sample_priorities _))).
  reflexivity.
Defined.

(** X2: a location that the digest highlights passes the location test of
    the criteria filter, when every entry of the priority lists is an entry
    of the allowed locations. *)
Theorem highlighted_location_is_allowed
    (cfg : Config) (prio : Priorities) (location : string) :
  PRIORITY_2_LOCATIONS prio ⊆ CINCINNATI_LOCATIONS cfg ->
  PRIORITY_1_LOCATIONS prio ⊆ CINCINNATI_LOCATIONS cfg ->
  0 < get_location_priority prio location ->
  allowed_matches (CINCINNATI_LOCATIONS cfg) location.
Proof.
  intros H2 H1 Hp. unfold get_location_priority in Hp.
  destruct (any_location_in _ (PRIORITY_2_LOCATIONS prio)) eqn:E2.
  - apply any_location_in_matches in E2 as (x & Hx & Hs).
    exists x. split; [by apply H2 | done].
  - destruct (any_location_in _ (PRIORITY_1_LOCATIONS prio)) eqn:E1; [|lia].
    apply any_location_in_matches in E1 as (x & Hx & Hs).
    exists x. split; [by apply H1 | done].
Qed.

Lemma highlighted_location_is_allowed_witness :
  allowed_matches (CINCINNATI_LOCATIONS sample_config) "Springdale - Commons Drive".
Proof.
  apply (highlighted_location_is_allowed sample_config sample_priorities).
  - compute_done.
  - compute_done.
  - vm_compute. lia.
Defined.

(** X3: the debug filter accepts exactly the records the production filter
    accepts. *)
Theorem meets_criteria_debug_agrees (cfg : Config) (a : Auction) :
  meets_criteria_debug cfg a = meets_criteria cfg a.
Proof. apply meets_criteria_debug_eq. Qed.

(** ** Date window: the wide window and the week *)

Section WeekFacts.

Lemma sunday_bounds (now : datetime) :
  (toordinal now - 6 <= toordinal now - days_since_sunday now <= toordinal now)%Z.
Proof.
  rewrite days_since_sunday_mod.
  pose proof (Z.mod_pos_bound (toordinal now) 7 ltac:(lia)). lia.
Qed.

Lemma week_bounds_value (now : datetime) :
  (MINORDINAL + 6 <= toordinal now <= MAXORDINAL - 7)%Z ->
  week_bounds now =
  Some (mkDatetime (toordinal now - days_since_sunday now) (time_of_day now),
        mkDatetime (toordinal now - days_since_sunday now + 7) (time_of_day now)).
Proof.
  intros Hr. pose proof (sunday_bounds now) as Hs.
  pose proof (days_since_sunday_mod now) as Hd.
  pose proof (Z.div_mod (toordinal now) 7 ltac:(lia)) as Hdiv.
  unfold MINORDINAL, MAXORDINAL in Hr.
  unfold week_bounds.
  rewrite add_days_in_range by (unfold MINORDINAL, MAXORDINAL; lia).
  cbn [mbind option_bind].
  rewrite add_days_in_range by (unfold MINORDINAL, MAXORDINAL; cbn [toordinal]; lia).
  done.
Qed.

Lemma week_bounds_debug_value (now : datetime) :
  (MINORDINAL + 6 <= toordinal now <= MAXORDINAL - 7)%Z ->
  week_bounds_debug now false =
  Some (mkDatetime (toordinal now - days_since_sunday now) (time_of_day now),
        mkDatetime (toordinal now - days_since_sunday now + 6) (time_of_day now)).
Proof.
  intros Hr. pose proof (sunday_bounds now) as Hs.
  pose proof (days_since_sunday_mod now) as Hd.
  pose proof (Z.div_mod (toordinal now) 7 ltac:(lia)) as Hdiv.
  unfold MINORDINAL, MAXORDINAL in Hr.
  unfold week_bounds_debug.
  rewrite add_days_in_range by (unfold MINORDINAL, MAXORDINAL; lia).
  cbn [mbind option_bind].
  rewrite add_days_in_range by (unfold MINORDINAL, MAXORDINAL; cbn [toordinal]; lia).
  done.
Qed.

End WeekFacts.

(** X4: with [ignore_dates] the debug window runs from 30 days before [now]
    to 30 days after it, and it contains the default window of both
    variants: it starts no later than the Sunday and ends no earlier than
    the next Sunday. *)
Theorem wide_window_contains_week (now : datetime) :
  (MINORDINAL + 30 <= toordinal now <= MAXORDINAL - 30)%Z ->
  exists start end_ sunday saturday next_sunday,
    week_bounds_debug now true = Some (start, end_) /\
    week_bounds_debug now false = Some (sunday, saturday) /\
    week_bounds now = Some (sunday, next_sunday) /\
    toordinal start = (toordinal now - 30)%Z /\
    toordinal end_ = (toordinal now + 30)%Z /\
    (instant_T04 start <= instant_T04 sunday)%Z /\
    (instant_T04 saturday <= instant_T04 next_sunday)%Z /\
    (instant_T04 next_sunday <= instant_T04 end_)%Z.
Proof.
  intros Hr. unfold MINORDINAL, MAXORDINAL in Hr.
  pose proof (sunday_bounds now) as Hs.
  do 5 eexists.
  split.
  { unfold week_bounds_debug.
    rewrite add_days_in_range by (unfold MINORDINAL, MAXORDINAL; lia).
    cbn [mbind option_bind].
    rewrite add_days_in_range by (unfold MINORDINAL, MAXORDINAL; lia).
    reflexivity. }
  split; [apply week_bounds_debug_value; unfold MINORDINAL, MAXORDINAL; lia|].
  split; [apply week_bounds_value; unfold MINORDINAL, MAXORDINAL; lia|].
  unfold instant_T04. cbn [toordinal]. lia.
Qed.

Lemma wide_window_contains_week_witness :
  exists start end_ sunday saturday next_sunday,
    week_bounds_debug tuesday_noon true = Some (start, end_) /\
    week_bounds_debug tuesday_noon false = Some (sunday, saturday) /\
    week_bounds tuesday_noon = Some (sunday, next_sunday) /\
    toordinal start = (toordinal tuesday_noon - 30)%Z /\
    toordinal end_ = (toordinal tuesday_noon + 30)%Z /\
    (instant_T04 start <= instant_T04 sunday)%Z /\
    (instant_T04 saturday <= instant_T04 next_sunday)%Z /\
    (instant_T04 next_sunday <= instant_T04 end_)%Z.
Proof.
  apply (wide_window_contains_week tuesday_noon).
  unfold MINORDINAL, MAXORDINAL, tuesday_noon. simpl. lia.
Defined.

(** X5: the search URL changes only with the week: two clock readings with
    the same most recent Sunday, at whatever time of day, give the same
    window and the same URL, and the URL is produced. *)
Theorem same_week_same_url (cfg : Config) (now1 now2 : datetime) (term : string) :
  (MINORDINAL + 6 <= toordinal now1 <= MAXORDINAL - 7)%Z ->
  (MINORDINAL + 6 <= toordinal now2 <= MAXORDINAL - 7)%Z ->
  (toordinal now1 - days_since_sunday now1
   = toordinal now2 - days_since_sunday now2)%Z ->
  get_week_date_range now1 = get_week_date_range now2 /\
  get_week_date_range_debug now1 false = get_week_date_range_debug now2 false /\
  build_search_url cfg now1 term = build_search_url cfg now2 term /\
  is_Some (build_search_url cfg now1 term).
Proof.
  intros H1 H2 Hs.
  assert (Hw : get_week_date_range now1 = get_week_date_range now2).
  { unfold get_week_date_range.
    rewrite (week_bounds_value now1 H1), (week_bounds_value now2 H2).
    cbn [mbind option_bind]. unfold strftime_T04. cbn [toordinal].
    by rewrite Hs. }
  split; [done|]. split.
  { unfold get_week_date_range_debug.
    rewrite (week_bounds_debug_value now1 H1), (week_bounds_debug_value now2 H2).
    cbn [mbind option_bind]. unfold strftime_T04. cbn [toordinal].
    by rewrite Hs. }
  unfold build_search_url. rewrite Hw. split; [done|].
  unfold get_week_date_range. rewrite (week_bounds_value now2 H2).
  cbn [mbind option_bind]. by eexists.
Qed.

Lemma same_week_same_url_witness :
  build_search_url sample_config tuesday_noon "Rug"
  = build_search_url sample_config thursday_morning "Rug".
Proof.
  apply (same_week_same_url sample_config tuesday_noon thursday_morning "Rug").
  - unfold MINORDINAL, MAXORDINAL, tuesday_noon. simpl. lia.
  - unfold MINORDINAL, MAXORDINAL, thursday_morning. simpl. lia.
  - reflexivity.
Defined.

(** ** Deduplication: what the output holds *)

Section DedupFacts.

Lemma has_key_false_iff (a : Auction) :
  has_key a = false <-> dedup_key a = ByTitle EmptyString.
Proof.
  unfold has_key, dedup_key. destruct (Py.truthy (url a)); cbn [orb].
  - split; discriminate.
  - rewrite negb_false_iff, <- is_blank_lower, <- strip_empty.
    split; [by intros -> | by intros [= ->]].
Qed.

Lemma has_key_same_key (a b : Auction) :
  dedup_key a = dedup_key b -> has_key a = has_key b.
Proof.
  intros Hk. destruct (has_key a) eqn:Ha, (has_key b) eqn:Hb; try done.
  - apply has_key_false_iff in Hb. rewrite <- Hk in Hb.
    apply has_key_false_iff in Hb. congruence.
  - apply has_key_false_iff in Ha. rewrite Hk in Ha.
    apply has_key_false_iff in Ha. congruence.
Qed.

Lemma remove_duplicates_keys_subseteq (l : list Auction) :
  dedup_key <$> remove_duplicates l ⊆ dedup_key <$> l.
Proof.
  intros k Hk. apply list_elem_of_fmap in Hk as (b & -> & Hb).
  apply list_elem_of_fmap. exists b. split; [done|].
  by apply remove_duplicates_subseteq.
Qed.

Lemma remove_duplicates_facts (l : list Auction) :
  sublist (remove_duplicates l) l /\
  NoDup (dedup_key <$> remove_duplicates l) /\
  (forall a, a ∈ l -> has_key a = true ->
             dedup_key a ∈ dedup_key <$> remove_duplicates l).
Proof.
  induction l as [|a l (IHs & IHn & IHc)] using rev_ind.
  { repeat split; [constructor | constructor | by intros a Ha%elem_of_nil]. }
  rewrite remove_duplicates_snoc.
  destruct (has_key a) eqn:Hk; cbn [andb].
  - case_bool_decide as Hin.
    + repeat split.
      * by apply sublist_app.
      * rewrite fmap_app. apply NoDup_app. repeat split; [done| |].
        -- intros k Hk1 Hk2. apply list_elem_of_singleton in Hk2 as ->.
           by apply Hin, remove_duplicates_keys_subseteq.
        -- apply NoDup_singleton.
      * intros b Hb Hkb. rewrite fmap_app, elem_of_app.
        apply elem_of_app in Hb as [Hb|Hb]; [left; by apply IHc|].
        apply list_elem_of_singleton in Hb as ->. right. cbn. by left.
    + rewrite app_nil_r. repeat split.
      * by apply sublist_inserts_r.
      * done.
      * intros b Hb Hkb.
        apply elem_of_app in Hb as [Hb|Hb]; [by apply IHc|].
        apply list_elem_of_singleton in Hb as ->.
        apply list_elem_of_fmap in Hin as (c & Hc & Hcl).
        rewrite Hc. apply IHc; [done|].
        by rewrite <- (has_key_same_key _ _ Hc).
  - rewrite app_nil_r. repeat split.
    + by apply sublist_inserts_r.
    + done.
    + intros b Hb Hkb.
      apply elem_of_app in Hb as [Hb|Hb]; [by apply IHc|].
      apply list_elem_of_singleton in Hb as ->. congruence.
Qed.

End DedupFacts.

(** X6: the output of [remove_duplicates] is a subsequence of its input in
    which no two records share a key (the url, or else the normalised
    title), and every usable key of the input is the key of an output
    record. *)
Theorem remove_duplicates_distinct_keys (l : list Auction) :
  sublist (remove_duplicates l) l /\
  NoDup (dedup_key <$> remove_duplicates l) /\
  (forall a, a ∈ l -> has_key a = true ->
             dedup_key a ∈ dedup_key <$> remove_duplicates l).
Proof. apply remove_duplicates_facts. Qed.

Lemma remove_duplicates_distinct_keys_witness :
  dedup_key cat_toy
  ∈ dedup_key <$> remove_duplicates [cat_tower; cat_toy; cat_tower; cat_toy].
Proof.
  apply (proj2 (proj2 (remove_duplicates_distinct_keys
                         [cat_tower; cat_toy; cat_tower; cat_toy])) cat_toy).
  - right. left.
  - reflexivity.
Defined.

(** ** Extracted records *)

Section ExtractedRecords.

Lemma lstrip_head s c s' : Py.lstrip s = String c s' -> Py.isspace c = false.
Proof.
  induction s as [|x s IH]; [done|]. cbn [Py.lstrip].
  destruct (Py.isspace x) eqn:E; [done|]. by intros [= <- _].
Qed.

Lemma rstrip_keeps_head c s :
  Py.isspace c = false -> exists r, Py.rstrip (String c s) = String c r.
Proof.
  intros Hc. cbn [Py.rstrip]. destruct (Py.rstrip s); [|by eexists].
  rewrite Hc. by eexists.
Qed.

Lemma rstrip_rstrip s : Py.rstrip (Py.rstrip s) = Py.rstrip s.
Proof.
  induction s as [|c s IH]; [done|]. cbn [Py.rstrip].
  destruct (Py.rstrip s) as [|c' r] eqn:E.
  - destruct (Py.isspace c) eqn:Hc; [done|]. cbn [Py.rstrip]. by rewrite Hc.
  - change (Py.rstrip (String c (String c' r)))
      with (match Py.rstrip (String c' r) with
            | EmptyString => if Py.isspace c then EmptyString else String c EmptyString
            | r0 => String c r0
            end).
    by rewrite IH.
Qed.

(** Trimming is idempotent. *)
Lemma strip_strip s : Py.strip (Py.strip s) = Py.strip s.
Proof.
  unfold Py.strip. destruct (Py.lstrip s) as [|c y] eqn:E; [done|].
  apply lstrip_head in E as Hc.
  destruct (rstrip_keeps_head c y Hc) as [r Hr]. rewrite Hr.
  cbn [Py.lstrip]. rewrite Hc, <- Hr. apply rstrip_rstrip.
Qed.

Lemma title_is_trimmed_debug row cell1 :
  exists x, fst (title_and_url_debug row cell1) = Py.strip x.
Proof.
  assert (Hs3 : forall t u, Py.truthy u = false -> (exists x, t = Py.strip x) ->
            exists x, strategy4 cell1 (fst (strategy3 row cell1 t u)) = Py.strip x).
  { intros t u Hu [x0 Ht]. rewrite strategy3_find by done. cbv zeta.
    destruct (List.find _ _) as [link|]; cbn [fst].
    - unfold strategy4, str_or.
      destruct (Py.nonempty t) eqn:Hn; cbn [negb]; [rewrite Hn; by eexists|].
      destruct (Py.nonempty (Py.strip (text link))) eqn:E1.
      + rewrite E1. by eexists.
      + destruct (Py.nonempty (Py.strip (cell_text cell1))); by eexists.
    - unfold strategy4. destruct (Py.nonempty t); by eexists. }
  unfold title_and_url_debug.
  destruct (find_element_by_tag (cell_elements cell1) "a") as [link|];
    [by eexists|].
  destruct (find_clickable (cell_elements cell1)) as [|elem rest].
  - cbn [Py.truthy Py.nonempty negb].
    specialize (Hs3 EmptyString (Some EmptyString) eq_refl).
    destruct (strategy3 row cell1 EmptyString (Some EmptyString)) as [t u].
    apply Hs3. by exists EmptyString.
  - destruct (Py.truthy (clickable_url elem)) eqn:Hu; cbn [negb fst].
    + rewrite strategy4_cell_text. by eexists.
    + specialize (Hs3 (Py.strip (cell_text cell1)) (clickable_url elem) Hu).
      destruct (strategy3 row cell1 _ _) as [t u]. apply Hs3. by eexists.
Qed.

(** The record the production extractor builds from a row of at least seven
    cells. *)
Lemma extract_record env row term a :
  extract_auction_from_row env row term = Some a ->
  exists c0 c2 c3 c4 c5 c6 rest image_url,
    row_cells row = c0 :: description_cell row :: c2 :: c3 :: c4 :: c5 :: c6 :: rest /\
    extract_image_url env c0 = Some image_url /\
    a = mkAuction (fst (title_and_url row (description_cell row)))
          (clean_url (snd (title_and_url row (description_cell row))))
          (Py.strip (cell_text c6)) (Py.strip (cell_text c5))
          (Py.strip (cell_text c4)) (Py.strip (cell_text c3))
          image_url
          (if Py.truthy image_url then download_image env image_url else None)
          term.
Proof.
  unfold extract_auction_from_row, description_cell.
  destruct (Nat.ltb_spec (length (row_cells row)) 7) as [Hlt|Hge]; [done|].
  destruct (seven_cells _ Hge) as (c0 & c1 & c2 & c3 & c4 & c5 & c6 & rest & E).
  rewrite E. cbn. destruct (title_and_url row c1).
  destruct (extract_image_url env c0) as [img|] eqn:Ei; [|done]. cbn.
  intros [= <-]. by exists c0, c2, c3, c4, c5, c6, rest, img.
Qed.

Lemma extract_comprehensive_record env row term n d :
  extract_auction_from_row_comprehensive env row term n = Some d ->
  exists c0 c2 c3 c4 c5 c6 rest image_url,
    row_cells row = c0 :: description_cell row :: c2 :: c3 :: c4 :: c5 :: c6 :: rest /\
    extract_image_url env c0 = Some image_url /\
    d = (mkAuction (fst (title_and_url_debug row (description_cell row)))
           (clean_url (snd (title_and_url_debug row (description_cell row))))
           (Py.strip (cell_text c6)) (Py.strip (cell_text c5))
           (Py.strip (cell_text c4)) (Py.strip (cell_text c3))
           image_url None term, n).
Proof.
  unfold extract_auction_from_row_comprehensive, description_cell.
  destruct (Nat.ltb_spec (length (row_cells row)) 7) as [Hlt|Hge]; [done|].
  destruct (seven_cells _ Hge) as (c0 & c1 & c2 & c3 & c4 & c5 & c6 & rest & E).
  rewrite E. cbn. destruct (title_and_url_debug row c1).
  destruct (extract_image_url env c0) as [img|] eqn:Ei; [|done]. cbn.
  intros [= <-]. by exists c0, c2, c3, c4, c5, c6, rest, img.
Qed.

Lemma truthy_clean_url u : Py.truthy (clean_url u) = Py.truthy u.
Proof.
  unfold clean_url. destruct (Py.truthy u) eqn:Hu; [|done].
  destruct u as [s|]; [|done]. change (text_of (Some s)) with s.
  cbn [Py.truthy] in Hu.
  set (s1 := if Py.contains s "javascript:" || Py.contains s "onclick"
             then match re_search_url s with Some m => m | None => s end
             else s).
  assert (Hs1 : Py.nonempty s1 = true).
  { subst s1. destruct (_ || _); [|done].
    destruct (re_search_url s) as [m|] eqn:E; [|done].
    apply re_search_url_absolute, is_absolute_http, startswith_app in E
      as [rest ->]. done. }
  rewrite Hs1. cbn [andb].
  destruct (Py.startswith s1 "http"); cbn [negb]; [done|].
  destruct (Py.startswith s1 "/"); [done|].
  by destruct (Py.startswith s1 "www.bidfta.com").
Qed.

End ExtractedRecords.

(** X7: every text field of an extracted record, title, condition, location,
    end time and current bid, is trimmed: it has no white space at either
    end.  The record carries the search term it was extracted for. *)
Theorem extracted_fields_trimmed (env : Env) (row : Row) (term : string) (a : Auction) :
  extract_auction_from_row env row term = Some a ->
  Py.strip (title a) = title a /\
  Py.strip (condition a) = condition a /\
  Py.strip (location a) = location a /\
  Py.strip (end_time a) = end_time a /\
  Py.strip (current_bid a) = current_bid a /\
  search_term a = term.
Proof.
  intros (c0 & c2 & c3 & c4 & c5 & c6 & rest & img & _ & _ & ->)%extract_record.
  cbn [title condition location end_time current_bid search_term].
  destruct (title_is_trimmed row (description_cell row)) as [x ->].
  by rewrite !strip_strip.
Qed.

Lemma extracted_fields_trimmed_witness :
  exists a,
    extract_auction_from_row sample_env text_only_row "Cat" = Some a /\
    Py.strip (title a) = title a /\ title a = "Cat Tower".
Proof.
  eexists. split; [reflexivity|]. split; [|reflexivity].
  eapply (extracted_fields_trimmed sample_env text_only_row "Cat"). reflexivity.
Defined.

(** X8: the url of an extracted record is non-empty exactly when the chain
    found a non-empty URL candidate, and a non-empty url always begins with
    the letters http; the same holds in the debug extractor. *)
Theorem extracted_url_http (env : Env) (row : Row) (term : string) (n : nat) :
  (forall a, extract_auction_from_row env row term = Some a ->
     Py.truthy (url a)
       = Py.truthy (snd (title_and_url row (description_cell row))) /\
     (Py.truthy (url a) = true ->
        Py.startswith (text_of (url a)) "http" = true)) /\
  (forall d, extract_auction_from_row_comprehensive env row term n = Some d ->
     Py.truthy (url (fst d))
       = Py.truthy (snd (title_and_url_debug row (description_cell row))) /\
     (Py.truthy (url (fst d)) = true ->
        Py.startswith (text_of (url (fst d))) "http" = true)).
Proof.
  split.
  - intros a (c0 & c2 & c3 & c4 & c5 & c6 & rest & img & _ & _ & ->)%extract_record.
    cbn [url]. split; [apply truthy_clean_url | apply clean_url_http_prefix].
  - intros d (c0 & c2 & c3 & c4 & c5 & c6 & rest & img & _ & _ & ->)%extract_comprehensive_record.
    cbn [url fst]. split; [apply truthy_clean_url | apply clean_url_http_prefix].
Qed.

Lemma extracted_url_http_witness :
  exists a,
    extract_auction_from_row sample_env relative_http_row "Cat" = Some a /\
    Py.startswith (text_of (url a)) "http" = true.
Proof.
  eexists. split; [reflexivity|].
  eapply (proj1 (extracted_url_http sample_env relative_http_row "Cat" 1));
    reflexivity.
Defined.

(** X9: the debug extractor returns the record of the production extractor
    (without the image path, with the row number) for every row in which
    strategy 2, when it applies, yields a URL candidate. *)
Theorem extractors_agree (env : Env) (row : Row) (term : string) (n : nat)
    (a : Auction) (d : Auction * nat) :
  (find_element_by_tag (cell_elements (description_cell row)) "a" = None ->
   forall elem rest,
     find_clickable (cell_elements (description_cell row)) = elem :: rest ->
     Py.truthy (clickable_url elem) = true) ->
  extract_auction_from_row env row term = Some a ->
  extract_auction_from_row_comprehensive env row term n = Some d ->
  d = (mkAuction (title a) (url a) (current_bid a) (end_time a) (location a)
                 (condition a) (image_url a) None (search_term a), n).
Proof.
  intros Hcand
    (c0 & c2 & c3 & c4 & c5 & c6 & rest & img & E & Ei & ->)%extract_record
    (c0' & c2' & c3' & c4' & c5' & c6' & rest' & img' & E' & Ei' & ->)%extract_comprehensive_record.
  rewrite E in E'. injection E' as <- <- <- <- <- <- <-.
  rewrite Ei in Ei'. injection Ei' as <-.
  cbn [title url current_bid end_time location condition image_url search_term].
  assert (Heq : title_and_url_debug row (description_cell row)
                = title_and_url row (description_cell row)).
  { unfold title_and_url_debug, title_and_url.
    destruct (find_element_by_tag _ "a") as [link|]; [done|].
    specialize (Hcand eq_refl).
    destruct (find_clickable _) as [|elem rest0]; [done|].
    by rewrite (Hcand elem rest0 eq_refl). }
  by rewrite Heq.
Qed.

Lemma extractors_agree_witness :
  extract_auction_from_row_comprehensive sample_env direct_link_row "Cat" 4
  = Some (mkAuction "Cat Tower" (Some "https://www.bidft.auction/item/55")
            "$12.00" "Sunday 5PM" "Cincinnati - School Road" "Brand New"
            (Some EmptyString) None "Cat", 4).
Proof.
  destruct (extract_auction_from_row_comprehensive sample_env direct_link_row "Cat" 4)
    as [d|] eqn:E; [|discriminate E].
  f_equal.
  apply (extractors_agree sample_env direct_link_row "Cat" 4
           (mkAuction "Cat Tower" (Some "https://www.bidft.auction/item/55")
              "$12.00" "Sunday 5PM" "Cincinnati - School Road" "Brand New"
              (Some EmptyString) None "Cat") d).
  - discriminate.
  - reflexivity.
  - exact E.
Defined.

(** ** One search *)

Section OneSearch.

Lemma extract_valid_elem cfg env term rows a :
  a ∈ extract_valid cfg env term rows ->
  exists row, row ∈ rows /\
              extract_auction_from_row env row term = Some a /\
              meets_criteria cfg a = true.
Proof.
  induction rows as [|row rows IH]; cbn [extract_valid];
    [by intros ?%elem_of_nil|].
  destruct (extract_auction_from_row env row term) as [b|] eqn:E.
  - destruct (meets_criteria cfg b) eqn:Hm.
    + intros [->|Ha]%elem_of_cons.
      * exists row. split; [left | done].
      * destruct (IH Ha) as (r & Hr & H). exists r. split; [by right | done].
    + intros Ha. destruct (IH Ha) as (r & Hr & H).
      exists r. split; [by right | done].
  - intros Ha. destruct (IH Ha) as (r & Hr & H).
    exists r. split; [by right | done].
Qed.

Lemma extract_valid_length cfg env term rows :
  length (extract_valid cfg env term rows) <= length rows.
Proof.
  induction rows as [|row rows IH]; cbn [extract_valid length]; [lia|].
  destruct (extract_auction_from_row env row term) as [b|]; [|lia].
  destruct (meets_criteria cfg b); cbn [length]; lia.
Qed.

Lemma select_rows_none (page : Page) (selectors : list string) :
  (forall s, s ∈ selectors -> forall r, page s = Some r -> length r <= 1) ->
  select_rows page selectors = [].
Proof.
  induction selectors as [|s rest IH]; [done|]. intros H. cbn [select_rows].
  assert (Hrest : select_rows page rest = []).
  { apply IH. intros s' Hs'. apply H. by right. }
  destruct (page s) as [r|] eqn:E; [|done].
  destruct (Nat.ltb_spec 1 (length r)) as [Hlt|_]; [|done].
  assert (length r <= 1) by (apply (H s); [left | done]). lia.
Qed.

Lemma select_rows_first (page : Page) (pre post : list string) (sel : string)
    (rows : list Row) :
  (forall s, s ∈ pre -> forall r, page s = Some r -> length r <= 1) ->
  page sel = Some rows -> 1 < length rows ->
  select_rows page (pre ++ sel :: post) = drop 1 rows.
Proof.
  intros Hpre Hsel Hlen. induction pre as [|s pre IH]; cbn [app select_rows].
  - rewrite Hsel. by destruct (Nat.ltb_spec 1 (length rows)); [|lia].
  - assert (Hrest : select_rows page (pre ++ sel :: post) = drop 1 rows).
    { apply IH. intros s' Hs'. apply Hpre. by right. }
    destruct (page s) as [r|] eqn:E; [|done].
    destruct (Nat.ltb_spec 1 (length r)) as [Hlt|_]; [|done].
    assert (length r <= 1) by (apply (Hpre s); [left | done]). lia.
Qed.

Lemma search_auctions_elem cfg env now load term a :
  a ∈ search_auctions cfg env now load term ->
  meets_criteria cfg a = true /\ search_term a = term /\ has_key a = true.
Proof.
  unfold search_auctions.
  destruct (build_search_url cfg now term) as [url|]; [|by intros ?%elem_of_nil].
  destruct (load url) as [page|]; [|by intros ?%elem_of_nil].
  intros (row & _ & Hex & Hm)%extract_valid_elem.
  split; [done|]. split.
  - by apply extract_record in Hex as (c0 & c2 & c3 & c4 & c5 & c6 & rest & img & _ & _ & ->).
  - by eapply extracted_record_has_key.
Qed.

End OneSearch.

(** X10: every record [search_auctions] returns was extracted from a row
    after the header of the selected rows, passes the criteria filter,
    carries the search term and has a usable deduplication key. *)
Theorem search_auctions_sound (cfg : Config) (env : Env) (now : datetime)
    (load : string -> option Page) (term : string) (a : Auction) :
  a ∈ search_auctions cfg env now load term ->
  meets_criteria cfg a = true /\ search_term a = term /\ has_key a = true /\
  exists url page row,
    build_search_url cfg now term = Some url /\ load url = Some page /\
    row ∈ select_rows page table_selectors /\
    extract_auction_from_row env row term = Some a.
Proof.
  intros Ha. destruct (search_auctions_elem _ _ _ _ _ _ Ha) as (Hm & Ht & Hk).
  repeat split; try done.
  unfold search_auctions in Ha.
  destruct (build_search_url cfg now term) as [url|]; [|by apply elem_of_nil in Ha].
  destruct (load url) as [page|] eqn:El; [|by apply elem_of_nil in Ha].
  apply extract_valid_elem in Ha as (row & Hr & Hex & _).
  by exists url, page, row.
Qed.

Lemma search_auctions_sound_witness :
  meets_criteria sample_config
    (mkAuction "Cat Tower" (Some "https://www.bidft.auction/item/55")
       "$12.00" "Sunday 5PM" "Cincinnati - School Road" "Brand New"
       (Some EmptyString) None "Cat") = true.
Proof.
  eapply (search_auctions_sound sample_config sample_env tuesday_noon
            (fun _ => Some sample_page) "Cat").
  vm_compute. left.
Defined.

(** X11: the selector cascade.  When no selector of the cascade matches more
    than one row, the search returns nothing, also when the single row is a
    listing; otherwise the rows of the first selector that matches more than
    one row are used, the first of them is skipped as header, and the search
    returns at most one record for each other row. *)
Theorem search_auctions_cascade (cfg : Config) (env : Env) (now : datetime)
    (load : string -> option Page) (term url : string) (page : Page) :
  build_search_url cfg now term = Some url -> load url = Some page ->
  ((forall s, s ∈ table_selectors -> forall r, page s = Some r -> length r <= 1) ->
   search_auctions cfg env now load term = []) /\
  (forall pre sel post rows,
     table_selectors = pre ++ sel :: post ->
     (forall s, s ∈ pre -> forall r, page s = Some r -> length r <= 1) ->
     page sel = Some rows -> 1 < length rows ->
     search_auctions cfg env now load term
       = extract_valid cfg env term (drop 1 rows) /\
     length (search_auctions cfg env now load term) <= length rows - 1).
Proof.
  intros Hb Hl. unfold search_auctions. rewrite Hb, Hl. split.
  - intros H. by rewrite select_rows_none.
  - intros pre sel post rows Hsels Hpre Hsel Hlen.
    rewrite Hsels, (select_rows_first page pre post sel rows) by done.
    split; [done|].
    etransitivity; [apply extract_valid_length|].
    rewrite length_drop. lia.
Qed.

Lemma search_auctions_cascade_witness :
  length (search_auctions sample_config sample_env tuesday_noon
            (fun _ => Some sample_page) "Cat") <= 4 - 1.
Proof.
  destruct (build_search_url sample_config tuesday_noon "Cat") as [url|] eqn:E;
    [|discriminate E].
  apply (proj2 (search_auctions_cascade sample_config sample_env tuesday_noon
                  (fun _ => Some sample_page) "Cat" url sample_page E eq_refl)
           [] "table tbody tr" (drop 1 table_selectors)
           [header_row; direct_link_row; text_only_row; href_only_row]).
  - reflexivity.
  - intros s Hs. by apply elem_of_nil in Hs.
  - reflexivity.
  - simpl. lia.
Defined.

(** ** The whole run *)

Section WholeRun.

Lemma search_all_elem cfg env session i terms a :
  a ∈ search_all cfg env session i terms ->
  exists j term,
    terms !! j = Some term /\
    a ∈ search_auctions cfg env (clock session (i + j)) (load_page session (i + j)) term.
Proof.
  revert i. induction terms as [|term rest IH]; intros i; cbn [search_all];
    [by intros ?%elem_of_nil|].
  intros [Ha|Ha]%elem_of_app.
  - exists 0, term. rewrite Nat.add_0_r. done.
  - destruct (IH _ Ha) as (j & t & Hj & Hin).
    exists (S j), t. split; [done|]. by rewrite Nat.add_succ_r.
Qed.

Lemma search_all_split cfg env session i pre term post :
  search_all cfg env session i (pre ++ term :: post) =
  search_all cfg env session i pre ++
  search_auctions cfg env (clock session (i + length pre))
                  (load_page session (i + length pre)) term ++
  search_all cfg env session (S (i + length pre)) post.
Proof.
  revert i. induction pre as [|t pre IH]; intros i; cbn [app search_all length].
  - by rewrite Nat.add_0_r.
  - rewrite IH, <- app_assoc. by rewrite Nat.add_succ_r.
Qed.

Lemma remove_duplicates_app_prefix (l1 l2 : list Auction) :
  exists rest, remove_duplicates (l1 ++ l2) = remove_duplicates l1 ++ rest.
Proof.
  induction l2 as [|a l2 [rest IH]] using rev_ind.
  - exists []. by rewrite !app_nil_r.
  - rewrite app_assoc, remove_duplicates_snoc, IH, <- app_assoc. by eexists.
Qed.

Lemma unique_by_key {A B : Type} (f : A -> B) (l : list A) (a b : A) :
  NoDup (f <$> l) -> a ∈ l -> b ∈ l -> f a = f b -> a = b.
Proof.
  induction l as [|x l IH]; [by intros _ ?%elem_of_nil|].
  cbn [fmap list_fmap]. intros [Hx Hn]%NoDup_cons.
  intros [->|Ha]%elem_of_cons [->|Hb]%elem_of_cons Hf; [done| | |by apply IH].
  - exfalso. apply Hx. rewrite Hf. apply list_elem_of_fmap. by exists b.
  - exfalso. apply Hx. rewrite <- Hf. apply list_elem_of_fmap. by exists a.
Qed.

Lemma merged_records cfg env session a :
  a ∈ search_all cfg env session 0 (SEARCH_TERMS cfg) ->
  meets_criteria cfg a = true /\ search_term a ∈ SEARCH_TERMS cfg /\
  has_key a = true.
Proof.
  intros (j & term & Hj & Ha)%search_all_elem.
  apply search_auctions_elem in Ha as (Hm & <- & Hk).
  repeat split; try done. by eapply list_elem_of_lookup_2.
Qed.

(** The loop fails exactly when there is a search to pause after and the
    pause raises; otherwise it merges the searches. *)
Lemma search_loop_value cfg env session i terms :
  search_loop cfg env session i terms =
  if bool_decide (terms = [])
     || bool_decide (is_Some (time_sleep session (delay_between_searches cfg)))
  then Some (search_all cfg env session i terms) else None.
Proof.
  revert i. induction terms as [|t terms IH]; intros i; [done|].
  cbn [search_loop search_all].
  rewrite (bool_decide_eq_false_2 (t :: terms = [])) by done. cbn [orb].
  destruct (time_sleep session (delay_between_searches cfg)) as [[]|] eqn:E.
  - cbn [mbind option_bind]. rewrite IH.
    rewrite (bool_decide_eq_true_2 (is_Some (Some tt))) by done.
    by rewrite orb_true_r.
  - rewrite bool_decide_eq_false_2 by (by intros [? ?]). done.
Qed.

Lemma time_sleep_fails session secs :
  time_sleep session secs = None <-> (secs < 0)%Z \/ sleeps session secs = false.
Proof.
  unfold time_sleep. destruct (Z.ltb_spec secs 0) as [Hneg|Hpos].
  - split; [by left | done].
  - destruct (sleeps session secs); split; try done.
    + intros [?|?]; [lia | done].
    + by right.
Qed.

Lemma scrape_all_searches_value cfg env session out :
  scrape_all_searches cfg env session = Some out ->
  out = remove_duplicates (search_all cfg env session 0 (SEARCH_TERMS cfg)).
Proof.
  unfold scrape_all_searches. rewrite search_loop_value.
  destruct (driver_starts session); [|done].
  destruct (driver_quits session); [|done].
  destruct (_ || _); [|done]. by intros [= <-].
Qed.

End WholeRun.

(** X12: [scrape_all_searches] raises exactly when [setup_driver] raises,
    when [close_driver] raises, or when there is at least one search term
    and the pause raises, which it does for a negative delay and for one
    that the system does not accept.  Whenever it returns, its result is
    the merged per-term results deduplicated as specified: no two records
    share a key, every record passed the criteria filter and carries one of
    the configured search terms. *)
Theorem scrape_all_searches_sound (cfg : Config) (env : Env) (session : Session) :
  (scrape_all_searches cfg env session = None <->
     driver_starts session = false \/ driver_quits session = false \/
     (SEARCH_TERMS cfg <> [] /\
      ((delay_between_searches cfg < 0)%Z \/
       sleeps session (delay_between_searches cfg) = false))) /\
  (forall out, scrape_all_searches cfg env session = Some out ->
     out = dedupe_as_specified (search_all cfg env session 0 (SEARCH_TERMS cfg)) /\
     NoDup (dedup_key <$> out) /\
     (forall a, a ∈ out ->
        meets_criteria cfg a = true /\ search_term a ∈ SEARCH_TERMS cfg)).
Proof.
  split.
  - unfold scrape_all_searches. rewrite search_loop_value.
    destruct (driver_starts session); [|split; [by left | done]].
    destruct (driver_quits session); [|split; [by right; left | done]].
    rewrite <- time_sleep_fails.
    case_bool_decide as Ht; cbn [orb mbind option_bind].
    + split; [done|]. intros [?|[?|[? _]]]; done.
    + case_bool_decide as Hs; cbn [mbind option_bind].
      * split; [done|]. intros [?|[?|[_ Hn]]]; try done.
        rewrite Hn in Hs. by destruct Hs.
      * split; [|done]. intros _. right. right. split; [done|].
        destruct (time_sleep session _) eqn:E; [|done].
        exfalso. apply Hs. by eexists.
  - intros out ->%scrape_all_searches_value.
    split; [|split].
    + apply remove_duplicates_on_keyed, Forall_forall.
      intros a Ha. by apply merged_records in Ha as (_ & _ & Hk).
    + apply remove_duplicates_facts.
    + intros a Ha%remove_duplicates_subseteq.
      by apply merged_records in Ha as (Hm & Ht & _).
Qed.

Lemma scrape_all_searches_sound_witness :
  exists out,
    scrape_all_searches sample_config sample_env sample_session = Some out /\
    NoDup (dedup_key <$> out) /\ length out = 2.
Proof.
  eexists. split; [reflexivity|]. split; [|reflexivity].
  eapply (proj2 (scrape_all_searches_sound sample_config sample_env sample_session)).
  reflexivity.
Defined.

(** X13: when several searches surface records with the same key, the
    record kept is one of the first search that surfaced that key, and it
    carries that search's term. *)
Theorem first_search_keeps_record (cfg : Config) (env : Env) (session : Session)
    (out : list Auction) (a b : Auction) (i : nat) (term : string) :
  scrape_all_searches cfg env session = Some out ->
  a ∈ out ->
  SEARCH_TERMS cfg !! i = Some term ->
  b ∈ search_auctions cfg env (clock session i) (load_page session i) term ->
  dedup_key b = dedup_key a ->
  (forall j term' b', j < i -> SEARCH_TERMS cfg !! j = Some term' ->
     b' ∈ search_auctions cfg env (clock session j) (load_page session j) term' ->
     dedup_key b' <> dedup_key a) ->
  search_term a = term /\
  a ∈ search_auctions cfg env (clock session i) (load_page session i) term.
Proof.
  intros ->%scrape_all_searches_value Ha Hi Hb Hkey Hfirst.
  apply take_drop_middle in Hi as Hsplit.
  set (pre := take i (SEARCH_TERMS cfg)) in *.
  set (post := drop (S i) (SEARCH_TERMS cfg)) in *.
  assert (Hlen : length pre = i).
  { subst pre. apply length_take_le. apply lookup_lt_Some in Hi. lia. }
  rewrite <- Hsplit in Ha. rewrite search_all_split, Hlen in Ha.
  cbn [Nat.add] in Ha.
  set (L1 := search_all cfg env session 0 pre) in *.
  set (L2 := search_auctions cfg env (clock session i) (load_page session i) term) in *.
  set (L3 := search_all cfg env session (S i) post) in *.
  assert (Hnot1 : forall x, x ∈ L1 -> dedup_key x <> dedup_key a).
  { intros x (j & t & Hj & Hx)%search_all_elem. cbn [Nat.add] in Hx.
    apply (Hfirst j t x); [|by apply lookup_take_Some in Hj as [? _]|done].
    apply lookup_lt_Some in Hj. lia. }
  assert (Hkb : has_key b = true) by (by apply search_auctions_elem in Hb as (_ & _ & ?)).
  destruct (remove_duplicates_facts (L1 ++ L2)) as (_ & _ & Hc).
  assert (Hb12 : b ∈ L1 ++ L2) by (apply elem_of_app; by right).
  specialize (Hc b Hb12 Hkb).
  apply list_elem_of_fmap in Hc as (b' & Hkb' & Hb').
  assert (Hb'2 : b' ∈ L2).
  { apply remove_duplicates_subseteq, elem_of_app in Hb' as Hb''.
    destruct Hb'' as [H1|H2]; [|done].
    exfalso. apply (Hnot1 b' H1). congruence. }
  destruct (remove_duplicates_app_prefix (L1 ++ L2) L3) as [rest Hrest].
  rewrite app_assoc, Hrest in Ha.
  assert (Hb'out : b' ∈ remove_duplicates (L1 ++ L2) ++ rest)
    by (apply elem_of_app; by left).
  assert (a = b') as ->.
  { eapply (unique_by_key dedup_key); [|exact Ha|exact Hb'out|congruence].
    rewrite <- Hrest. apply remove_duplicates_facts. }
  split; [|done]. by apply search_auctions_elem in Hb'2 as (_ & ? & _).
Qed.

Lemma first_search_keeps_record_witness :
  search_term
    (mkAuction "Cat Tower" (Some "https://www.bidft.auction/item/55")
       "$12.00" "Sunday 5PM" "Cincinnati - School Road" "Brand New"
       (Some EmptyString) None "Cat") = "Cat".
Proof.
  eapply (first_search_keeps_record sample_config sample_env sample_session
            _ _
            (mkAuction "Cat Tower" (Some "https://www.bidft.auction/item/55")
               "$12.00" "Sunday 5PM" "Cincinnati - School Road" "Brand New"
               (Some EmptyString) None "Cat") 0 "Cat").
  - reflexivity.
  - vm_compute. left.
  - reflexivity.
  - vm_compute. left.
  - reflexivity.
  - intros j term' b' Hj. lia.
Defined.

(** ** The debug search *)

Section DebugSearch.




Lemma slice_to_all {A : Type} (l : list A) : slice_to l (Z.of_nat (length l)) = l.
Proof.
  unfold slice_to. destruct (Z.leb_spec 0 (Z.of_nat (length l))); [|lia].
  rewrite Nat2Z.id. apply firstn_all.
Qed.



End DebugSearch.




(** ** The grouped dict in order *)

Section GroupedItems.

Lemma dict_get_append items key a k :
  dict_get (dict_append items key a) k =
  if String.eqb key k then Some (default [] (dict_get items key) ++ [a])
  else dict_get items k.
Proof.
  induction items as [|[k0 g] rest IH]; cbn [dict_append dict_get].
  - by destruct (String.eqb_spec key k).
  - destruct (String.eqb_spec k0 key) as [->|Hne]; cbn [dict_get].
    + destruct (String.eqb_spec key k); [done|]. done.
    + destruct (String.eqb_spec k0 k) as [->|Hne'].
      * destruct (String.eqb_spec key k) as [->|]; [done|]. done.
      * exact IH.
Qed.

Lemma dict_keys_append items key a :
  map fst (dict_append items key a) =
  map fst items ++ (if bool_decide (key ∈ map fst items) then [] else [key]).
Proof.
  induction items as [|[k0 g] rest IH]; cbn [dict_append map fst].
  - rewrite bool_decide_false; [done | by intros ?%elem_of_nil].
  - destruct (String.eqb_spec k0 key) as [->|Hne]; cbn [map fst].
    + rewrite bool_decide_true by (by left). by rewrite app_nil_r.
    + rewrite IH. cbn [app]. f_equal.
      rewrite (bool_decide_ext (key ∈ map fst rest) (key ∈ k0 :: map fst rest));
        [done|].
      rewrite elem_of_cons. split; [by right|]. by intros [->|?].
Qed.

Lemma dict_sizes_append items key a :
  list_sum (map (fun kv => length (snd kv)) (dict_append items key a))
  = S (list_sum (map (fun kv => length (snd kv)) items)).
Proof.
  induction items as [|[k0 g] rest IH]; [done|]. cbn [dict_append].
  destruct (String.eqb_spec k0 key) as [->|Hne]; cbn [map list_sum snd foldr].
  - rewrite length_app. cbn [length]. unfold list_sum. cbn [foldr]. lia.
  - unfold list_sum in *. cbn [foldr]. rewrite IH. lia.
Qed.

Lemma dict_get_sorted items k :
  dict_get (map (fun kv => (fst kv, sort_auctions_by_end_time (snd kv))) items) k
  = sort_auctions_by_end_time <$> dict_get items k.
Proof.
  induction items as [|[k0 g] rest IH]; [done|]. cbn [map dict_get fst snd].
  by destruct (String.eqb k0 k).
Qed.

Lemma dict_loop_get (l : list Auction) (k : string) :
  dict_get (foldl (fun items a => dict_append items (search_term a) a) [] l) k
  = match with_term k l with [] => None | g => Some g end.
Proof.
  induction l as [|a l IH] using rev_ind; [done|].
  rewrite foldl_app, with_term_snoc. cbn [foldl].
  rewrite dict_get_append.
  destruct (String.eqb_spec (search_term a) k) as [->|Hne].
  - rewrite IH. by destruct (with_term k l).
  - by rewrite app_nil_r.
Qed.

Lemma grouped_keys_snoc (l : list Auction) (a : Auction) :
  grouped_keys (l ++ [a]) =
  grouped_keys l ++
    (if bool_decide (search_term a ∈ grouped_keys l) then [] else [search_term a]).
Proof.
  unfold grouped_keys, grouped_items.
  rewrite !map_map. cbn [fst]. rewrite foldl_app. cbn [foldl].
  apply dict_keys_append.
Qed.

Lemma sorted_by_key_length {A : Type} (key : A -> nat) (l : list A) :
  length (sorted_by_key key l) = length l.
Proof. apply Permutation_length, sorted_by_key_perm. Qed.

End GroupedItems.

(** X15: the dict that [group_auctions_by_search_term] returns keeps its
    keys in the order in which the search terms first appear among the
    records, each key once; its groups are those of the grouping, and
    together they hold every record exactly once: their sizes add up to the
    number of records. *)
Theorem grouped_items_order (l : list Auction) :
  grouped_keys [] = [] /\
  (forall a, grouped_keys (l ++ [a]) =
     grouped_keys l ++
       (if bool_decide (search_term a ∈ grouped_keys l) then []
        else [search_term a])) /\
  NoDup (grouped_keys l) /\
  (forall k, dict_get (grouped_items l) k = group_auctions_by_search_term l !! k) /\
  list_sum (map (fun kv => length (snd kv)) (grouped_items l)) = length l.
Proof.
  split; [done|]. split; [apply grouped_keys_snoc|]. split; [|split].
  - induction l as [|a l IH] using rev_ind; [constructor|].
    rewrite grouped_keys_snoc. case_bool_decide as Hin; [by rewrite app_nil_r|].
    apply NoDup_app. repeat split; [done| |apply NoDup_singleton].
    intros k Hk ->%list_elem_of_singleton. done.
  - intros k. unfold grouped_items.
    rewrite dict_get_sorted, dict_loop_get, group_lookup.
    by destruct (with_term k l).
  - unfold grouped_items. rewrite map_map. cbn [snd].
    induction l as [|a l IH] using rev_ind; [done|].
    rewrite foldl_app, length_app. cbn [foldl length].
    erewrite map_ext; [|intros; apply sorted_by_key_length].
    rewrite dict_sizes_append.
    erewrite map_ext in IH; [|intros; apply sorted_by_key_length].
    rewrite IH. lia.
Qed.

(** ** What the digest shows *)

Section DigestBlocks.

Lemma substring_prefix_length (n : nat) (s : string) :
  String.length (substring 0 n s) = Nat.min n (String.length s).
Proof.
  revert s. induction n as [|n IH]; intros [|c s]; cbn; try done.
  by rewrite IH.
Qed.

Lemma substring_prefix_rest (n : nat) (s : string) :
  exists rest, s = substring 0 n s +:+ rest.
Proof.
  revert s. induction n as [|n IH]; intros [|c s]; cbn.
  - by exists EmptyString.
  - by exists (String c s).
  - by exists EmptyString.
  - destruct (IH s) as [rest Hrest]. exists rest.
    change (String c (substring 0 n s) +:+ rest)
      with (String c (substring 0 n s +:+ rest)).
    by rewrite <- Hrest.
Qed.

End DigestBlocks.

(** X16: the title shown in the digest has at most 60 characters: a title of
    at most 60 characters is shown as it is, a longer one as its first 57
    characters followed by three dots. *)
Theorem display_title_spec (t : string) :
  String.length (display_title t) <= 60 /\
  (String.length t <= 60 -> display_title t = t) /\
  (60 < String.length t ->
     String.length (display_title t) = 60 /\
     exists head rest,
       String.length head = 57 /\ t = head +:+ rest /\
       display_title t = head +:+ "...").
Proof.
  unfold display_title.
  destruct (Nat.ltb_spec 60 (String.length t)) as [Hlong|Hshort].
  - assert (Hlen : String.length (substring 0 57 t) = 57).
    { rewrite substring_prefix_length. lia. }
    split; [rewrite string_length_app, Hlen; cbn; lia|].
    split; [lia|]. intros _.
    split; [rewrite string_length_app, Hlen; by cbn|].
    destruct (substring_prefix_rest 57 t) as [rest Hrest].
    by exists (substring 0 57 t), rest.
  - split; [lia|]. split; [done|]. lia.
Qed.

Lemma display_title_spec_witness :
  display_title
    "Brand New Cat Litter Box with Automatic Cleaning System and Odor Control"
  = "Brand New Cat Litter Box with Automatic Cleaning System a...".
Proof.
  destruct (proj2 (proj2 (display_title_spec
    "Brand New Cat Litter Box with Automatic Cleaning System and Odor Control")))
    as (_ & head & rest & _ & _ & H); [cbn; lia|].
  reflexivity.
Defined.



(** X18: a record has an image path only when an image URL was found that is
    not empty and not a data URI, and the path is the one the download of
    that URL returned. *)
Theorem image_path_source (env : Env) (row : Row) (term : string) (a : Auction)
    (path : string) :
  extract_auction_from_row env row term = Some a ->
  image_path a = Some path ->
  Py.truthy (image_url a) = true /\
  Py.startswith (text_of (image_url a)) "data:" = false /\
  fetch_image env (text_of (image_url a)) = Some path.
Proof.
  intros (c0 & c2 & c3 & c4 & c5 & c6 & rest & img & _ & _ & ->)%extract_record.
  cbn [image_path image_url]. unfold download_image.
  destruct (Py.truthy img) eqn:Ht; [|done].
  cbn [negb orb].
  destruct (Py.startswith (text_of img) "data:"); [done|].
  done.
Qed.

Lemma image_path_source_witness :
  exists a,
    extract_auction_from_row saving_env photo_row "Cat" = Some a /\
    image_url a = Some "https://www.bidft.auction/img/55.jpg" /\
    fetch_image saving_env (text_of (image_url a))
      = Some "scraper_output/images/55.jpg".
Proof.
  eexists. split; [reflexivity|]. split; [reflexivity|].
  eapply (image_path_source saving_env photo_row "Cat"); reflexivity.
Defined.

(** ** The URL pattern *)

Section UrlPattern.

Lemma drop_prefix_app s p rest :
  drop_prefix s p = Some rest <-> s = p +:+ rest.
Proof.
  revert s. induction p as [|a p IH]; intros s; cbn [drop_prefix].
  - split; [by intros [= ->] | by intros ->].
  - destruct s as [|b s]; [split; [done | intros H; discriminate H]|].
    destruct (Ascii.eqb_spec a b) as [->|Hne].
    + rewrite IH. split; [by intros -> | by intros [= ->]].
    + split; [done|]. intros [= ? _]. done.
Qed.

(** The run of URL characters at the head of a text, and what follows it. *)
Lemma take_url_chars_run s :
  string_forall url_char (take_url_chars s) = true /\
  exists post, s = take_url_chars s +:+ post /\
    (post = EmptyString \/
     exists c post', post = String c post' /\ url_char c = false).
Proof.
  induction s as [|c s (IHf & post & IHs & IHp)]; cbn [take_url_chars].
  - split; [done|]. exists EmptyString. split; [done | by left].
  - destruct (url_char c) eqn:Hc.
    + split; [cbn [string_forall]; by rewrite Hc|].
      exists post. split; [|done].
      change (String c (take_url_chars s) +:+ post)
        with (String c (take_url_chars s +:+ post)). by rewrite <- IHs.
    + split; [done|]. exists (String c s). split; [done|]. right. by eexists _, _.
Qed.

Lemma match_url_at_sound s m :
  match_url_at s = Some m ->
  exists scheme run post,
    (scheme = "http://" \/ scheme = "https://") /\
    m = scheme +:+ run /\ s = m +:+ post /\
    run <> EmptyString /\ string_forall url_char run = true /\
    (post = EmptyString \/
     exists c post', post = String c post' /\ url_char c = false).
Proof.
  assert (Hone : forall scheme,
    (rest ← drop_prefix s scheme;
     if Py.nonempty (take_url_chars rest)
     then Some (scheme +:+ take_url_chars rest) else None) = Some m ->
    exists run post,
      m = scheme +:+ run /\ s = m +:+ post /\
      run <> EmptyString /\ string_forall url_char run = true /\
      (post = EmptyString \/
       exists c post', post = String c post' /\ url_char c = false)).
  { intros scheme. destruct (drop_prefix s scheme) as [rest|] eqn:E; [|done].
    cbn [mbind option_bind].
    destruct (Py.nonempty (take_url_chars rest)) eqn:Hn; [|done].
    intros [= <-]. apply drop_prefix_app in E as ->.
    destruct (take_url_chars_run rest) as (Hf & post & Hs & Hp).
    exists (take_url_chars rest), post. repeat split; try done.
    - rewrite string_app_assoc. by rewrite <- Hs.
    - by apply nonempty_true. }
  unfold match_url_at.
  destruct (rest ← drop_prefix s "https://"; _) as [m1|] eqn:E1.
  - intros [= <-]. destruct (Hone _ E1) as (run & post & H).
    exists "https://", run, post. split; [by right | done].
  - intros E2. destruct (Hone _ E2) as (run & post & H).
    exists "http://", run, post. split; [by left | done].
Qed.

Lemma match_url_at_complete s scheme c rest :
  scheme = "http://" \/ scheme = "https://" ->
  url_char c = true ->
  s = scheme +:+ String c rest ->
  is_Some (match_url_at s).
Proof.
  intros Hscheme Hc ->. unfold match_url_at.
  assert (Hd : forall p, drop_prefix (p +:+ String c rest) p = Some (String c rest))
    by (intros; by apply drop_prefix_app).
  destruct Hscheme as [-> | ->].
  - assert (drop_prefix ("http://" +:+ String c rest) "https://" = None) as ->
      by reflexivity.
    cbn [mbind option_bind]. rewrite Hd.
    cbn [mbind option_bind take_url_chars]. rewrite Hc. cbn [Py.nonempty].
    by eexists.
  - rewrite Hd. cbn [mbind option_bind take_url_chars]. rewrite Hc.
    cbn [Py.nonempty]. by eexists.
Qed.

End UrlPattern.

(** X19: what the pattern search of the URL clean-up finds.  A match is a
    part of the text: one of the two schemes followed by a non-empty run of
    characters that are neither white space nor quotes, and the run ends
    only at the end of the text or before such a character.  The search
    finds nothing only if no scheme in the text is followed by a character
    of that kind. *)
Theorem re_search_url_spec (s : string) :
  (forall m, re_search_url s = Some m ->
     exists pre scheme run post,
       s = pre +:+ m +:+ post /\
       (scheme = "http://" \/ scheme = "https://") /\
       m = scheme +:+ run /\ run <> EmptyString /\
       string_forall url_char run = true /\
       (post = EmptyString \/
        exists c post', post = String c post' /\ url_char c = false)) /\
  (re_search_url s = None ->
     forall pre scheme c rest,
       scheme = "http://" \/ scheme = "https://" ->
       url_char c = true ->
       s <> pre +:+ scheme +:+ String c rest).
Proof.
  split.
  - intros m. induction s as [|c s IH]; cbn [re_search_url].
    + destruct (match_url_at EmptyString) as [m0|] eqn:E; [|done].
      intros [= <-].
      destruct (match_url_at_sound _ _ E) as (scheme & run & post & H1 & H2 & H3 & H4).
      by exists EmptyString, scheme, run, post.
    + destruct (match_url_at (String c s)) as [m0|] eqn:E.
      * intros [= <-].
        destruct (match_url_at_sound _ _ E) as (scheme & run & post & H1 & H2 & H3 & H4).
        by exists EmptyString, scheme, run, post.
      * intros Hm. destruct (IH Hm) as (pre & scheme & run & post & H1 & H).
        exists (String c pre), scheme, run, post. split; [|done].
        change (String c pre +:+ m +:+ post) with (String c (pre +:+ m +:+ post)).
        by rewrite <- H1.
  - induction s as [|c0 s IH]; cbn [re_search_url].
    + destruct (match_url_at EmptyString) as [m0|] eqn:E; [done|].
      intros _ pre scheme c rest Hscheme Hc Hs.
      destruct pre; [|discriminate Hs].
      destruct Hscheme as [-> | ->]; discriminate Hs.
    + destruct (match_url_at (String c0 s)) as [m0|] eqn:E; [done|].
      intros Hnone pre scheme c rest Hscheme Hc Hs.
      destruct pre as [|p pre].
      * destruct (match_url_at_complete (String c0 s) scheme c rest Hscheme Hc Hs)
          as [m1 Hm1]. congruence.
      * change (String p pre +:+ scheme +:+ String c rest)
          with (String p (pre +:+ scheme +:+ String c rest)) in Hs.
        injection Hs as _ Hs. by apply (IH Hnone pre scheme c rest).
Qed.

Lemma re_search_url_spec_witness :
  exists pre scheme run post,
    "javascript:open('https://www.bidft.auction/item/5')"
      = pre +:+ "https://www.bidft.auction/item/5" +:+ post /\
    (scheme = "http://" \/ scheme = "https://") /\
    "https://www.bidft.auction/item/5" = scheme +:+ run /\
    run <> EmptyString /\
    string_forall url_char run = true /\
    (post = EmptyString \/
     exists c post', post = String c post' /\ url_char c = false).
Proof.
  apply (proj1 (re_search_url_spec
                  "javascript:open('https://www.bidft.auction/item/5')")).
  reflexivity.
Defined.

(** ** The request builder on arbitrary strings *)

Section WideStrings.

Lemma hex_digit_value_digit (d : N) :
  (d < 16)%N ->
  hex_digit_value (ascii_of_N (if (d <? 10)%N then 48 + d else 87 + d)) = Some d.
Proof.
  intros Hd. rewrite <- (N2Nat.id d). assert (N.to_nat d < 16) as Hk by lia.
  revert Hk. generalize (N.to_nat d) as k. intros k Hk.
  do 16 (destruct k as [|k]; [reflexivity|]). lia.
Qed.

Lemma read_hex4 (n : N) (X : string) :
  (n < 65536)%N ->
  read_unit ("\u" +:+ hex4 n +:+ X) = Some (n, X).
Proof.
  intros Hn. unfold hex4, hex_digit. rewrite !string_app_assoc.
  change (read_unit _) with
    (d3 ← hex_digit_value (ascii_of_N (if (n / 4096 mod 16 <? 10)%N
                                        then 48 + n / 4096 mod 16
                                        else 87 + n / 4096 mod 16));
     d2 ← hex_digit_value (ascii_of_N (if (n / 256 mod 16 <? 10)%N
                                        then 48 + n / 256 mod 16
                                        else 87 + n / 256 mod 16));
     d1 ← hex_digit_value (ascii_of_N (if (n / 16 mod 16 <? 10)%N
                                        then 48 + n / 16 mod 16
                                        else 87 + n / 16 mod 16));
     d0 ← hex_digit_value (ascii_of_N (if (n mod 16 <? 10)%N
                                        then 48 + n mod 16
                                        else 87 + n mod 16));
     Some ((((d3 * 16 + d2) * 16 + d1) * 16 + d0)%N, X)).
  rewrite !hex_digit_value_digit by (apply N.mod_lt; lia).
  cbn [mbind option_bind]. do 2 f_equal.
  zify. Z.to_euclidean_division_equations. lia.
Qed.

Lemma read_escape_unit (n : N) (X : string) :
  (n < 65536)%N ->
  read_unit (json_escape_unit n +:+ X) = Some (n, X).
Proof.
  intros Hn. destruct (N.lt_ge_cases n 128) as [Hlt|Hge].
  - rewrite <- (N2Nat.id n). assert (N.to_nat n < 128) as Hk by lia.
    revert Hk. generalize (N.to_nat n) as k. intros k Hk.
    do 128 (destruct k as [|k]; [reflexivity|]). lia.
  - unfold json_escape_unit.
    repeat (match goal with
            | |- context [N.eqb n ?k] => destruct (N.eqb_spec n k); [lia|]
            end).
    destruct (N.leb_spec n 126); [lia|]. rewrite andb_false_r.
    rewrite string_app_assoc. by apply read_hex4.
Qed.


Lemma string_app_nil_r (s : string) : s +:+ EmptyString = s.
Proof.
  induction s as [|c s IH]; [done|]. exact (f_equal (String c) IH).
Qed.

Lemma escape_units_app (a b : list N) :
  escape_units (a ++ b) = escape_units a +:+ escape_units b.
Proof.
  induction a as [|u a IH]; [done|]. cbn [app escape_units].
  by rewrite IH, string_app_assoc.
Qed.

Lemma high_surrogate_range (c : N) : (55296 <= high_surrogate c < 56320)%N.
Proof. unfold high_surrogate. zify. Z.to_euclidean_division_equations. lia. Qed.

Lemma low_surrogate_range (c : N) : (56320 <= low_surrogate c < 57344)%N.
Proof. unfold low_surrogate. zify. Z.to_euclidean_division_equations. lia. Qed.

Lemma json_escape_unit_high (n : N) :
  (128 <= n)%N -> json_escape_unit n = "\u" +:+ hex4 n.
Proof.
  intros Hn. unfold json_escape_unit.
  repeat (match goal with
          | |- context [N.eqb n ?k] => destruct (N.eqb_spec n k); [lia|]
          end).
  destruct (N.leb_spec n 126); [lia|]. by rewrite andb_false_r.
Qed.

(** The escaped text of a string is the escaped text of its UTF-16 code
    units. *)
Lemma json_escape_utf16 (s : ustr) : json_escape_ustr s = escape_units (utf16 s).
Proof.
  induction s as [|c s IH]; [done|].
  cbn [json_escape_ustr utf16 flat_map]. fold (utf16 s).
  rewrite escape_units_app, <- IH. f_equal.
  unfold json_escape_codepoint. destruct (N.ltb_spec c 65536).
  - cbn [escape_units]. by rewrite string_app_nil_r.
  - cbn [escape_units].
    pose proof (high_surrogate_range c). pose proof (low_surrogate_range c).
    rewrite !json_escape_unit_high by lia.
    by rewrite string_app_nil_r, !string_app_assoc.
Qed.

Lemma utf16_units (s : ustr) :
  Forall (fun c => (c < 1114112)%N) s -> Forall (fun u => (u < 65536)%N) (utf16 s).
Proof.
  induction 1 as [|c s Hc Hs IH]; [constructor|].
  cbn [utf16 flat_map]. fold (utf16 s).
  pose proof (high_surrogate_range c). pose proof (low_surrogate_range c).
  destruct (N.ltb_spec c 65536); repeat constructor; try done; lia.
Qed.

Lemma is_scalar_range (c : N) :
  is_scalar c = true -> (c < 55296 \/ 57344 <= c < 1114112)%N.
Proof.
  unfold is_scalar. intros [H%N.ltb_lt|[H1%N.leb_le H2%N.ltb_lt]%andb_true_iff]%orb_true_iff;
    lia.
Qed.

(** Strings of scalar values with the same code units are the same. *)
Lemma utf16_inj (s1 : ustr) : forall s2,
  well_formed s1 -> well_formed s2 -> utf16 s1 = utf16 s2 -> s1 = s2.
Proof.
  unfold well_formed.
  induction s1 as [|c1 s1 IH]; intros [|c2 s2] H1 H2 H.
  - done.
  - cbn [utf16 flat_map] in H. by destruct (c2 <? 65536)%N.
  - cbn [utf16 flat_map] in H. by destruct (c1 <? 65536)%N.
  - apply Forall_cons in H1 as [Hc1%is_scalar_range H1].
    apply Forall_cons in H2 as [Hc2%is_scalar_range H2].
    cbn [utf16 flat_map] in H. fold (utf16 s1) in H. fold (utf16 s2) in H.
    pose proof (high_surrogate_range c1). pose proof (high_surrogate_range c2).
    destruct (N.ltb_spec c1 65536), (N.ltb_spec c2 65536);
      cbn [app] in H.
    + injection H as -> H. f_equal. by apply IH.
    + injection H as -> H. lia.
    + injection H as <- H. lia.
    + injection H as Hhi Hlo H. f_equal; [|by apply IH].
      unfold high_surrogate, low_surrogate in Hhi, Hlo.
      zify. Z.to_euclidean_division_equations. lia.
Qed.

Lemma read_unit_quote (X : string) : read_unit (dquote +:+ X) = None.
Proof. reflexivity. Qed.

Lemma escape_units_inj (us1 : list N) : forall us2 r1 r2,
  Forall (fun u => (u < 65536)%N) us1 -> Forall (fun u => (u < 65536)%N) us2 ->
  escape_units us1 +:+ dquote +:+ r1 = escape_units us2 +:+ dquote +:+ r2 ->
  us1 = us2 /\ r1 = r2.
Proof.
  induction us1 as [|u1 us1 IH]; intros [|u2 us2] r1 r2 H1 H2 H.
  - change (dquote +:+ r1 = dquote +:+ r2) in H. by injection H.
  - apply Forall_cons in H2 as [Hu2 H2].
    cbn [escape_units] in H. rewrite string_app_assoc in H.
    apply (f_equal read_unit) in H. rewrite read_escape_unit in H by done.
    discriminate H.
  - apply Forall_cons in H1 as [Hu1 H1].
    cbn [escape_units] in H. rewrite string_app_assoc in H.
    apply (f_equal read_unit) in H. rewrite read_escape_unit in H by done.
    discriminate H.
  - apply Forall_cons in H1 as [Hu1 H1]. apply Forall_cons in H2 as [Hu2 H2].
    cbn [escape_units] in H. rewrite !string_app_assoc in H.
    apply (f_equal read_unit) in H. rewrite !read_escape_unit in H by done.
    injection H as -> H. apply IH in H as [-> ->]; done.
Qed.

Lemma well_formed_valid (s : ustr) :
  well_formed s -> Forall (fun c => (c < 1114112)%N) s.
Proof.
  intros H. eapply Forall_impl; [exact H|].
  intros c Hc%is_scalar_range. lia.
Qed.

Lemma dumps_ustr_head (x : ustr) (R : string) :
  dumps_ustr x +:+ R = String (ascii_of_N 34) (json_escape_ustr x +:+ dquote +:+ R).
Proof. unfold dumps_ustr. rewrite !string_app_assoc. reflexivity. Qed.

(** The text of a string literal determines the string and the text after
    it, for strings of scalar values. *)
Lemma dumps_ustr_inj (x1 x2 : ustr) (r1 r2 : string) :
  well_formed x1 -> well_formed x2 ->
  dumps_ustr x1 +:+ r1 = dumps_ustr x2 +:+ r2 -> x1 = x2 /\ r1 = r2.
Proof.
  intros H1 H2. rewrite !dumps_ustr_head, !json_escape_utf16. intros [= H].
  apply escape_units_inj in H as [Hu ->];
    [|by apply utf16_units, well_formed_valid..].
  split; [|done]. by apply utf16_inj.
Qed.

Lemma string_tail_eq (c : ascii) (a b : string) : String c a = String c b -> a = b.
Proof. by intros [= ->]. Qed.

Lemma items_wide_inj (l1 : list ustr) : forall l2 R1 R2,
  Forall well_formed l1 -> Forall well_formed l2 ->
  join "," (map dumps_ustr l1) +:+ "]" +:+ R1
  = join "," (map dumps_ustr l2) +:+ "]" +:+ R2 ->
  l1 = l2 /\ R1 = R2.
Proof.
  induction l1 as [|x1 l1 IH]; intros [|x2 l2] R1 R2 H1 H2 H.
  - change ("]" +:+ R1 = "]" +:+ R2) in H. by injection H.
  - rewrite join_cons, dumps_ustr_head in H. discriminate H.
  - rewrite join_cons, dumps_ustr_head in H. discriminate H.
  - apply Forall_cons in H1 as [Hx1 H1]. apply Forall_cons in H2 as [Hx2 H2].
    rewrite !join_cons in H. apply dumps_ustr_inj in H as [-> H]; [|done..].
    destruct l1 as [|y1 l1], l2 as [|y2 l2].
    + by injection H.
    + discriminate H.
    + discriminate H.
    + apply string_tail_eq in H. apply IH in H as [-> ->]; done.
Qed.

Lemma string_app_cancel (p a b : string) : p +:+ a = p +:+ b -> a = b.
Proof.
  induction p as [|c p IH]; [done|].
  change (String c (p +:+ a) = String c (p +:+ b) -> a = b).
  intros [= H]. by apply IH.
Qed.

Lemma array_wide_inj (l1 l2 : list ustr) (R1 R2 : string) :
  Forall well_formed l1 -> Forall well_formed l2 ->
  dumps_uvalue (UList l1) +:+ R1 = dumps_uvalue (UList l2) +:+ R2 ->
  l1 = l2 /\ R1 = R2.
Proof.
  intros H1 H2. cbn [dumps_uvalue]. rewrite !string_app_assoc. intros H.
  apply string_app_cancel in H. by apply items_wide_inj in H.
Qed.

Lemma codepoints_well_formed (s : string) : well_formed (codepoints s).
Proof.
  apply Forall_forall. intros c Hc. apply list_elem_of_In in Hc.
  apply in_map_iff in Hc as (a & <- & _).
  pose proof (N_ascii_bounded a) as Ha. unfold is_scalar.
  apply orb_true_iff. left. apply N.ltb_lt. lia.
Qed.

Lemma codepoints_inj (s1 s2 : string) : codepoints s1 = codepoints s2 -> s1 = s2.
Proof.
  unfold codepoints. intros H.
  rewrite <- (string_of_list_ascii_of_string s1),
          <- (string_of_list_ascii_of_string s2).
  f_equal. revert H. generalize (list_ascii_of_string s2).
  induction (list_ascii_of_string s1) as [|a l IH]; intros [|b l'] H;
    try done.
  cbn [map] in H. injection H as Hab H.
  apply (f_equal ascii_of_N) in Hab. rewrite !ascii_N_embedding in Hab.
  subst b. f_equal. by apply IH.
Qed.

Lemma dumps_member_wide (k : string) (v : UValue) (X : string) :
  (dumps_ustr (codepoints k) +:+ ":" +:+ dumps_uvalue v) +:+ X
  = dumps_ustr (codepoints k) +:+ String ":" (dumps_uvalue v +:+ X).
Proof. by rewrite !string_app_assoc. Qed.

Lemma dumps_search_params_wide locations conditions term newer older :
  dumps_wide (search_params_wide locations conditions term newer older) =
  String "{"
    (dumps_ustr (codepoints "searchTerm") +:+ String ":" (dumps_ustr term +:+
     String ","
    (dumps_ustr (codepoints "locations") +:+ String ":" (dumps_uvalue (UList locations) +:+
     String ","
    (dumps_ustr (codepoints "conditions") +:+ String ":" (dumps_uvalue (UList conditions) +:+
     String ","
    (dumps_ustr (codepoints "sort") +:+ String ":" (dumps_ustr (codepoints "DATE_ASC") +:+
     String ","
    (dumps_ustr (codepoints "newerThan") +:+ String ":" (dumps_ustr (codepoints newer) +:+
     String ","
    (dumps_ustr (codepoints "olderThan") +:+ String ":" (dumps_ustr (codepoints older) +:+
     String ","
    (dumps_ustr (codepoints "ended") +:+ String ":" ("false" +:+ "}")))))))))))))).
Proof.
  unfold dumps_wide, search_params_wide.
  cbn [map join fst snd dumps_uvalue].
  rewrite !string_app_assoc. reflexivity.
Qed.

Lemma dumps_wide_inj locs1 locs2 conds1 conds2 t1 t2 n1 n2 o1 o2 :
  well_formed t1 -> well_formed t2 ->
  Forall well_formed locs1 -> Forall well_formed locs2 ->
  Forall well_formed conds1 -> Forall well_formed conds2 ->
  dumps_wide (search_params_wide locs1 conds1 t1 n1 o1)
  = dumps_wide (search_params_wide locs2 conds2 t2 n2 o2) ->
  t1 = t2 /\ locs1 = locs2 /\ conds1 = conds2 /\ n1 = n2 /\ o1 = o2.
Proof.
  intros Ht1 Ht2 Hl1 Hl2 Hc1 Hc2. rewrite !dumps_search_params_wide. intros H.
  apply string_tail_eq, string_app_cancel, string_tail_eq in H.
  apply dumps_ustr_inj in H as [-> H]; [|done..].
  apply string_tail_eq, string_app_cancel, string_tail_eq in H.
  apply array_wide_inj in H as [-> H]; [|done..].
  apply string_tail_eq, string_app_cancel, string_tail_eq in H.
  apply array_wide_inj in H as [-> H]; [|done..].
  apply string_tail_eq, string_app_cancel, string_tail_eq in H.
  apply string_app_cancel in H.
  apply string_tail_eq, string_app_cancel, string_tail_eq in H.
  apply dumps_ustr_inj in H as [->%codepoints_inj H];
    [|apply codepoints_well_formed..].
  apply string_tail_eq, string_app_cancel, string_tail_eq in H.
  apply dumps_ustr_inj in H as [->%codepoints_inj H];
    [|apply codepoints_well_formed..].
  done.
Qed.

Lemma b64encode_inj (s1 s2 : string) : b64encode s1 = b64encode s2 -> s1 = s2.
Proof.
  intros H. apply (f_equal b64decode) in H. rewrite !b64decode_encode in H.
  by injection H.
Qed.

Lemma encode_search_url_wide_inj locs1 locs2 conds1 conds2 t1 t2 w1 w2 :
  well_formed t1 -> well_formed t2 ->
  Forall well_formed locs1 -> Forall well_formed locs2 ->
  Forall well_formed conds1 -> Forall well_formed conds2 ->
  encode_search_url_wide locs1 conds1 t1 w1
  = encode_search_url_wide locs2 conds2 t2 w2 ->
  t1 = t2 /\ locs1 = locs2 /\ conds1 = conds2 /\ w1 = w2.
Proof.
  intros Ht1 Ht2 Hl1 Hl2 Hc1 Hc2. unfold encode_search_url_wide. cbn zeta.
  intros H. do 2 apply string_app_cancel in H.
  apply b64encode_inj, dumps_wide_inj in H as (? & ? & ? & ? & ?); [|done..].
  destruct w1, w2. cbn [fst snd] in *. subst. done.
Qed.

(** On strings of the range U+0000..U+00FF the two builders agree. *)
Lemma json_escape_codepoints (s : string) :
  json_escape_ustr (codepoints s) = json_escape s.
Proof.
  induction s as [|c s IH]; [done|].
  change (codepoints (String c s)) with (N_of_ascii c :: codepoints s).
  cbn [json_escape_ustr json_escape]. rewrite IH. f_equal.
  clear. by destruct c as [[] [] [] [] [] [] [] []].
Qed.

Lemma dumps_ustr_codepoints (s : string) : dumps_ustr (codepoints s) = dumps_str s.
Proof. unfold dumps_ustr, dumps_str. by rewrite json_escape_codepoints. Qed.

Lemma build_search_url_wide_agrees (cfg : Config) (now : datetime) (term : string) :
  build_search_url_wide (codepoints <$> CINCINNATI_LOCATIONS cfg)
                        (codepoints <$> FILTERS_condition cfg)
                        now (codepoints term)
  = build_search_url cfg now term.
Proof.
  unfold build_search_url_wide, build_search_url.
  destruct (get_week_date_range now) as [[newer older]|]; [|done].
  cbn [mbind option_bind]. f_equal.
  unfold encode_search_url_wide, encode_search_url. cbn [fst snd]. do 3 f_equal.
  unfold dumps_wide, dumps, search_params_wide, search_params.
  cbn [map fst snd dumps_uvalue dumps_value].
  rewrite !dumps_ustr_codepoints.
  assert (Hm : forall l : list string,
            map dumps_ustr (codepoints <$> l) = map dumps_str l).
  { intros l. induction l as [|x l IHl]; [done|].
    cbn [fmap list_fmap map]. rewrite dumps_ustr_codepoints. f_equal. apply IHl. }
  by rewrite !Hm.
Qed.

Lemma scalar_string_well_formed (s : ustr) : scalar_string s = true -> well_formed s.
Proof.
  unfold scalar_string, well_formed. rewrite forallb_forall, Forall_forall.
  intros H c Hc. apply H. by apply list_elem_of_In.
Qed.

Lemma scalar_strings_well_formed (l : list ustr) :
  forallb scalar_string l = true -> Forall well_formed l.
Proof.
  rewrite forallb_forall, Forall_forall.
  intros H s Hs. apply scalar_string_well_formed, H. by apply list_elem_of_In.
Qed.

End WideStrings.

(** X20: the request URL determines the request, for strings of Unicode
    scalar values.  Two calls of [build_search_url] that yield the same URL
    were made with the same search term, the same location list, the same
    condition list and the same date window, provided that no string of
    either request holds a surrogate code point: the JSON text and its
    base64 form lose nothing then.  (A lone surrogate pair and the
    character it encodes are written alike, see
    [surrogate_pair_collides].) *)
Theorem same_url_same_request (locs1 locs2 conds1 conds2 : list ustr)
    (now1 now2 : datetime) (t1 t2 : ustr) (u : string) :
  scalar_string t1 = true -> scalar_string t2 = true ->
  forallb scalar_string locs1 = true -> forallb scalar_string locs2 = true ->
  forallb scalar_string conds1 = true -> forallb scalar_string conds2 = true ->
  build_search_url_wide locs1 conds1 now1 t1 = Some u ->
  build_search_url_wide locs2 conds2 now2 t2 = Some u ->
  t1 = t2 /\ locs1 = locs2 /\ conds1 = conds2 /\
  get_week_date_range now1 = get_week_date_range now2.
Proof.
  intros Ht1%scalar_string_well_formed Ht2%scalar_string_well_formed
         Hl1%scalar_strings_well_formed Hl2%scalar_strings_well_formed
         Hc1%scalar_strings_well_formed Hc2%scalar_strings_well_formed.
  unfold build_search_url_wide. intros H1 H2.
  destruct (get_week_date_range now1) as [w1|]; [|done].
  destruct (get_week_date_range now2) as [w2|]; [|done].
  cbn [mbind option_bind] in H1, H2.
  injection H1 as H1. injection H2 as H2. rewrite <- H2 in H1.
  apply encode_search_url_wide_inj in H1 as (? & ? & ? & ->); done.
Qed.

Lemma same_url_same_request_witness :
  get_week_date_range tuesday_noon = get_week_date_range thursday_morning.
Proof.
  eapply (same_url_same_request
            [codepoints "Cincinnati - School Road"]
            [codepoints "Cincinnati - School Road"]
            [codepoints "Brand New"] [codepoints "Brand New"]
            tuesday_noon thursday_morning
            [67; 97; 116; 32; 128049]%N [67; 97; 116; 32; 128049]%N).
  - reflexivity.
  - reflexivity.
  - reflexivity.
  - reflexivity.
  - reflexivity.
  - reflexivity.
  - vm_compute. reflexivity.
  - vm_compute. reflexivity.
Defined.

(** The search terms made of the lone surrogates U+D83D U+DC31 and of the
    character U+1F431 give the same URL. *)
Example surrogate_pair_collides :
  build_search_url_wide [] [] tuesday_noon [55357; 56369]%N
  = build_search_url_wide [] [] tuesday_noon [128049]%N.
Proof. reflexivity. Qed.

(** The URL for a search term with a character beyond U+FFFF, as Python
    builds it. *)
Example search_url_of_wide_term :
  build_search_url_wide [codepoints "Cincinnati - School Road"]
                        [codepoints "Brand New"]
                        tuesday_noon [67; 97; 116; 32; 128049]%N
  = Some ("https://www.bidft.auction/archive?searchSettings=" +:+
          "eyJzZWFyY2hUZXJtIjoiQ2F0IFx1ZDgzZFx1ZGMzMSIsImxvY2F0aW9ucyI6WyJDaW5j" +:+
          "aW5uYXRpIC0gU2Nob29sIFJvYWQiXSwiY29uZGl0aW9ucyI6WyJCcmFuZCBOZXciXSwi" +:+
          "c29ydCI6IkRBVEVfQVNDIiwibmV3ZXJUaGFuIjoiMjAyNi0xMS0wMVQwNDowMDowMC4w" +:+
          "MDBaIiwib2xkZXJUaGFuIjoiMjAyNi0xMS0wOFQwNDowMDowMC4wMDBaIiwiZW5kZWQi" +:+
          "OmZhbHNlfQ==").
Proof. reflexivity. Qed.
